(** * atlassian-confluence-dc-go-mcp: the request pipeline of [main.go]

    A shallow embedding of the configuration resolver, the argument mapper,
    the two transport helpers and the five tool handlers of [main.go],
    followed by the properties of the specification that were checked
    against them.

    Conventions of the embedding:
    - a Go [string] is a [string] of bytes; a Go [error] is its message;
    - a Go [int] is a [Z] in the 64-bit signed range, with the wrap-around of
      [+] written out ([wrap]);
    - [map[string]any] and [url.Values] are [gmap]s keyed by strings;
    - the network is a state threaded through the handlers ([Net]), which
      also records every exchange made through [executeRequest]. *)

From Stdlib Require Import ZArith String Ascii List Bool Lia.
From Stdlib Require Import SpecFloat.
From stdpp Require Import base strings gmap list pretty.

Local Open Scope Z_scope.

(* ===================================================================== *)
(** * The functions of Go's [strings] package that [main.go] calls *)
(* ===================================================================== *)

Module Strings.

(** [s[n:]] for [n <= len(s)]. *)
Fixpoint slice_from (n : nat) (s : string) : string :=
  match n, s with
  | O, _ => s
  | S n', String _ s' => slice_from n' s'
  | S _, EmptyString => EmptyString
  end.

(** [s[:n]] for [n <= len(s)]. *)
Fixpoint slice_to (n : nat) (s : string) : string :=
  match n, s with
  | O, _ => EmptyString
  | S n', String c s' => String c (slice_to n' s')
  | S _, EmptyString => EmptyString
  end.

(** [strings.HasPrefix(s, prefix)] *)
Fixpoint HasPrefix (s prefix : string) {struct prefix} : bool :=
  match prefix, s with
  | EmptyString, _ => true
  | String _ _, EmptyString => false
  | String c prefix', String d s' => Ascii.eqb d c && HasPrefix s' prefix'
  end.

(** [strings.HasSuffix(s, suffix)]:
    [len(s) >= len(suffix) && s[len(s)-len(suffix):] == suffix] *)
Definition HasSuffix (s suffix : string) : bool :=
  (String.length suffix <=? String.length s)%nat
  && String.eqb (slice_from (String.length s - String.length suffix) s) suffix.

(** [strings.TrimSuffix(s, suffix)] *)
Definition TrimSuffix (s suffix : string) : string :=
  if HasSuffix s suffix
  then slice_to (String.length s - String.length suffix) s
  else s.

(** [strings.Index(s, substr)]: the first position at which [substr]
    starts, [None] for Go's [-1]. *)
Fixpoint Index (s substr : string) : option nat :=
  if HasPrefix s substr then Some O
  else match s with
       | EmptyString => None
       | String _ s' => option_map S (Index s' substr)
       end.

(** [strings.Contains(s, substr)] is [Index(s, substr) >= 0]. *)
Definition Contains (s substr : string) : bool :=
  match Index s substr with Some _ => true | None => false end.

(** The number of positions of [s] at which [substr] starts. For a
    pattern that cannot overlap itself, such as [/rest/api], this is
    [strings.Count(s, substr)]. *)
Fixpoint occurrences (s substr : string) : nat :=
  ((if HasPrefix s substr then 1 else 0)
   + match s with
     | EmptyString => 0
     | String _ s' => occurrences s' substr
     end)%nat.

(** [strings.Split(s, sep)] for a non-empty [sep]: cut at each [Index]
    in turn, as [genSplit] does. [fuel] bounds the number of cuts;
    [Split] gives it the length of [s], which is never used up. *)
Fixpoint Split_fuel (fuel : nat) (s sep : string) : list string :=
  match fuel with
  | O => [s]
  | S fuel' =>
      match Index s sep with
      | None => [s]
      | Some m => slice_to m s :: Split_fuel fuel' (slice_from (m + String.length sep) s) sep
      end
  end.

Definition Split (s sep : string) : list string :=
  Split_fuel (String.length s) s sep.

(** [strings.ReplaceAll(s, old, new)] for a non-empty [old]: the
    occurrences found by [Index] from left to right, without overlap. *)
Fixpoint ReplaceAll_fuel (fuel : nat) (s old new : string) : string :=
  match fuel with
  | O => s
  | S fuel' =>
      match Index s old with
      | None => s
      | Some j =>
          slice_to j s +:+ new
            +:+ ReplaceAll_fuel fuel' (slice_from (j + String.length old) s) old new
      end
  end.

Definition ReplaceAll (s old new : string) : string :=
  ReplaceAll_fuel (String.length s) s old new.

(** The string made of the given byte values. *)
Definition bytes (l : list nat) : string :=
  fold_right (fun n s => String (ascii_of_nat n) s) EmptyString l.

(** The UTF-8 encodings of the runes for which [unicode.IsSpace] holds:
    tab, line feed, vertical tab, form feed, carriage return, space,
    U+0085, U+00A0, U+1680, U+2000 to U+200A, U+2028, U+2029, U+202F,
    U+205F and U+3000. *)
Definition spaceRunes : list string :=
  map bytes
    ([[9]; [10]; [11]; [12]; [13]; [32];
      [194; 133]; [194; 160]; [225; 154; 128]]
     ++ map (fun k => [226; 128; 128 + k]) (seq 0 11)
     ++ [[226; 128; 168]; [226; 128; 169]; [226; 128; 175];
         [226; 129; 159]; [227; 128; 128]])%nat.

(** Width in bytes of the space rune [s] starts with, if it does. *)
Definition leadingSpace (s : string) : option nat :=
  option_map String.length (find (HasPrefix s) spaceRunes).

(** Width in bytes of the space rune [s] ends with, if it does. *)
Definition trailingSpace (s : string) : option nat :=
  option_map String.length (find (HasSuffix s) spaceRunes).

Fixpoint trimLeftSpace (fuel : nat) (s : string) : string :=
  match fuel with
  | O => s
  | S fuel' =>
      match leadingSpace s with
      | Some w => trimLeftSpace fuel' (slice_from w s)
      | None => s
      end
  end.

Fixpoint trimRightSpace (fuel : nat) (s : string) : string :=
  match fuel with
  | O => s
  | S fuel' =>
      match trailingSpace s with
      | Some w => trimRightSpace fuel' (slice_to (String.length s - w) s)
      | None => s
      end
  end.

(** [strings.TrimSpace(s)]: [s] without its leading and trailing space
    runes. Each round removes at least one byte, so the length of [s]
    is fuel enough. *)
Definition TrimSpace (s : string) : string :=
  let l := trimLeftSpace (String.length s) s in
  trimRightSpace (String.length l) l.

End Strings.

Import Strings.

(* ===================================================================== *)
(** * Values of the Go runtime *)
(* ===================================================================== *)

(** A call that returns [(T, error)]: the value, or the message of the
    error. *)
Inductive result (A : Type) : Type :=
  | Ok (a : A)
  | Err (msg : string).
Arguments Ok {A} a.
Arguments Err {A} msg.

(** Go's [int] on a 64-bit platform. *)
Definition minInt : Z := - 2 ^ 63.
Definition maxInt : Z := 2 ^ 63 - 1.

Definition is_int (z : Z) : Prop := minInt <= z <= maxInt.

Definition in_int_range (z : Z) : bool := (minInt <=? z) && (z <=? maxInt).

(** Two's-complement wrap-around into the range of [int]. *)
Definition wrap (z : Z) : Z := (z + 2 ^ 63) mod 2 ^ 64 - 2 ^ 63.

(** [a + b] on [int]. *)
Definition int_add (a b : Z) : Z := wrap (a + b).

(** The value of a [float64] cut towards zero; [None] for an infinity or a
    NaN. A finite float64 is [(-1)^s * m * 2^e]. *)
Definition truncate (f : spec_float) : option Z :=
  match f with
  | S754_zero _ => Some 0
  | S754_finite s m e =>
      let a := if 0 <=? e then Z.shiftl (Zpos m) e else Z.shiftr (Zpos m) (- e) in
      Some (if s then - a else a)
  | S754_infinity _ | S754_nan => None
  end.

(** The float64 of an integer literal, for the examples: [float64(z)] when
    [|z| < 2^53]. *)
Definition float64_of_Z (z : Z) : spec_float :=
  match z with
  | Z0 => S754_zero false
  | Zpos p => S754_finite false p 0
  | Zneg p => S754_finite true p 0
  end.

(** A value of type [any], as [encoding/json] and the callers of the
    handlers produce them. *)
#[warnings="-register-all"]
Inductive any : Type :=
  | AnyNil
  | AnyBool (b : bool)
  | AnyFloat64 (f : spec_float)
  | AnyString (s : string)
  | AnyArray (l : list any)
  | AnyObject (m : gmap string any).

(** [v, ok := x.(string)] where [x] is the result of indexing a
    [map[string]any]: a missing key gives the nil interface, for which the
    assertion fails. *)
Definition assert_string (x : option any) : string * bool :=
  match x with
  | Some (AnyString s) => (s, true)
  | _ => (EmptyString, false)
  end.

(** [v, ok := x.(float64)] *)
Definition assert_float64 (x : option any) : option spec_float :=
  match x with
  | Some (AnyFloat64 f) => Some f
  | _ => None
  end.

Section Conversion.

(** The Go specification leaves [int(f)] to the implementation when the
    value of [f] does not fit [int]; [convOutOfRange] is what the
    platform answers then. *)
Variable convOutOfRange : spec_float -> Z.

(** [int(f)] for [f] of type [float64]. *)
Definition int_of_float64 (f : spec_float) : Z :=
  match truncate f with
  | Some z => if in_int_range z then z else wrap (convOutOfRange f)
  | None => wrap (convOutOfRange f)
  end.

End Conversion.

(** On amd64 the conversion instruction answers the smallest [int] for
    every value out of range. *)
Definition amd64 : spec_float -> Z := fun _ => minInt.

(** [fmt.Sprintf("%d", n)] *)
Definition fmt_d (n : Z) : string := pretty n.

(* ===================================================================== *)
(** * Configuration resolver *)
(* ===================================================================== *)

(** [ConfluenceConfig] *)
Record ConfluenceConfig : Type := {
  BaseURL : string;
  Token : string
}.

(** The fields of [url.URL]. *)
Record URL : Type := {
  Scheme : string;
  Opaque : string;
  User : option (string * option string);
  Host : string;
  Path : string;
  RawPath : string;
  OmitHost : bool;
  ForceQuery : bool;
  RawQuery : string;
  Fragment : string;
  RawFragment : string
}.

(** [u.Path = p] *)
Definition set_Path (p : string) (u : URL) : URL :=
  {| Scheme := Scheme u; Opaque := Opaque u; User := User u; Host := Host u;
     Path := p; RawPath := RawPath u; OmitHost := OmitHost u;
     ForceQuery := ForceQuery u; RawQuery := RawQuery u;
     Fragment := Fragment u; RawFragment := RawFragment u |}.

(** The process environment; [os.Getenv] answers the empty string for a
    variable that is not set. *)
Definition Getenv (env : gmap string string) (key : string) : string :=
  default EmptyString (env !! key).

(** The path fix-up of [loadConfig] (lines 62-64). *)
Definition apiRoot : string := "/rest/api".

Definition withApiRoot (path : string) : string :=
  if negb (Contains path apiRoot)
  then TrimSuffix path "/" +:+ apiRoot
  else path.

Section LoadConfig.

(** [url.Parse] and the [String] method of [net/url]. *)
Variable url_Parse : string -> result URL.
Variable url_String : URL -> string.

(** The endpoint source: the first non-empty of the three variables. *)
Definition rawEndpoint (env : gmap string string) : string :=
  let rawURL := Getenv env "CONFLUENCE_BASE_URL" in
  let rawURL :=
    if String.eqb rawURL "" then Getenv env "CONFLUENCE_API_BASE_PATH" else rawURL in
  let rawURL :=
    if String.eqb rawURL "" then Getenv env "CONFLUENCE_HOST" else rawURL in
  rawURL.

(** Lines 49-51: the text handed to [url.Parse]. *)
Definition withScheme (rawURL : string) : string :=
  if negb (Contains rawURL "://") then "https://" +:+ rawURL else rawURL.

(** [loadConfig] up to the [return]: the URL that is then serialised. *)
Definition resolveURL (env : gmap string string) : result URL :=
  let token := Getenv env "CONFLUENCE_API_TOKEN" in
  if String.eqb token "" then
    Err "CONFLUENCE_API_TOKEN environment variable is required"
  else
    let rawURL := rawEndpoint env in
    if String.eqb rawURL "" then
      Err "CONFLUENCE_BASE_URL (or CONFLUENCE_HOST) environment variable is required"
    else
      let rawURL := withScheme rawURL in
      match url_Parse rawURL with
      | Err e => Err ("invalid base URL: " +:+ e)
      | Ok u =>
          if negb (HasPrefix (Scheme u) "http") then
            Err "base URL must use http or https scheme"
          else
            Ok (set_Path (withApiRoot (Path u)) u)
      end.

(** [loadConfig] *)
Definition loadConfig (env : gmap string string) : result ConfluenceConfig :=
  match resolveURL env with
  | Err e => Err e
  | Ok u => Ok {| BaseURL := url_String u; Token := Getenv env "CONFLUENCE_API_TOKEN" |}
  end.

End LoadConfig.

(* ===================================================================== *)
(** * A reference parser for the examples *)
(* ===================================================================== *)

(** [loadConfig] is stated over any [url.Parse]. The examples below need a
    concrete one: [NetURL.Parse] follows [net/url] on the URLs written with
    letters, digits and the bytes [- . _ ~ / : +] only, where no escaping
    is involved, and reports every other input as an error of its own (which
    [net/url] does not). *)
Module NetURL.

Definition is_letter (c : ascii) : bool :=
  let n := nat_of_ascii c in
  ((97 <=? n) && (n <=? 122) || (65 <=? n) && (n <=? 90))%nat.

Definition is_digit (c : ascii) : bool :=
  let n := nat_of_ascii c in ((48 <=? n) && (n <=? 57))%nat.

Definition is_plain (c : ascii) : bool :=
  is_letter c || is_digit c
  || existsb (Ascii.eqb c) ["-"; "."; "_"; "~"; "/"; ":"; "+"]%char.

Fixpoint all_bytes (p : ascii -> bool) (s : string) : bool :=
  match s with
  | EmptyString => true
  | String c s' => p c && all_bytes p s'
  end.

(** [getScheme]: [(scheme, rest)], scanning [rawURL] from position [i]. *)
Fixpoint getScheme_from (i : nat) (rawURL s : string) : result (string * string) :=
  match s with
  | EmptyString => Ok (EmptyString, rawURL)
  | String c s' =>
      if is_letter c then getScheme_from (S i) rawURL s'
      else if is_digit c || existsb (Ascii.eqb c) ["+"; "-"; "."]%char then
        match i with
        | O => Ok (EmptyString, rawURL)
        | S _ => getScheme_from (S i) rawURL s'
        end
      else if Ascii.eqb c ":" then
        match i with
        | O => Err "missing protocol scheme"
        | S _ => Ok (slice_to i rawURL, s')
        end
      else Ok (EmptyString, rawURL)
  end.

Definition getScheme (rawURL : string) : result (string * string) :=
  getScheme_from O rawURL rawURL.

Definition lower (c : ascii) : ascii :=
  let n := nat_of_ascii c in
  if ((65 <=? n) && (n <=? 90))%nat then ascii_of_nat (n + 32) else c.

Fixpoint ToLower (s : string) : string :=
  match s with
  | EmptyString => EmptyString
  | String c s' => String (lower c) (ToLower s')
  end.

(** [strings.LastIndex(s, substr)] *)
Fixpoint LastIndex (s substr : string) : option nat :=
  match s with
  | EmptyString => if HasPrefix s substr then Some O else None
  | String _ s' =>
      match LastIndex s' substr with
      | Some i => Some (S i)
      | None => if HasPrefix s substr then Some O else None
      end
  end.

(** [validOptionalPort] *)
Definition validOptionalPort (port : string) : bool :=
  match port with
  | EmptyString => true
  | String c digits => Ascii.eqb c ":" && all_bytes is_digit digits
  end.

(** [strconv.Quote] of a string of plain bytes, as [%q] prints it. *)
Definition quoted (s : string) : string :=
  String "034" s +:+ String "034" EmptyString.

(** [parseHost], without brackets or escapes in [host]. *)
Definition parseHost (host : string) : result string :=
  match LastIndex host ":" with
  | Some i =>
      let colonPort := slice_from i host in
      if validOptionalPort colonPort then Ok host
      else Err ("invalid port " +:+ quoted colonPort +:+ " after host")
  | None => Ok host
  end.

(** The first segment of a path: [strings.Cut(rest, "/")]. *)
Definition firstSegment (rest : string) : string :=
  match Index rest "/" with
  | Some i => slice_to i rest
  | None => rest
  end.

(** [parse(rawURL, false)] when [rawURL] has no fragment and no query. *)
Definition parse (rawURL : string) : result URL :=
    match getScheme rawURL with
    | Err e => Err e
    | Ok (scheme, rest) =>
        let scheme := ToLower scheme in
        if negb (HasPrefix rest "/") && negb (String.eqb scheme "") then
          Ok {| Scheme := scheme; Opaque := rest; User := None; Host := "";
                Path := ""; RawPath := ""; OmitHost := false;
                ForceQuery := false; RawQuery := ""; Fragment := "";
                RawFragment := "" |}
        else if negb (HasPrefix rest "/") && Contains (firstSegment rest) ":" then
          Err "first path segment in URL cannot contain colon"
        else if (negb (String.eqb scheme "") || negb (HasPrefix rest "///"))
                && HasPrefix rest "//" then
          let authority := slice_from 2 rest in
          let '(authority, rest) :=
            match Index authority "/" with
            | Some i => (slice_to i authority, slice_from i authority)
            | None => (authority, EmptyString)
            end in
          match parseHost authority with
          | Err e => Err e
          | Ok host =>
              Ok {| Scheme := scheme; Opaque := ""; User := None; Host := host;
                    Path := rest; RawPath := ""; OmitHost := false;
                    ForceQuery := false; RawQuery := ""; Fragment := "";
                    RawFragment := "" |}
          end
        else
          Ok {| Scheme := scheme; Opaque := ""; User := None; Host := "";
                Path := rest; RawPath := "";
                OmitHost := negb (String.eqb scheme "") && HasPrefix rest "/";
                ForceQuery := false; RawQuery := ""; Fragment := "";
                RawFragment := "" |}
    end.

(** [url.Parse]: an error of [parse] is wrapped with the operation and
    the input. *)
Definition Parse (rawURL : string) : result URL :=
  if negb (all_bytes is_plain rawURL) then
    Err "net/url: outside the reference parser"
  else
    match parse rawURL with
    | Err e => Err ("parse " +:+ quoted rawURL +:+ ": " +:+ e)
    | Ok u => Ok u
    end.

(** The [String] method, for a URL without user information whose host,
    path and fragment need no escaping. *)
Definition String (u : URL) : string :=
  let buf := if String.eqb (Scheme u) "" then EmptyString else Scheme u +:+ ":" in
  let buf :=
    if negb (String.eqb (Opaque u) "") then buf +:+ Opaque u
    else
      let buf :=
        if negb (String.eqb (Scheme u) "") || negb (String.eqb (Host u) "") then
          if OmitHost u && String.eqb (Host u) "" then buf
          else
            let buf :=
              if negb (String.eqb (Host u) "") || negb (String.eqb (Path u) "")
              then buf +:+ "//" else buf in
            buf +:+ Host u
        else buf in
      let path := Path u in
      let buf :=
        if negb (String.eqb path "") && negb (HasPrefix path "/")
           && negb (String.eqb (Host u) "")
        then buf +:+ "/" else buf in
      let buf :=
        if String.eqb buf "" && Contains (firstSegment path) ":"
        then buf +:+ "./" else buf in
      buf +:+ path in
  let buf :=
    if ForceQuery u || negb (String.eqb (RawQuery u) "")
    then buf +:+ "?" +:+ RawQuery u else buf in
  if negb (String.eqb (Fragment u) "") then buf +:+ "#" +:+ Fragment u else buf.

End NetURL.

(** The environment of a test: the variables it sets. *)
Definition env_of (l : list (string * string)) : gmap string string :=
  list_to_map l.

(* ===================================================================== *)
(** * Wire types *)
(* ===================================================================== *)

(** [SpaceRef] *)
Record SpaceRef : Type := { Key : string }.

(** [BodyStorage] *)
Record BodyStorage : Type := { Value : string; Representation : string }.

(** [Body]; a nil pointer is [None]. *)
Record Body : Type := { Storage : option BodyStorage }.

(** [Version] *)
Record Version : Type := { Number : Z; Message : string }.

(** [Ancestor] *)
Record Ancestor : Type := { AncestorID : string }.

(** [ConfluencePage] *)
Record ConfluencePage : Type := {
  ID : string;
  PageType : string;
  Title : string;
  Space : option SpaceRef;
  PageBody : option Body;
  PageVersion : option Version;
  Ancestors : list Ancestor
}.

(** [url.Values], with its [Set] and [Get]. *)
Abbreviation Values := (gmap string (list string)).

Definition Values_Set (query : Values) (key value : string) : Values :=
  <[key := [value]]> query.

Definition Values_Get (query : Values) (key : string) : string :=
  match query !! key with
  | Some (v :: _) => v
  | _ => EmptyString
  end.

(** The arguments of one call of [executeRequest]; a nil [query] is the
    empty map, a nil [body] is [None]. *)
Record Request : Type := {
  Method : string;
  RelPath : string;
  Query : Values;
  Payload : option ConfluencePage
}.

(** What the client reads of an [http.Response]: the status code and the
    body stream, which delivers [BodyData] and then ends, or fails with
    [BodyErr] after it. *)
Record Response : Type := {
  StatusCode : Z;
  BodyData : string;
  BodyErr : option string
}.

(** [io.ReadAll(resp.Body)] *)
Definition ReadAll (resp : Response) : result string :=
  match BodyErr resp with
  | None => Ok (BodyData resp)
  | Some e => Err e
  end.

(** [respBytes, _ := io.ReadAll(io.LimitReader(resp.Body, n))]: the bytes
    read, whatever the error. *)
Definition ReadAll_limit (n : nat) (resp : Response) : string :=
  slice_to n (BodyData resp).

(** [mcp.CallToolRequest]: the tool name and [Params.Arguments]. *)
Record CallToolRequest : Type := {
  Params_Name : string;
  Params_Arguments : any
}.

(** [mcp.CallToolResult] with one text content. *)
Record CallToolResult : Type := {
  IsError : bool;
  Text : string
}.

Definition NewToolResultError (msg : string) : CallToolResult :=
  {| IsError := true; Text := msg |}.

Definition NewToolResultText (text : string) : CallToolResult :=
  {| IsError := false; Text := text |}.

Definition defaultLimit : Z := 25.

(* ===================================================================== *)
(** * What the program does not define *)
(* ===================================================================== *)

(** The surroundings of the client:
    - [roundTrip] is [executeRequest] seen from its caller: the remote
      side, in some state, answers a call with a response or with the error
      [executeRequest] returns (base URL, request construction, network);
    - [json_Decode data err] is [json.NewDecoder(body).Decode(&page)] on a
      body stream that delivers [data] and then ends or fails with [err],
      [page] being a zero [ConfluencePage];
    - [convOutOfRange] is the platform's answer for [int(f)] out of
      range. *)
Class Platform : Type := {
  Remote : Type;
  roundTrip : Remote -> Request -> Remote * result Response;
  json_Decode : string -> option string -> result ConfluencePage;
  convOutOfRange : spec_float -> Z
}.

(* ===================================================================== *)
(** * Transport client *)
(* ===================================================================== *)

Section Client.

Context `{Platform}.

(** The state of a run: the remote side and the exchanges so far, oldest
    first. *)
Record NetState : Type := {
  remote : Remote;
  exchanges : list (Request * result Response)
}.

(** A computation that talks to the remote side. *)
Definition Net (A : Type) : Type := NetState -> A * NetState.

Definition ret {A : Type} (a : A) : Net A := fun st => (a, st).

Definition bind {A B : Type} (m : Net A) (k : A -> Net B) : Net B :=
  fun st => let (a, st') := m st in k a st'.

Local Notation "'let*' x ':=' m 'in' k" :=
  (bind m (fun x => k)) (at level 10, x name, k at level 200).

(** [executeRequest] *)
Definition executeRequest (method path : string) (query : Values)
    (body : option ConfluencePage) : Net (result Response) :=
  fun st =>
    let rq := {| Method := method; RelPath := path; Query := query; Payload := body |} in
    let (remote', out) := roundTrip (remote st) rq in
    (out, {| remote := remote'; exchanges := exchanges st ++ [(rq, out)] |}).

(** [doRequest] *)
Definition doRequest (method path : string) (query : Values)
    (body : option ConfluencePage) : Net (result string) :=
  let* r := executeRequest method path query body in
  match r with
  | Err e => ret (Err e)
  | Ok resp =>
      match ReadAll resp with
      | Err e => ret (Err ("failed to read response body: " +:+ e))
      | Ok respBytes =>
          if 400 <=? StatusCode resp then
            ret (Err ("API error (status " +:+ fmt_d (StatusCode resp) +:+ "): "
                      +:+ respBytes))
          else ret (Ok respBytes)
      end
  end.

(** [getJSON] with a [ConfluencePage] target, which is returned. *)
Definition getJSON (path : string) (query : Values) : Net (result ConfluencePage) :=
  let* r := executeRequest "GET" path query None in
  match r with
  | Err e => ret (Err e)
  | Ok resp =>
      if 400 <=? StatusCode resp then
        let respBytes := ReadAll_limit 1024 resp in
        ret (Err ("API error (status " +:+ fmt_d (StatusCode resp) +:+ "): "
                  +:+ respBytes))
      else
        match json_Decode (BodyData resp) (BodyErr resp) with
        | Err e => ret (Err ("failed to decode JSON: " +:+ e))
        | Ok target => ret (Ok target)
        end
  end.

(* =================================================================== *)
(** * Argument mapper *)
(* =================================================================== *)

(** [getArguments] *)
Definition getArguments (req : CallToolRequest) : result (gmap string any) :=
  match Params_Arguments req with
  | AnyNil => Ok ∅
  | AnyObject args => Ok args
  | _ => Err "arguments are not a JSON object"
  end.

(** [ensureExpand] *)
Definition ensureExpand (current required : string) : string :=
  if String.eqb current "" then required
  else if existsb (fun p => String.eqb (TrimSpace p) required) (Split current ",")
  then current
  else current +:+ "," +:+ required.

(** [newQueryWithCommonArgs] *)
Definition newQueryWithCommonArgs (args : gmap string any) : Values :=
  let query : Values := ∅ in
  let query :=
    match assert_float64 (args !! "limit") with
    | Some limit => Values_Set query "limit" (fmt_d (int_of_float64 convOutOfRange limit))
    | None => Values_Set query "limit" (fmt_d defaultLimit)
    end in
  let query :=
    match assert_float64 (args !! "start") with
    | Some start => Values_Set query "start" (fmt_d (int_of_float64 convOutOfRange start))
    | None => query
    end in
  let query :=
    match assert_string (args !! "expand") with
    | (expand, true) =>
        if negb (String.eqb expand "") then Values_Set query "expand" expand else query
    | (_, false) => query
    end in
  query.

(* =================================================================== *)
(** * Operation handlers *)
(* =================================================================== *)

(** The test of lines 266 and 373. *)
Definition traversal (contentID : string) : bool :=
  Contains contentID "/" || Contains contentID "..".

(** [handleGetContent] *)
Definition handleGetContent (req : CallToolRequest) : Net CallToolResult :=
  match getArguments req with
  | Err e => ret (NewToolResultError e)
  | Ok args =>
      let '(contentID, ok) := assert_string (args !! "contentId") in
      if negb ok || String.eqb contentID "" then
        ret (NewToolResultError "contentId must be a string and is required")
      else if traversal contentID then
        ret (NewToolResultError "invalid contentId format")
      else
        let query := newQueryWithCommonArgs args in
        let query :=
          Values_Set query "expand" (ensureExpand (Values_Get query "expand") "body.storage") in
        let* r := doRequest "GET" ("/content/" +:+ contentID) query None in
        match r with
        | Err e => ret (NewToolResultError ("error getting content: " +:+ e))
        | Ok resp => ret (NewToolResultText resp)
        end
  end.

(** [handleSearchContent] *)
Definition handleSearchContent (req : CallToolRequest) : Net CallToolResult :=
  match getArguments req with
  | Err e => ret (NewToolResultError e)
  | Ok args =>
      let '(cql, ok) := assert_string (args !! "cql") in
      if negb ok || String.eqb cql "" then
        ret (NewToolResultError "cql must be a string and is required")
      else
        let query := newQueryWithCommonArgs args in
        let query := Values_Set query "cql" cql in
        let* r := doRequest "GET" "/search" query None in
        match r with
        | Err e => ret (NewToolResultError ("error searching content: " +:+ e))
        | Ok resp => ret (NewToolResultText resp)
        end
  end.

(** The payload of [handleCreateContent]. *)
Definition createPayload (typeStr title spaceKey contentStr parentID : string)
    : ConfluencePage :=
  {| ID := EmptyString;
     PageType := typeStr;
     Title := title;
     Space := Some {| Key := spaceKey |};
     PageBody := Some {| Storage := Some {| Value := contentStr;
                                            Representation := "storage" |} |};
     PageVersion := None;
     Ancestors :=
       if negb (String.eqb parentID "") then [{| AncestorID := parentID |}] else [] |}.

(** [handleCreateContent] *)
Definition handleCreateContent (req : CallToolRequest) : Net CallToolResult :=
  match getArguments req with
  | Err e => ret (NewToolResultError e)
  | Ok args =>
      let '(title, ok) := assert_string (args !! "title") in
      if negb ok || String.eqb title "" then
        ret (NewToolResultError "title is required")
      else
        let '(spaceKey, ok) := assert_string (args !! "spaceKey") in
        if negb ok || String.eqb spaceKey "" then
          ret (NewToolResultError "spaceKey is required")
        else
          let '(contentStr, ok) := assert_string (args !! "content") in
          if negb ok || String.eqb contentStr "" then
            ret (NewToolResultError "content is required")
          else
            let '(typeStr, ok) := assert_string (args !! "type") in
            let typeStr := if negb ok || String.eqb typeStr "" then "page" else typeStr in
            let parentID := fst (assert_string (args !! "parentId")) in
            let payload := createPayload typeStr title spaceKey contentStr parentID in
            let* r := doRequest "POST" "/content" ∅ (Some payload) in
            match r with
            | Err e => ret (NewToolResultError ("error creating content: " +:+ e))
            | Ok resp => ret (NewToolResultText resp)
            end
  end.

(** Lines 384-392 of [handleUpdateContent]: the new version, [None] when
    it cannot be determined. *)
Definition newVersion (args : gmap string any) (currentData : ConfluencePage)
    : option Z :=
  match assert_float64 (args !! "version") with
  | Some v => Some (int_of_float64 convOutOfRange v)
  | None =>
      match PageVersion currentData with
      | None => None
      | Some version => Some (int_add (Number version) 1)
      end
  end.

(** Lines 394-423 of [handleUpdateContent]: the payload of the PUT. *)
Definition updatePayload (args : gmap string any) (contentID : string)
    (currentData : ConfluencePage) (newVersion : Z) : ConfluencePage :=
  let title := fst (assert_string (args !! "title")) in
  let contentStr := fst (assert_string (args !! "content")) in
  let versionComment := fst (assert_string (args !! "versionComment")) in
  {| ID := contentID;
     PageType := PageType currentData;
     Title := if negb (String.eqb title "") then title else Title currentData;
     Space := Space currentData;
     PageBody :=
       if negb (String.eqb contentStr "") then
         Some {| Storage := Some {| Value := contentStr; Representation := "storage" |} |}
       else
         match PageBody currentData with
         | Some body => Some body
         | None => None
         end;
     PageVersion := Some {| Number := newVersion; Message := versionComment |};
     Ancestors := [] |}.

(** The query of the GET of [handleUpdateContent] (lines 377-378). *)
Definition updateQuery (args : gmap string any) : Values :=
  Values_Set (newQueryWithCommonArgs args) "expand" "body.storage,version,space".

(** [handleUpdateContent] *)
Definition handleUpdateContent (req : CallToolRequest) : Net CallToolResult :=
  match getArguments req with
  | Err e => ret (NewToolResultError e)
  | Ok args =>
      let '(contentID, ok) := assert_string (args !! "contentId") in
      if negb ok || String.eqb contentID "" then
        ret (NewToolResultError "contentId is required")
      else if traversal contentID then
        ret (NewToolResultError "invalid contentId format")
      else
        let query := updateQuery args in
        let* r := getJSON ("/content/" +:+ contentID) query in
        match r with
        | Err e =>
            ret (NewToolResultError ("failed to retrieve current content: " +:+ e))
        | Ok currentData =>
            match newVersion args currentData with
            | None =>
                ret (NewToolResultError
                       "could not determine current version from API response")
            | Some version =>
                let payload := updatePayload args contentID currentData version in
                let* r := doRequest "PUT" ("/content/" +:+ contentID) ∅ (Some payload) in
                match r with
                | Err e => ret (NewToolResultError ("error updating content: " +:+ e))
                | Ok resp => ret (NewToolResultText resp)
                end
            end
        end
  end.

(** The double quote, and the backslash followed by it. *)
Definition dquote : string := String "034" EmptyString.
Definition escaped_dquote : string := String "092" dquote.

(** Lines 442-449 of [handleListSpaces]. *)
Definition spacesCQL (args : gmap string any) : string :=
  let searchText := fst (assert_string (args !! "searchText")) in
  if String.eqb searchText "" then "type=space"
  else
    let safeSearchText := ReplaceAll searchText dquote escaped_dquote in
    "type=space AND title ~ " +:+ dquote +:+ safeSearchText +:+ dquote.

(** [handleListSpaces] *)
Definition handleListSpaces (req : CallToolRequest) : Net CallToolResult :=
  match getArguments req with
  | Err e => ret (NewToolResultError e)
  | Ok args =>
      let cql := spacesCQL args in
      let query := newQueryWithCommonArgs args in
      let query := Values_Set query "cql" cql in
      let* r := doRequest "GET" "/search" query None in
      match r with
      | Err e => ret (NewToolResultError ("error listing spaces: " +:+ e))
      | Ok resp => ret (NewToolResultText resp)
      end
  end.

(** The tools registered by [setupServer], and the handler of each. *)
Inductive Tool : Type :=
  | confluence_get_content
  | confluence_search_content
  | confluence_create_content
  | confluence_update_content
  | confluence_list_spaces.

Definition handler (tool : Tool) : CallToolRequest -> Net CallToolResult :=
  match tool with
  | confluence_get_content => handleGetContent
  | confluence_search_content => handleSearchContent
  | confluence_create_content => handleCreateContent
  | confluence_update_content => handleUpdateContent
  | confluence_list_spaces => handleListSpaces
  end.

(** The requests a run has sent, oldest first. *)
Definition sent (st : NetState) : list Request := map fst (exchanges st).

End Client.

(* ===================================================================== *)
(** * Test doubles *)
(* ===================================================================== *)

(** A JSON text written with single quotes in place of double quotes. *)
Definition js (s : string) : string := ReplaceAll s "'" dquote.

(** A decoder known by its graph on the bodies of the examples; every
    other body is reported as malformed. *)
Definition decodeFrom (table : list (string * ConfluencePage))
    (data : string) (err : option string) : result ConfluencePage :=
  match find (fun entry => String.eqb (fst entry) data) table with
  | Some (_, page) => Ok page
  | None => Err (default "invalid character" err)
  end.

(** A stateless remote side, like the [httptest] servers of
    [main_test.go], on amd64. *)
Definition testServer (serve : Request -> result Response)
    (table : list (string * ConfluencePage)) : Platform :=
  {| Remote := unit;
     roundTrip := fun _ rq => (tt, serve rq);
     json_Decode := decodeFrom table;
     convOutOfRange := amd64 |}.

(** The state a handler starts in. *)
Definition start (P : Platform) (r : @Remote P) : @NetState P :=
  {| remote := r; exchanges := [] |}.

(** A call with the given arguments object. *)
Definition call (args : list (string * any)) : CallToolRequest :=
  {| Params_Name := EmptyString; Params_Arguments := AnyObject (list_to_map args) |}.

(** One call of a tool on a fresh connection: the result and the final
    state. *)
Definition run (P : Platform) (r : @Remote P) (tool : Tool)
    (args : list (string * any)) : CallToolResult * @NetState P :=
  @handler P tool (call args) (start P r).

Definition status (code : Z) (body : string) : result Response :=
  Ok {| StatusCode := code; BodyData := body; BodyErr := None |}.

(** A page as [encoding/json] decodes it from the fields given. *)
Definition page (id title : string) (body : option string) (version : option Z)
    : ConfluencePage :=
  {| ID := id; PageType := EmptyString; Title := title; Space := None;
     PageBody :=
       option_map (fun v => {| Storage := Some {| Value := v; Representation := "" |} |}) body;
     PageVersion := option_map (fun n => {| Number := n; Message := "" |}) version;
     Ancestors := [] |}.

(** The server of [TestHandleUpdateContent]: the current page on GET, the
    updated one on PUT. *)
Definition currentJSON : string :=
  js "{'id':'123','title':'Old Title','version':{'number':1}}".

Definition updatedJSON : string :=
  js "{'id':'123','title':'New Title','version':{'number':2}}".

Definition updateServer : Platform :=
  testServer
    (fun rq => if String.eqb (Method rq) "GET" then status 200 currentJSON
               else status 200 updatedJSON)
    [(currentJSON, page "123" "Old Title" None (Some 1))].

(** A server whose current page carries the largest version number an
    [int] holds. *)
Definition maxVersionJSON : string :=
  js "{'id':'123','title':'Old Title','version':{'number':9223372036854775807}}".

Definition maxVersionServer : Platform :=
  testServer
    (fun rq => if String.eqb (Method rq) "GET" then status 200 maxVersionJSON
               else status 200 updatedJSON)
    [(maxVersionJSON, page "123" "Old Title" None (Some maxInt))].

(** A server that answers 500 and breaks the connection in the middle of
    the body. *)
Definition brokenServer : Platform :=
  testServer
    (fun _ => Ok {| StatusCode := 500; BodyData := "internal ser";
                    BodyErr := Some "unexpected EOF" |})
    [].

(** The float64 [2^63], the first value above the range of [int]. *)
Definition two_63 : spec_float := S754_finite false (2 ^ 52) 11.


(* ===================================================================== *)
(** * Vocabulary of the properties *)
(* ===================================================================== *)

(** The GET and PUT calls of [executeRequest] as the handlers make them. *)
Definition getRequest (path : string) (query : Values) : Request :=
  {| Method := "GET"; RelPath := path; Query := query; Payload := None |}.

Definition putRequest (path : string) (payload : ConfluencePage) : Request :=
  {| Method := "PUT"; RelPath := path; Query := ∅; Payload := Some payload |}.

(** The payloads of the PUT requests among [l]. *)
Definition submitted (l : list Request) : list ConfluencePage :=
  omap (fun rq => if String.eqb (Method rq) "PUT" then Payload rq else None) l.

(** The version number and the body of a payload. *)
Definition versionNumber (p : ConfluencePage) : option Z :=
  option_map Number (PageVersion p).

(** A call whose [contentId] passes the checks of lines 368-375. *)
Definition validContentCall (req : CallToolRequest) (args : gmap string any)
    (contentID : string) : Prop :=
  getArguments req = Ok args
  /\ args !! "contentId" = Some (AnyString contentID)
  /\ contentID <> EmptyString
  /\ traversal contentID = false.

(** [sub] occurs in [s]. *)
Definition occurs_in (sub s : string) : Prop :=
  exists a b, s = a +:+ sub +:+ b.

(** Following the specification of list-spaces: the text with every double
    quote replaced by a backslash and a double quote. *)
Fixpoint escapeQuotes (s : string) : string :=
  match s with
  | EmptyString => EmptyString
  | String c s' =>
      if Ascii.eqb c "034" then String "092" (String "034" (escapeQuotes s'))
      else String c (escapeQuotes s')
  end.

(** Following the specification of [ensureExpandContains]: [required] is
    one of the comma-separated tokens of [current], once trimmed. *)
Definition has_token (current required : string) : Prop :=
  exists p, In p (Split current ",") /\ TrimSpace p = required.

(** The number of positions of [path] at which the path segments
    [/rest/api] start: the text [/rest/api] followed by the end of the path
    or by a slash. *)
Definition segmentEnd (rest : string) : bool :=
  String.eqb rest "" || HasPrefix rest "/".

Fixpoint rootSegments (path : string) : nat :=
  ((if HasPrefix path apiRoot && segmentEnd (slice_from (String.length apiRoot) path)
    then 1 else 0)
   + match path with
     | EmptyString => 0
     | String _ path' => rootSegments path'
     end)%nat.

(** The variables [loadConfig] reads. *)
Definition configVariables : list string :=
  ["CONFLUENCE_API_TOKEN"; "CONFLUENCE_BASE_URL"; "CONFLUENCE_API_BASE_PATH";
   "CONFLUENCE_HOST"].

Section Observations.

Context `{Platform}.

(** What the remote side answers to [rq] in state [st]. *)
Definition answer (st : NetState) (rq : Request) : result Response :=
  snd (roundTrip (remote st) rq).

(** The state after the exchange of [rq]. *)
Definition after (st : NetState) (rq : Request) : NetState :=
  {| remote := fst (roundTrip (remote st) rq);
     exchanges := exchanges st ++ [(rq, answer st rq)] |}.

(** The limit [newQueryWithCommonArgs] sends. *)
Definition limitOf (args : gmap string any) : Z :=
  match assert_float64 (args !! "limit") with
  | Some limit => int_of_float64 convOutOfRange limit
  | None => defaultLimit
  end.

(** The exchanges a handler adds to those of [st]. *)
Definition added (st final : NetState)
    (new : list (Request * result Response)) : Prop :=
  exchanges final = exchanges st ++ new.

End Observations.

(** The error [doRequest] and [getJSON] build for a status of 400 or more. *)
Definition apiError (code : Z) (body : string) : string :=
  "API error (status " +:+ fmt_d code +:+ "): " +:+ body.


(* ===================================================================== *)
(** * Operation registry *)
(* ===================================================================== *)

(** A parameter of a tool as [setupServer] declares it with
    [mcp.WithString] or [mcp.WithNumber]. *)
Inductive ParamType : Type :=
  | StringParam
  | NumberParam.

Record ToolParam : Type := {
  ParamName : string;
  ParamKind : ParamType;
  ParamRequired : bool;
  ParamDescription : string
}.

Definition WithString (name : string) (required : bool) (description : string)
    : ToolParam :=
  {| ParamName := name; ParamKind := StringParam; ParamRequired := required;
     ParamDescription := description |}.

Definition WithNumber (name : string) (description : string) : ToolParam :=
  {| ParamName := name; ParamKind := NumberParam; ParamRequired := false;
     ParamDescription := description |}.

(** The parameters [setupServer] declares for each tool (lines 470-508). *)
Definition toolParams (tool : Tool) : list ToolParam :=
  match tool with
  | confluence_get_content =>
      [WithString "contentId" true "Confluence Data Center content ID";
       WithString "expand" false "Comma-separated list of properties to expand"]
  | confluence_search_content =>
      [WithString "cql" true
         "Confluence Query Language (CQL) search string for Confluence Data Center";
       WithNumber "limit" "Maximum number of results to return (default: 25)";
       WithNumber "start" "The starting index of the results to return";
       WithString "expand" false "Comma-separated list of properties to expand"]
  | confluence_create_content =>
      [WithString "title" true "The title of the new content";
       WithString "spaceKey" true "The key of the space where content will be created";
       WithString "content" true "The content of the page in Confluence storage format";
       WithString "type" false "The type of content (page or blogpost)";
       WithString "parentId" false "The ID of the parent content (optional)"]
  | confluence_update_content =>
      [WithString "contentId" true "The ID of the content to update";
       WithNumber "version"
         "The new version number (optional, defaults to current version + 1)";
       WithString "title" false "New title for the content";
       WithString "content" false "New content in storage format";
       WithString "versionComment" false "A comment for the new version"]
  | confluence_list_spaces =>
      [WithString "searchText" false
         "Text to search for in space names or descriptions (optional, returns all spaces if omitted)";
       WithNumber "limit" "Maximum number of spaces to return";
       WithNumber "start" "The starting index of the results to return";
       WithString "expand" false "Comma-separated list of properties to expand"]
  end.

(** The kind a value of [map[string]any] has when it fits a declaration. *)
Definition kindOf (value : any) : option ParamType :=
  match value with
  | AnyString _ => Some StringParam
  | AnyFloat64 _ => Some NumberParam
  | _ => None
  end.

(** The names of the parameters declared required. *)
Definition requiredParams (tool : Tool) : list string :=
  map ParamName (filter (fun p => ParamRequired p = true) (toolParams tool)).

(** [serveFunc] answers nil or an error; [run] (lines 515-528) resolves the
    configuration, builds the client and the server from it and hands the
    server, which the configuration determines, to [serve]. *)
Definition runWith (url_Parse : string -> result URL) (url_String : URL -> string)
    (env : gmap string string) (serve : ConfluenceConfig -> option string)
    : option string :=
  match loadConfig url_Parse url_String env with
  | Err e => Some ("configuration error: " +:+ e)
  | Ok config =>
      match serve config with
      | Some e => Some ("server error: " +:+ e)
      | None => None
      end
  end.

(* ===================================================================== *)
(** * Vocabulary of the further properties *)
(* ===================================================================== *)

(** The argument [key] holds a non-empty string. *)
Definition given (args : gmap string any) (key : string) : Prop :=
  exists s, args !! key = Some (AnyString s) /\ s <> EmptyString.

(** The argument keys each handler reads, directly or through
    [newQueryWithCommonArgs]. *)
Definition argumentsRead (tool : Tool) : list string :=
  match tool with
  | confluence_get_content => ["contentId"; "limit"; "start"; "expand"]
  | confluence_search_content => ["cql"; "limit"; "start"; "expand"]
  | confluence_create_content => ["title"; "spaceKey"; "content"; "type"; "parentId"]
  | confluence_update_content =>
      ["contentId"; "limit"; "start"; "expand"; "version"; "title"; "content";
       "versionComment"]
  | confluence_list_spaces => ["searchText"; "limit"; "start"; "expand"]
  end.

(** The [expand] argument as the handlers read it: the empty string when it is
    missing or not a string. *)
Definition expandOf (args : gmap string any) : string :=
  fst (assert_string (args !! "expand")).

(** How a handler words the outcome of its last [doRequest]. *)
Definition conclude (context : string) (r : result string) : CallToolResult :=
  match r with
  | Err e => NewToolResultError (context +:+ e)
  | Ok text => NewToolResultText text
  end.

(** The phrase each handler puts before the error of [doRequest]. *)
Definition errorContext (tool : Tool) : string :=
  match tool with
  | confluence_get_content => "error getting content: "
  | confluence_search_content => "error searching content: "
  | confluence_create_content => "error creating content: "
  | confluence_update_content => "error updating content: "
  | confluence_list_spaces => "error listing spaces: "
  end.

(** The method and the path of the request a tool other than the update
    sends. *)
Definition toolMethod (tool : Tool) : string :=
  match tool with
  | confluence_create_content => "POST"
  | _ => "GET"
  end.

Definition toolPath (tool : Tool) (args : gmap string any) : string :=
  match tool with
  | confluence_get_content | confluence_update_content =>
      "/content/" +:+ fst (assert_string (args !! "contentId"))
  | confluence_search_content | confluence_list_spaces => "/search"
  | confluence_create_content => "/content"
  end.

(** Every double quote of [s] comes right after a backslash; [escaped]
    tells whether the byte before [s] is one. *)
Fixpoint quotes_escaped (escaped : bool) (s : string) : bool :=
  match s with
  | EmptyString => true
  | String c s' =>
      (negb (Ascii.eqb c "034") || escaped) && quotes_escaped (Ascii.eqb c "092") s'
  end.

(** The pieces of [s] between its commas, from left to right. *)
Fixpoint tokens (s : string) : list string :=
  match s with
  | EmptyString => [EmptyString]
  | String c s' =>
      if Ascii.eqb c "," then EmptyString :: tokens s'
      else match tokens s' with
           | token :: rest => String c token :: rest
           | [] => [String c EmptyString]
           end
  end.

(** The argument is a non-empty string: the test [ok && s != ""] the
    handlers make on their required arguments. *)
Definition nonEmptyString (x : option any) : bool :=
  match x with
  | Some (AnyString s) => negb (String.eqb s "")
  | _ => false
  end.

(** The arguments pass the checks a handler makes before it sends
    anything. *)
Definition accepts (tool : Tool) (args : gmap string any) : bool :=
  match tool with
  | confluence_get_content | confluence_update_content =>
      nonEmptyString (args !! "contentId")
      && negb (traversal (fst (assert_string (args !! "contentId"))))
  | confluence_search_content => nonEmptyString (args !! "cql")
  | confluence_create_content =>
      nonEmptyString (args !! "title") && nonEmptyString (args !! "spaceKey")
      && nonEmptyString (args !! "content")
  | confluence_list_spaces => true
  end.

Section Requests.

Context `{Platform}.

(** The payload [handleCreateContent] builds from its arguments
    (lines 315-349). *)
Definition createPayloadOf (args : gmap string any) : ConfluencePage :=
  let '(typeStr, ok) := assert_string (args !! "type") in
  createPayload
    (if negb ok || String.eqb typeStr "" then "page" else typeStr)
    (fst (assert_string (args !! "title")))
    (fst (assert_string (args !! "spaceKey")))
    (fst (assert_string (args !! "content")))
    (fst (assert_string (args !! "parentId"))).

(** The first request of each tool once the arguments are accepted. *)
Definition firstRequest (tool : Tool) (args : gmap string any) : Request :=
  let query := newQueryWithCommonArgs args in
  match tool with
  | confluence_get_content =>
      getRequest (toolPath tool args)
        (Values_Set query "expand" (ensureExpand (Values_Get query "expand") "body.storage"))
  | confluence_search_content =>
      getRequest "/search" (Values_Set query "cql" (fst (assert_string (args !! "cql"))))
  | confluence_create_content =>
      {| Method := "POST"; RelPath := "/content"; Query := ∅;
         Payload := Some (createPayloadOf args) |}
  | confluence_update_content => getRequest (toolPath tool args) (updateQuery args)
  | confluence_list_spaces =>
      getRequest "/search" (Values_Set query "cql" (spacesCQL args))
  end.

(** [doRequest] on a request. *)
Definition doRequest_of (rq : Request) : Net (result string) :=
  doRequest (Method rq) (RelPath rq) (Query rq) (Payload rq).

(** What [doRequest] makes of the answer to its request
    (lines 131-148). *)
Definition doRequest_result (a : result Response) : result string :=
  match a with
  | Err e => Err e
  | Ok resp =>
      match BodyErr resp with
      | Some e => Err ("failed to read response body: " +:+ e)
      | None =>
          if 400 <=? StatusCode resp
          then Err (apiError (StatusCode resp) (BodyData resp))
          else Ok (BodyData resp)
      end
  end.

(** What [getJSON] makes of the answer to its request (lines 153-169). *)
Definition getJSON_result (a : result Response) : result ConfluencePage :=
  match a with
  | Err e => Err e
  | Ok resp =>
      if 400 <=? StatusCode resp
      then Err (apiError (StatusCode resp) (slice_to 1024 (BodyData resp)))
      else match json_Decode (BodyData resp) (BodyErr resp) with
           | Err e => Err ("failed to decode JSON: " +:+ e)
           | Ok target => Ok target
           end
  end.

(** The PUT of an update, from the item the GET fetched. *)
Definition secondRequest (args : gmap string any) (current : ConfluencePage)
    (version : Z) : Request :=
  putRequest (toolPath confluence_update_content args)
    (updatePayload args (fst (assert_string (args !! "contentId"))) current version).

End Requests.

(* ===================================================================== *)
(** * More test doubles *)
(* ===================================================================== *)

(** The server of [TestHandleSearchContent]: 200 and an empty result
    list. *)
Definition resultsJSON : string := js "{'results':[]}".

Definition searchServer : Platform :=
  testServer (fun _ => status 200 resultsJSON) [].

(** A server that cannot be reached, as in [TestTransportErrors]. *)
Definition unreachable : string := "request failed: connection refused".

Definition unreachableServer : Platform :=
  testServer (fun _ => Err unreachable) [].

(** The server of [TestDoRequestReadError]: 200, then a body shorter than
    announced. *)
Definition shortBody : Response :=
  {| StatusCode := 200; BodyData := "too short"; BodyErr := Some "unexpected EOF" |}.

Definition shortBodyServer : Platform :=
  testServer (fun _ => Ok shortBody) [].

(** Arguments every handler accepts, and a value of each kind that occurs
    in none of them. *)
Definition sampleArgs : gmap string any :=
  list_to_map [("contentId", AnyString "123"); ("cql", AnyString "type=page");
               ("title", AnyString "T"); ("spaceKey", AnyString "TEST");
               ("content", AnyString "<p>Hello</p>")].

Definition sampleValue (kind : ParamType) : any :=
  match kind with
  | StringParam => AnyString "x"
  | NumberParam => AnyFloat64 (float64_of_Z 7)
  end.

(** A call with the given arguments object. *)
Definition callWith (args : gmap string any) : CallToolRequest :=
  {| Params_Name := EmptyString; Params_Arguments := AnyObject args |}.

(** An environment of the tests. *)
Definition testEnv : gmap string string :=
  env_of [("CONFLUENCE_API_TOKEN", "test-token");
          ("CONFLUENCE_BASE_URL", "https://example.atlassian.net")].

(* ===================================================================== *)
(** * Facts about strings *)
(* ===================================================================== *)

Section StringFacts.

Implicit Types s t p sub : string.

Lemma str_app_nil_l s : EmptyString +:+ s = s.
Proof. reflexivity. Qed.

Lemma str_app_cons c s t : String c s +:+ t = String c (s +:+ t).
Proof. reflexivity. Qed.

Lemma str_app_nil_r s : s +:+ EmptyString = s.
Proof. induction s as [|c s IH]; [reflexivity | rewrite str_app_cons, IH; reflexivity]. Qed.

Lemma str_app_assoc s t p : (s +:+ t) +:+ p = s +:+ (t +:+ p).
Proof.
  induction s as [|c s IH]; [reflexivity |].
  rewrite !str_app_cons, IH. reflexivity.
Qed.

Lemma str_length_app s t :
  String.length (s +:+ t) = (String.length s + String.length t)%nat.
Proof.
  induction s as [|c s IH]; [reflexivity |].
  rewrite str_app_cons. simpl. rewrite IH. reflexivity.
Qed.

Lemma slice_to_from s n : slice_to n s +:+ slice_from n s = s.
Proof.
  revert n. induction s as [|c s IH]; intros [|n]; simpl; try reflexivity.
  rewrite str_app_cons, IH. reflexivity.
Qed.

Lemma length_slice_to s n : (String.length (slice_to n s) <= n)%nat.
Proof.
  revert n. induction s as [|c s IH]; intros [|n]; simpl; try lia.
  specialize (IH n). lia.
Qed.

Lemma length_slice_from s n :
  String.length (slice_from n s) = (String.length s - n)%nat.
Proof.
  revert n. induction s as [|c s IH]; intros [|n]; simpl; try reflexivity.
  apply IH.
Qed.

(** [HasPrefix s p] holds exactly when [s] is [p] followed by something. *)
Lemma HasPrefix_app p s : HasPrefix (p +:+ s) p = true.
Proof.
  induction p as [|c p IH]; [destruct s; reflexivity |].
  rewrite str_app_cons. simpl. rewrite Ascii.eqb_refl. exact IH.
Qed.

Lemma HasPrefix_inv s p : HasPrefix s p = true -> s = p +:+ slice_from (String.length p) s.
Proof.
  revert s. induction p as [|c p IH]; intros s Hp; [reflexivity |].
  destruct s as [|d s]; simpl in Hp; [discriminate |].
  apply andb_prop in Hp as [Hc Hp]. apply Ascii.eqb_eq in Hc. subst d.
  rewrite str_app_cons. simpl. f_equal. apply IH, Hp.
Qed.

Lemma Index_eq s sub :
  Index s sub
  = if HasPrefix s sub then Some O
    else match s with
         | EmptyString => None
         | String _ s' => option_map S (Index s' sub)
         end.
Proof. destruct s; reflexivity. Qed.

Lemma Index_Some s sub i :
  Index s sub = Some i ->
  s = slice_to i s +:+ sub +:+ slice_from (i + String.length sub) s.
Proof.
  revert i. induction s as [|c s IH]; intros i; rewrite Index_eq.
  - destruct (HasPrefix EmptyString sub) eqn:Hp; intros Hi; [|discriminate Hi].
    injection Hi as <-. destruct sub; [reflexivity | simpl in Hp; discriminate Hp].
  - destruct (HasPrefix (String c s) sub) eqn:Hp; intros Hi.
    + injection Hi as <-. simpl slice_to. rewrite str_app_nil_l. apply HasPrefix_inv, Hp.
    + destruct (Index s sub) as [j|] eqn:Hj; [|discriminate Hi].
      injection Hi as <-. simpl. rewrite str_app_cons. f_equal. apply IH. reflexivity.
Qed.

Lemma Index_None_app s sub a b : Index s sub = None -> s <> a +:+ sub +:+ b.
Proof.
  revert a. induction s as [|c s IH]; intros a; rewrite Index_eq.
  - destruct (HasPrefix EmptyString sub) eqn:Hp; intros Hi; [discriminate Hi |].
    intros Heq. destruct a; [| discriminate Heq].
    rewrite str_app_nil_l in Heq. rewrite Heq, HasPrefix_app in Hp. discriminate Hp.
  - destruct (HasPrefix (String c s) sub) eqn:Hp; intros Hi; [discriminate Hi |].
    destruct (Index s sub) eqn:Hj; [discriminate Hi |].
    intros Heq. destruct a as [|d a].
    + rewrite str_app_nil_l in Heq. rewrite Heq, HasPrefix_app in Hp. discriminate Hp.
    + rewrite str_app_cons in Heq. injection Heq as _ Heq. exact (IH a eq_refl Heq).
Qed.

(** [Contains s sub] says that [sub] occurs in [s]. *)
Lemma Contains_true_iff s sub :
  Contains s sub = true <-> exists a b, s = a +:+ sub +:+ b.
Proof.
  unfold Contains. split.
  - destruct (Index s sub) as [i|] eqn:Hi; [|discriminate].
    intros _. eauto using Index_Some.
  - intros (a & b & Heq). destruct (Index s sub) eqn:Hi; [reflexivity |].
    destruct (Index_None_app _ _ a b Hi Heq).
Qed.

Lemma Contains_middle a sub b : Contains (a +:+ sub +:+ b) sub = true.
Proof. apply Contains_true_iff. eauto. Qed.

Lemma Contains_app_r a s sub : Contains s sub = true -> Contains (a +:+ s) sub = true.
Proof.
  rewrite !Contains_true_iff. intros (x & y & ->).
  exists (a +:+ x), y. rewrite str_app_assoc. reflexivity.
Qed.

Lemma Contains_app_l s b sub : Contains s sub = true -> Contains (s +:+ b) sub = true.
Proof.
  rewrite !Contains_true_iff. intros (x & y & ->).
  exists x, (y +:+ b). rewrite !str_app_assoc. reflexivity.
Qed.

End StringFacts.

(* ===================================================================== *)
(** * Examples of the library functions *)
(* ===================================================================== *)

Example Split_commas :
  Split "version, body.storage,,space" "," = ["version"; " body.storage"; ""; "space"]
  /\ Split "" "," = [""].
Proof. split; reflexivity. Qed.

Example TrimSpace_unicode :
  TrimSpace (bytes [32; 194; 160; 9]%nat +:+ "body.storage" +:+ bytes [227; 128; 128; 10]%nat)
  = "body.storage"
  /\ TrimSpace (bytes [194]%nat +:+ "x") = bytes [194]%nat +:+ "x".
Proof. split; vm_compute; reflexivity. Qed.

Example ReplaceAll_dots : ReplaceAll "a..b...c" ".." "-" = "a-b-.c".
Proof. reflexivity. Qed.

(* ===================================================================== *)
(** * The expand helper *)
(* ===================================================================== *)

Lemma ensureExpand_found current required :
  has_token current required -> ensureExpand current required = current.
Proof.
  intros (p & Hin & Htrim). unfold ensureExpand.
  destruct (String.eqb_spec current EmptyString) as [-> | _].
  - destruct Hin as [<- | []]. symmetry. exact Htrim.
  - replace (existsb _ _) with true; [reflexivity |].
    symmetry. apply existsb_exists. exists p. split; [exact Hin |].
    apply String.eqb_eq, Htrim.
Qed.

(** Otherwise the property is appended after a comma. *)
Lemma ensureExpand_absent current required :
  current <> EmptyString -> ~ has_token current required ->
  ensureExpand current required = current +:+ "," +:+ required.
Proof.
  intros Hne Hno. unfold ensureExpand.
  apply String.eqb_neq in Hne. rewrite Hne.
  destruct (existsb _ _) eqn:Hex; [| reflexivity].
  apply existsb_exists in Hex as (p & Hin & Heq).
  destruct Hno. exists p. split; [exact Hin | apply String.eqb_eq, Heq].
Qed.

(** C5. [ensureExpand] on the three inputs of the specification, and in
    general: when [required] is already one of the comma-separated tokens
    of [current] (compared after trimming white space), the result is
    [current] itself, so its tokens and their order are those of the
    input. *)
Theorem ensureExpand_spec :
  ensureExpand "" "body.storage" = "body.storage"
  /\ ensureExpand "version" "body.storage" = "version,body.storage"
  /\ ensureExpand "body.storage" "body.storage" = "body.storage"
  /\ forall current required,
       has_token current required ->
       ensureExpand current required = current
       /\ Split (ensureExpand current required) "," = Split current ",".
Proof.
  repeat split; try (vm_compute; reflexivity).
  - apply ensureExpand_found; assumption.
  - rewrite ensureExpand_found; [reflexivity | assumption].
Qed.

Lemma ensureExpand_spec_witness :
  has_token "version, body.storage ,space" "body.storage"
  /\ ensureExpand "version, body.storage ,space" "body.storage"
     = "version, body.storage ,space".
Proof.
  assert (Htok : has_token "version, body.storage ,space" "body.storage").
  { exists " body.storage ". split; [vm_compute; tauto | vm_compute; reflexivity]. }
  split; [exact Htok |].
  exact (proj1 (proj2 (proj2 (proj2 ensureExpand_spec)) _ _ Htok)).
Defined.

(* ===================================================================== *)
(** * Escaping of the search text *)
(* ===================================================================== *)

Lemma Index_dquote_cons c s :
  Index (String c s) dquote
  = if Ascii.eqb c "034" then Some O else option_map S (Index s dquote).
Proof.
  rewrite Index_eq. unfold dquote at 1. simpl HasPrefix.
  destruct (Ascii.eqb c "034"); reflexivity.
Qed.

Lemma Index_dquote_None s : Index s dquote = None -> escapeQuotes s = s.
Proof.
  induction s as [|c s IH]; [reflexivity |].
  rewrite Index_dquote_cons. simpl escapeQuotes.
  destruct (Ascii.eqb c "034"); intros Hi; [discriminate Hi |].
  destruct (Index s dquote); [discriminate Hi |].
  rewrite IH; reflexivity.
Qed.

Lemma Index_dquote_Some s j :
  Index s dquote = Some j ->
  escapeQuotes s
  = slice_to j s +:+ escaped_dquote +:+ escapeQuotes (slice_from (j + 1) s).
Proof.
  revert j. induction s as [|c s IH]; intros j.
  - intros Hi. discriminate Hi.
  - rewrite Index_dquote_cons. simpl escapeQuotes.
    destruct (Ascii.eqb c "034"); intros Hi.
    + injection Hi as <-. reflexivity.
    + destruct (Index s dquote) as [i|] eqn:Hj; [|discriminate Hi].
      injection Hi as <-. simpl. rewrite str_app_cons. f_equal. apply IH. reflexivity.
Qed.

Lemma ReplaceAll_fuel_dquote fuel s :
  (String.length s <= fuel)%nat ->
  ReplaceAll_fuel fuel s dquote escaped_dquote = escapeQuotes s.
Proof.
  revert s. induction fuel as [|fuel IH]; intros s Hlen.
  - destruct s; [reflexivity | simpl in Hlen; lia].
  - simpl. destruct (Index s dquote) as [j|] eqn:Hj.
    + rewrite (Index_dquote_Some _ _ Hj). do 2 f_equal.
      apply IH. rewrite length_slice_from.
      change (String.length dquote) with 1%nat.
      pose proof (Index_Some _ _ _ Hj) as Hs.
      apply (f_equal String.length) in Hs.
      rewrite !str_length_app in Hs. change (String.length dquote) with 1%nat in Hs.
      lia.
    + symmetry. apply Index_dquote_None, Hj.
Qed.

(** The escaping of [handleListSpaces] is the one the specification
    describes. *)
Lemma ReplaceAll_dquote s : ReplaceAll s dquote escaped_dquote = escapeQuotes s.
Proof. apply ReplaceAll_fuel_dquote. lia. Qed.

(* ===================================================================== *)
(** * The transport helpers, step by step *)
(* ===================================================================== *)

Section Pipeline.

Context `{Platform}.

Implicit Types (st : NetState) (req : CallToolRequest) (args : gmap string any).

Lemma executeRequest_run method path query body st :
  let rq := {| Method := method; RelPath := path; Query := query; Payload := body |} in
  executeRequest method path query body st = (answer st rq, after st rq).
Proof.
  unfold executeRequest, after, answer. simpl.
  destruct (roundTrip _ _) as [remote' out]. reflexivity.
Qed.

(** [doRequest] in one equation. *)
Lemma doRequest_run method path query body st :
  let rq := {| Method := method; RelPath := path; Query := query; Payload := body |} in
  doRequest method path query body st
  = (match answer st rq with
     | Err e => Err e
     | Ok resp =>
         match BodyErr resp with
         | Some e => Err ("failed to read response body: " +:+ e)
         | None =>
             if 400 <=? StatusCode resp
             then Err (apiError (StatusCode resp) (BodyData resp))
             else Ok (BodyData resp)
         end
     end, after st rq).
Proof.
  intros rq. unfold doRequest, bind. rewrite executeRequest_run. fold rq.
  destruct (answer st rq) as [resp | e]; [| reflexivity].
  unfold ReadAll. destruct (BodyErr resp); [reflexivity |].
  destruct (400 <=? StatusCode resp); reflexivity.
Qed.

(** [getJSON] in one equation. *)
Lemma getJSON_run path query st :
  let rq := getRequest path query in
  getJSON path query st
  = (match answer st rq with
     | Err e => Err e
     | Ok resp =>
         if 400 <=? StatusCode resp
         then Err (apiError (StatusCode resp) (slice_to 1024 (BodyData resp)))
         else match json_Decode (BodyData resp) (BodyErr resp) with
              | Err e => Err ("failed to decode JSON: " +:+ e)
              | Ok target => Ok target
              end
     end, after st rq).
Proof.
  intros rq. unfold getJSON, bind. rewrite executeRequest_run. fold (getRequest path query).
  fold rq. destruct (answer st rq) as [resp | e]; [| reflexivity].
  destruct (400 <=? StatusCode resp); [reflexivity |].
  destruct (json_Decode _ _); reflexivity.
Qed.

Lemma sent_after st rq : sent (after st rq) = sent st ++ [rq].
Proof. unfold sent, after. simpl. rewrite map_app. reflexivity. Qed.

Lemma doRequest_sent method path query body st :
  sent (snd (doRequest method path query body st))
  = sent st ++ [{| Method := method; RelPath := path; Query := query; Payload := body |}].
Proof. rewrite doRequest_run. apply sent_after. Qed.

Lemma getJSON_sent path query st :
  sent (snd (getJSON path query st)) = sent st ++ [getRequest path query].
Proof. rewrite getJSON_run. apply sent_after. Qed.

Lemma getJSON_state path query st r st1 :
  getJSON path query st = (r, st1) -> st1 = after st (getRequest path query).
Proof. rewrite getJSON_run. intros [= _ <-]. reflexivity. Qed.

(* ===================================================================== *)
(** * Rejection of path traversal *)
(* ===================================================================== *)

Lemma occurs_in_nonempty sub s :
  sub <> EmptyString -> occurs_in sub s -> s <> EmptyString.
Proof.
  intros Hsub (a & b & ->) Heq.
  destruct a; [destruct sub; [congruence | discriminate Heq] | discriminate Heq].
Qed.

Lemma traversal_true contentID :
  occurs_in "/" contentID \/ occurs_in ".." contentID -> traversal contentID = true.
Proof.
  unfold traversal. intros [Hocc | Hocc]; apply Contains_true_iff in Hocc;
    rewrite Hocc; [reflexivity | apply orb_true_r].
Qed.

(** C4. A [contentId] that contains a slash or two consecutive dots makes
    both [handleGetContent] and [handleUpdateContent] answer the error
    result [invalid contentId format] and leave the run as it was: nothing
    is sent. *)
Theorem traversal_rejected req args contentID st :
  getArguments req = Ok args ->
  args !! "contentId" = Some (AnyString contentID) ->
  occurs_in "/" contentID \/ occurs_in ".." contentID ->
  let rejected := NewToolResultError "invalid contentId format" in
  IsError rejected = true
  /\ handleGetContent req st = (rejected, st)
  /\ handleUpdateContent req st = (rejected, st).
Proof.
  intros Hargs Hid Hocc rejected.
  assert (Hne : String.eqb contentID "" = false).
  { apply String.eqb_neq.
    destruct Hocc as [Hocc | Hocc]; revert Hocc; apply occurs_in_nonempty; discriminate. }
  pose proof (traversal_true _ Hocc) as Htrav.
  unfold handleGetContent, handleUpdateContent.
  rewrite Hargs, Hid. simpl. rewrite Hne, Htrav. simpl. auto.
Qed.

End Pipeline.

Lemma traversal_rejected_witness :
  let req := call [("contentId", AnyString "../bad")] in
  let rejected := NewToolResultError "invalid contentId format" in
  IsError rejected = true
  /\ @handleGetContent updateServer req (start updateServer tt) = (rejected, start updateServer tt)
  /\ @handleUpdateContent updateServer req (start updateServer tt) = (rejected, start updateServer tt).
Proof.
  refine (@traversal_rejected updateServer
            (call [("contentId", AnyString "../bad")])
            (list_to_map [("contentId", AnyString "../bad")]) "../bad" _ eq_refl _ _).
  - vm_compute. reflexivity.
  - left. exists "..", "bad". reflexivity.
Defined.

(* ===================================================================== *)
(** * The query of list-spaces *)
(* ===================================================================== *)

Section ListSpaces.

Context `{Platform}.

Lemma handleListSpaces_sent req args st :
  getArguments req = Ok args ->
  sent (snd (handleListSpaces req st))
  = sent st ++ [getRequest "/search"
                  (Values_Set (newQueryWithCommonArgs args) "cql" (spacesCQL args))].
Proof.
  intros Hargs. unfold handleListSpaces. rewrite Hargs. unfold bind.
  rewrite doRequest_run. cbv zeta. cbv iota beta.
  match goal with |- context [match ?r with Ok _ => _ | Err _ => _ end] =>
    destruct r end; apply sent_after.
Qed.

(** C8. [handleListSpaces] sends one GET to [/search]. Without a
    [searchText] argument its [cql] parameter is [type=space]; with a
    non-empty [searchText] it is [type=space AND title ~ ] followed by the
    text between double quotes, each double quote of the text written as a
    backslash and a double quote. *)
Theorem listSpaces_cql req args st :
  getArguments req = Ok args ->
  exists rq,
    sent (snd (handleListSpaces req st)) = sent st ++ [rq]
    /\ Method rq = "GET" /\ RelPath rq = "/search"
    /\ (args !! "searchText" = None -> Query rq !! "cql" = Some ["type=space"])
    /\ (forall t, args !! "searchText" = Some (AnyString t) -> t <> EmptyString ->
         Query rq !! "cql"
         = Some ["type=space AND title ~ " +:+ dquote +:+ escapeQuotes t +:+ dquote]).
Proof.
  intros Hargs. eexists. split; [apply (handleListSpaces_sent _ _ _ Hargs) |].
  split; [reflexivity |]. split; [reflexivity |].
  unfold getRequest, Values_Set, spacesCQL. simpl Query. rewrite lookup_insert_eq.
  split.
  - intros ->. reflexivity.
  - intros t -> Ht. simpl. apply String.eqb_neq in Ht. rewrite Ht.
    rewrite ReplaceAll_dquote. reflexivity.
Qed.

End ListSpaces.

Lemma listSpaces_cql_witness :
  let req := call [("searchText", AnyString ("a " +:+ dquote +:+ "quoted" +:+ dquote +:+ " word"))] in
  exists rq,
    sent (snd (@handleListSpaces updateServer req (start updateServer tt))) = [rq]
    /\ Values_Get (Query rq) "cql"
       = "type=space AND title ~ " +:+ dquote +:+ "a " +:+ escaped_dquote +:+ "quoted"
         +:+ escaped_dquote +:+ " word" +:+ dquote.
Proof.
  intros req.
  destruct (@listSpaces_cql updateServer req _ (start updateServer tt) eq_refl)
    as (rq & Hsent & _ & _ & _ & Hcql).
  exists rq. split; [exact Hsent |].
  unfold Values_Get.
  rewrite (Hcql ("a " +:+ dquote +:+ "quoted" +:+ dquote +:+ " word") eq_refl
             ltac:(vm_compute; discriminate)).
  vm_compute. reflexivity.
Defined.

(* ===================================================================== *)
(** * The update protocol *)
(* ===================================================================== *)

Section Update.

Context `{Platform}.

Implicit Types (st : NetState) (req : CallToolRequest) (args : gmap string any).

(** [handleUpdateContent] once the [contentId] is accepted: the GET, the
    version, the PUT. *)
Lemma handleUpdateContent_valid req args contentID st :
  validContentCall req args contentID ->
  handleUpdateContent req st
  = let (r, st1) := getJSON ("/content/" +:+ contentID) (updateQuery args) st in
    match r with
    | Err e =>
        (NewToolResultError ("failed to retrieve current content: " +:+ e), st1)
    | Ok currentData =>
        match newVersion args currentData with
        | None =>
            (NewToolResultError "could not determine current version from API response",
             st1)
        | Some version =>
            let (r2, st2) :=
              doRequest "PUT" ("/content/" +:+ contentID) ∅
                (Some (updatePayload args contentID currentData version)) st1 in
            (match r2 with
             | Err e => NewToolResultError ("error updating content: " +:+ e)
             | Ok resp => NewToolResultText resp
             end, st2)
        end
    end.
Proof.
  intros (Hargs & Hid & Hne & Htrav). unfold handleUpdateContent.
  rewrite Hargs, Hid. simpl. apply String.eqb_neq in Hne. rewrite Hne, Htrav. simpl.
  unfold bind. destruct (getJSON _ _ st) as [[currentData | e] st1]; [| reflexivity].
  destruct (newVersion args currentData) as [version |]; [| reflexivity].
  destruct (doRequest _ _ _ _ st1) as [[resp | e] st2]; reflexivity.
Qed.

(** When the GET succeeds and the version is known, the PUT follows, with
    the payload of [updatePayload]. *)
Lemma handleUpdateContent_put req args contentID st currentData st1 version :
  validContentCall req args contentID ->
  getJSON ("/content/" +:+ contentID) (updateQuery args) st = (Ok currentData, st1) ->
  newVersion args currentData = Some version ->
  sent (snd (handleUpdateContent req st))
  = sent st1 ++ [putRequest ("/content/" +:+ contentID)
                   (updatePayload args contentID currentData version)].
Proof.
  intros Hvalid Hget Hversion.
  rewrite (handleUpdateContent_valid _ _ _ _ Hvalid), Hget, Hversion.
  pose proof (doRequest_sent "PUT" ("/content/" +:+ contentID) ∅
                (Some (updatePayload args contentID currentData version)) st1) as Hsent.
  destruct (doRequest _ _ _ _ st1) as [r2 st2]. exact Hsent.
Qed.

(** When the version is not known, the handler stops after the GET. *)
Lemma handleUpdateContent_no_version req args contentID st currentData st1 :
  validContentCall req args contentID ->
  getJSON ("/content/" +:+ contentID) (updateQuery args) st = (Ok currentData, st1) ->
  newVersion args currentData = None ->
  handleUpdateContent req st
  = (NewToolResultError "could not determine current version from API response", st1).
Proof.
  intros Hvalid Hget Hversion.
  rewrite (handleUpdateContent_valid _ _ _ _ Hvalid), Hget, Hversion. reflexivity.
Qed.

Lemma wrap_id z : is_int z -> wrap z = z.
Proof.
  unfold is_int, wrap, minInt, maxInt. intros Hz.
  rewrite Z.mod_small; lia.
Qed.

Lemma int_of_float64_in_range v z :
  truncate v = Some z -> is_int z -> int_of_float64 convOutOfRange v = z.
Proof.
  intros Ht Hz. unfold int_of_float64. rewrite Ht.
  replace (in_int_range z) with true; [reflexivity |].
  symmetry. unfold in_int_range, is_int in *. apply andb_true_intro. split; lia.
Qed.

(** C1, as the code has it. After a successful GET of the current item:
    with a numeric [version] argument whose integer part fits an [int],
    the PUT carries that integer part, whatever the fetched version; with
    no numeric [version] argument and a fetched version [n] below the
    largest [int], the PUT carries [n + 1]; with no numeric [version]
    argument and no fetched version block, the handler answers an error
    result and sends nothing after the GET. *)
Theorem update_version req args contentID st currentData st1 :
  validContentCall req args contentID ->
  getJSON ("/content/" +:+ contentID) (updateQuery args) st = (Ok currentData, st1) ->
  let path := "/content/" +:+ contentID in
  let result := fst (handleUpdateContent req st) in
  let final := snd (handleUpdateContent req st) in
  sent st1 = sent st ++ [getRequest path (updateQuery args)]
  /\ (forall v z,
        args !! "version" = Some (AnyFloat64 v) -> truncate v = Some z -> is_int z ->
        exists payload,
          sent final = sent st1 ++ [putRequest path payload]
          /\ versionNumber payload = Some z)
  /\ (forall n,
        assert_float64 (args !! "version") = None ->
        versionNumber currentData = Some n -> is_int n -> n < maxInt ->
        exists payload,
          sent final = sent st1 ++ [putRequest path payload]
          /\ versionNumber payload = Some (n + 1))
  /\ (assert_float64 (args !! "version") = None ->
      PageVersion currentData = None ->
      IsError result = true /\ final = st1 /\ submitted (sent final) = submitted (sent st)).
Proof.
  intros Hvalid Hget path result final.
  assert (Hst1 : sent st1 = sent st ++ [getRequest path (updateQuery args)]).
  { rewrite (getJSON_state _ _ _ _ _ Hget). apply sent_after. }
  split; [exact Hst1 |]. split; [| split; [| intros Hv Hnone; repeat split]].
  - intros v z Hv Ht Hz. eexists. split.
    + apply (handleUpdateContent_put _ _ _ _ _ _ z Hvalid Hget).
      unfold newVersion. rewrite Hv. simpl.
      rewrite (int_of_float64_in_range _ _ Ht Hz). reflexivity.
    + reflexivity.
  - intros n Hv Hn Hint Hmax. eexists. split.
    + apply (handleUpdateContent_put _ _ _ _ _ _ (n + 1) Hvalid Hget).
      unfold newVersion. rewrite Hv. unfold versionNumber in Hn.
      destruct (PageVersion currentData) as [version |]; [| discriminate Hn].
      injection Hn as ->. unfold int_add. rewrite wrap_id; [reflexivity |].
      unfold is_int, minInt, maxInt in *. lia.
    + reflexivity.
  - subst result. rewrite (handleUpdateContent_no_version _ _ _ _ _ _ Hvalid Hget).
    + reflexivity.
    + unfold newVersion. rewrite Hv, Hnone. reflexivity.
  - subst final. rewrite (handleUpdateContent_no_version _ _ _ _ _ _ Hvalid Hget).
    + reflexivity.
    + unfold newVersion. rewrite Hv, Hnone. reflexivity.
  - subst final. rewrite (handleUpdateContent_no_version _ _ _ _ _ _ Hvalid Hget).
    + simpl. rewrite Hst1. unfold submitted. rewrite omap_app. simpl.
      rewrite app_nil_r. reflexivity.
    + unfold newVersion. rewrite Hv, Hnone. reflexivity.
Qed.

End Update.

Lemma update_version_witness :
  let req := call [("contentId", AnyString "123")] in
  exists payload,
    sent (snd (@handleUpdateContent updateServer req (start updateServer tt)))
    = [getRequest "/content/123"
         (@updateQuery updateServer (list_to_map [("contentId", AnyString "123")]));
       putRequest "/content/123" payload]
    /\ versionNumber payload = Some 2.
Proof.
  intros req.
  pose (args := list_to_map [("contentId", AnyString "123")] : gmap string any).
  pose (st := start updateServer tt).
  pose (current := page "123" "Old Title" None (Some 1)).
  assert (Hvalid : validContentCall req args "123").
  { repeat split; try discriminate; vm_compute; reflexivity. }
  assert (Hget : @getJSON updateServer ("/content/" +:+ "123")
                   (@updateQuery updateServer args) st
                 = (Ok current,
                    @after updateServer st
                      (getRequest "/content/123" (@updateQuery updateServer args)))).
  { vm_compute. reflexivity. }
  destruct (@update_version updateServer req args "123" st current _ Hvalid Hget)
    as (Hst1 & _ & Hnext & _).
  destruct (Hnext 1) as (payload & Hsent & Hnumber).
  - reflexivity.
  - reflexivity.
  - unfold is_int, minInt, maxInt. lia.
  - unfold maxInt. lia.
  - exists payload. split; [| exact Hnumber].
    subst st. rewrite Hsent, Hst1. vm_compute. reflexivity.
Defined.

(** C1 as the specification states it fails at the ends of [int]: from the
    fetched version [2^63 - 1] the handler submits [- 2^63], not [2^63];
    and for the explicit version [2^63], which no [int] holds, it submits
    what the platform converts it to ([- 2^63] on amd64). *)
Lemma update_version_counterexample :
  (fst (@getJSON maxVersionServer "/content/123"
          (@updateQuery maxVersionServer (list_to_map [("contentId", AnyString "123")]))
          (start maxVersionServer tt))
   = Ok (page "123" "Old Title" None (Some maxInt))
   /\ map versionNumber
        (submitted (sent (snd (run maxVersionServer tt confluence_update_content
                                 [("contentId", AnyString "123")]))))
      = [Some minInt]
   /\ minInt <> maxInt + 1)
  /\ (truncate two_63 = Some (2 ^ 63)
      /\ map versionNumber
           (submitted (sent (snd (run updateServer tt confluence_update_content
                                    [("contentId", AnyString "123");
                                     ("version", AnyFloat64 two_63)]))))
         = [Some minInt]
      /\ minInt <> 2 ^ 63).
Proof.
  repeat split; try (vm_compute; reflexivity); vm_compute; discriminate.
Qed.

(** The two cases of the specification, and a fractional version: from the
    current version 1 the handler submits 2; an explicit 10 is submitted
    as 10; 10.75 and -10.75 are cut towards zero. *)
Example update_versions :
  let versions args :=
    map versionNumber
      (submitted (sent (snd (run updateServer tt confluence_update_content
                               (("contentId", AnyString "123") :: args))))) in
  versions [("title", AnyString "New Title")] = [Some 2]
  /\ versions [("version", AnyFloat64 (float64_of_Z 10))] = [Some 10]
  /\ versions [("version", AnyFloat64 (S754_finite false 43 (-2)))] = [Some 10]
  /\ versions [("version", AnyFloat64 (S754_finite true 43 (-2)))] = [Some (-10)].
Proof. repeat split; vm_compute; reflexivity. Qed.

(** Whatever the platform answers for a float64 out of range, it is an
    [int]: the integer part of [2^63] is never submitted. *)
Lemma int_of_float64_two_63 conv : int_of_float64 conv two_63 <> 2 ^ 63.
Proof.
  unfold int_of_float64. simpl. unfold wrap.
  pose proof (Z.mod_pos_bound (conv two_63 + 2 ^ 63) (2 ^ 64) ltac:(lia)). lia.
Qed.

Section UpdateFields.

Context `{Platform}.

Implicit Types (st : NetState) (req : CallToolRequest) (args : gmap string any).

Lemma updatePayload_title_absent args contentID currentData version :
  fst (assert_string (args !! "title")) = EmptyString ->
  Title (updatePayload args contentID currentData version) = Title currentData.
Proof. unfold updatePayload. simpl. intros ->. reflexivity. Qed.

Lemma updatePayload_body_absent args contentID currentData version :
  fst (assert_string (args !! "content")) = EmptyString ->
  PageBody (updatePayload args contentID currentData version) = PageBody currentData.
Proof.
  unfold updatePayload. simpl. intros ->. simpl.
  destruct (PageBody currentData); reflexivity.
Qed.

(** C7. In an update that reaches its PUT, a missing [title] argument
    leaves the title of the fetched item in the payload, and a missing
    [content] argument leaves its body there, both unchanged. *)
Theorem update_keeps_current req args contentID st currentData st1 version :
  validContentCall req args contentID ->
  getJSON ("/content/" +:+ contentID) (updateQuery args) st = (Ok currentData, st1) ->
  newVersion args currentData = Some version ->
  exists payload,
    sent (snd (handleUpdateContent req st))
    = sent st1 ++ [putRequest ("/content/" +:+ contentID) payload]
    /\ (args !! "title" = None -> Title payload = Title currentData)
    /\ (args !! "content" = None -> PageBody payload = PageBody currentData).
Proof.
  intros Hvalid Hget Hversion. eexists. split.
  - apply (handleUpdateContent_put _ _ _ _ _ _ _ Hvalid Hget Hversion).
  - split; intros Hnone.
    + apply updatePayload_title_absent. rewrite Hnone. reflexivity.
    + apply updatePayload_body_absent. rewrite Hnone. reflexivity.
Qed.

End UpdateFields.

Lemma update_keeps_current_witness :
  let req := call [("contentId", AnyString "123")] in
  exists payload,
    submitted (sent (snd (@handleUpdateContent updateServer req (start updateServer tt))))
    = [payload]
    /\ Title payload = "Old Title" /\ PageBody payload = None.
Proof.
  intros req.
  pose (args := list_to_map [("contentId", AnyString "123")] : gmap string any).
  pose (st := start updateServer tt).
  pose (current := page "123" "Old Title" None (Some 1)).
  assert (Hvalid : validContentCall req args "123").
  { repeat split; try discriminate; vm_compute; reflexivity. }
  assert (Hget : @getJSON updateServer ("/content/" +:+ "123")
                   (@updateQuery updateServer args) st
                 = (Ok current,
                    @after updateServer st
                      (getRequest "/content/123" (@updateQuery updateServer args)))).
  { vm_compute. reflexivity. }
  destruct (@update_keeps_current updateServer req args "123" st current _ 2
              Hvalid Hget eq_refl) as (payload & Hsent & Htitle & Hbody).
  exists payload. subst st. rewrite Hsent, (Htitle eq_refl), (Hbody eq_refl).
  split; [reflexivity | split; reflexivity].
Defined.

(* ===================================================================== *)
(** * Empty arguments of an update *)
(* ===================================================================== *)

Section EmptyArguments.

Context `{Platform}.

Implicit Types (st : NetState) (args a b : gmap string any).

(** [handleUpdateContent] reads eight keys of its arguments, and of
    [title] and [content] only the string. *)
Lemma handleUpdateContent_ext name a b st :
  (forall key,
     In key ["contentId"; "limit"; "start"; "expand"; "version"; "versionComment"] ->
     a !! key = b !! key) ->
  fst (assert_string (a !! "title")) = fst (assert_string (b !! "title")) ->
  fst (assert_string (a !! "content")) = fst (assert_string (b !! "content")) ->
  handleUpdateContent {| Params_Name := name; Params_Arguments := AnyObject a |} st
  = handleUpdateContent {| Params_Name := name; Params_Arguments := AnyObject b |} st.
Proof.
  intros Hkeys Htitle Hcontent.
  assert (Hid : a !! "contentId" = b !! "contentId") by (apply Hkeys; simpl; tauto).
  assert (Hlimit : a !! "limit" = b !! "limit") by (apply Hkeys; simpl; tauto).
  assert (Hstart : a !! "start" = b !! "start") by (apply Hkeys; simpl; tauto).
  assert (Hexpand : a !! "expand" = b !! "expand") by (apply Hkeys; simpl; tauto).
  assert (Hversion : a !! "version" = b !! "version") by (apply Hkeys; simpl; tauto).
  assert (Hcomment : a !! "versionComment" = b !! "versionComment")
    by (apply Hkeys; simpl; tauto).
  assert (Hquery : updateQuery a = updateQuery b).
  { unfold updateQuery, newQueryWithCommonArgs. rewrite Hlimit, Hstart, Hexpand.
    reflexivity. }
  assert (Hnew : forall current, newVersion a current = newVersion b current).
  { intros current. unfold newVersion. rewrite Hversion. reflexivity. }
  assert (Hpayload : forall contentID current version,
             updatePayload a contentID current version
             = updatePayload b contentID current version).
  { intros. unfold updatePayload. rewrite Htitle, Hcontent, Hcomment. reflexivity. }
  unfold handleUpdateContent, getArguments. simpl. rewrite Hid.
  destruct (assert_string (b !! "contentId")) as [contentID ok].
  destruct (negb ok || String.eqb contentID ""); [reflexivity |].
  destruct (traversal contentID); [reflexivity |].
  unfold bind. rewrite Hquery.
  destruct (getJSON _ _ st) as [[current | e] st1]; [| reflexivity].
  rewrite Hnew. destruct (newVersion b current) as [version |]; [| reflexivity].
  rewrite Hpayload. reflexivity.
Qed.

Lemma updatePayload_title args contentID current version :
  Title (updatePayload args contentID current version) = Title current
  \/ Title (updatePayload args contentID current version) <> EmptyString.
Proof.
  unfold updatePayload. simpl.
  destruct (String.eqb_spec (fst (assert_string (args !! "title"))) EmptyString);
    simpl; [left | right]; trivial.
Qed.

Lemma updatePayload_body args contentID current version :
  PageBody (updatePayload args contentID current version) = PageBody current
  \/ exists content,
       content <> EmptyString
       /\ PageBody (updatePayload args contentID current version)
          = Some {| Storage := Some {| Value := content; Representation := "storage" |} |}.
Proof.
  unfold updatePayload. simpl.
  destruct (String.eqb_spec (fst (assert_string (args !! "content"))) EmptyString)
    as [Heq | Hne]; simpl.
  - left. destruct (PageBody current); reflexivity.
  - right. eauto.
Qed.

(** C10. An empty [title] (or [content]) argument makes
    [handleUpdateContent] do exactly what it does without the argument.
    Hence a payload that reaches the PUT has the title of the fetched item
    or a non-empty one, and the body of the fetched item or a non-empty
    storage value: the arguments cannot empty either. *)
Theorem update_empty_as_absent name args st :
  let request a := {| Params_Name := name; Params_Arguments := AnyObject a |} in
  handleUpdateContent (request (<["title" := AnyString EmptyString]> args)) st
  = handleUpdateContent (request (delete "title" args)) st
  /\ handleUpdateContent (request (<["content" := AnyString EmptyString]> args)) st
     = handleUpdateContent (request (delete "content" args)) st
  /\ forall contentID current st1 version,
       validContentCall (request args) args contentID ->
       getJSON ("/content/" +:+ contentID) (updateQuery args) st = (Ok current, st1) ->
       newVersion args current = Some version ->
       exists payload,
         sent (snd (handleUpdateContent (request args) st))
         = sent st1 ++ [putRequest ("/content/" +:+ contentID) payload]
         /\ (Title payload = Title current \/ Title payload <> EmptyString)
         /\ (PageBody payload = PageBody current
             \/ exists content,
                  content <> EmptyString
                  /\ PageBody payload
                     = Some {| Storage := Some {| Value := content;
                                                  Representation := "storage" |} |}).
Proof.
  intros request. split; [| split].
  - apply handleUpdateContent_ext.
    + intros key Hin. rewrite lookup_insert_ne, lookup_delete_ne; [reflexivity | |];
        intros <-; simpl in Hin; intuition discriminate.
    + rewrite lookup_insert_eq, lookup_delete_eq. reflexivity.
    + rewrite lookup_insert_ne, lookup_delete_ne by discriminate. reflexivity.
  - apply handleUpdateContent_ext.
    + intros key Hin. rewrite lookup_insert_ne, lookup_delete_ne; [reflexivity | |];
        intros <-; simpl in Hin; intuition discriminate.
    + rewrite lookup_insert_ne, lookup_delete_ne by discriminate. reflexivity.
    + rewrite lookup_insert_eq, lookup_delete_eq. reflexivity.
  - intros contentID current st1 version Hvalid Hget Hversion. eexists. split.
    + apply (handleUpdateContent_put _ _ _ _ _ _ _ Hvalid Hget Hversion).
    + split; [apply updatePayload_title | apply updatePayload_body].
Qed.

End EmptyArguments.

Lemma update_empty_as_absent_witness :
  let args := [("contentId", AnyString "123"); ("title", AnyString EmptyString);
               ("content", AnyString EmptyString)] in
  exists payload,
    submitted (sent (snd (run updateServer tt confluence_update_content args))) = [payload]
    /\ (Title payload = "Old Title" \/ Title payload <> EmptyString)
    /\ (PageBody payload = None
        \/ exists content,
             content <> EmptyString
             /\ PageBody payload
                = Some {| Storage := Some {| Value := content;
                                             Representation := "storage" |} |}).
Proof.
  intros args.
  pose (st := start updateServer tt).
  pose (current := page "123" "Old Title" None (Some 1)).
  destruct (@update_empty_as_absent updateServer EmptyString (list_to_map args) st)
    as (_ & _ & Hput).
  destruct (Hput "123" current (@after updateServer st
                                  (getRequest "/content/123"
                                     (@updateQuery updateServer (list_to_map args)))) 2)
    as (payload & Hsent & Htitle & Hbody).
  - repeat split; try discriminate; vm_compute; reflexivity.
  - vm_compute. reflexivity.
  - reflexivity.
  - exists payload. split; [| split; assumption].
    unfold run, handler, call. subst st. rewrite Hsent. reflexivity.
Defined.

(* ===================================================================== *)
(** * The query of the preliminary GET *)
(* ===================================================================== *)

Section UpdateQuery.

Context `{Platform}.

Implicit Types (st : NetState) (req : CallToolRequest) (args : gmap string any).

(** The GET is the first request of an update whose [contentId] is
    accepted. *)
Lemma handleUpdateContent_get req args contentID st :
  validContentCall req args contentID ->
  exists rest,
    sent (snd (handleUpdateContent req st))
    = sent st ++ getRequest ("/content/" +:+ contentID) (updateQuery args) :: rest.
Proof.
  intros Hvalid. rewrite (handleUpdateContent_valid _ _ _ _ Hvalid).
  pose proof (getJSON_sent ("/content/" +:+ contentID) (updateQuery args) st) as Hget.
  destruct (getJSON _ _ st) as [[current | e] st1]; simpl in Hget.
  - destruct (newVersion args current) as [version |].
    + pose proof (doRequest_sent "PUT" ("/content/" +:+ contentID) ∅
                    (Some (updatePayload args contentID current version)) st1) as Hput.
      destruct (doRequest _ _ _ _ st1) as [r2 st2]. simpl in *.
      rewrite Hput, Hget, <- app_assoc. eauto.
    + exists []. exact Hget.
  - exists []. exact Hget.
Qed.

Lemma newQueryWithCommonArgs_limit args :
  newQueryWithCommonArgs args !! "limit" = Some [fmt_d (limitOf args)].
Proof.
  unfold newQueryWithCommonArgs, limitOf, Values_Set.
  destruct (assert_float64 (args !! "limit")), (assert_float64 (args !! "start")),
    (assert_string (args !! "expand")) as [expand []];
    try destruct (negb (String.eqb expand ""));
    repeat (rewrite lookup_insert_ne by discriminate);
    apply lookup_insert_eq.
Qed.

Lemma newQueryWithCommonArgs_start args :
  newQueryWithCommonArgs args !! "start"
  = option_map (fun start => [fmt_d (int_of_float64 convOutOfRange start)])
      (assert_float64 (args !! "start")).
Proof.
  unfold newQueryWithCommonArgs, Values_Set.
  destruct (assert_float64 (args !! "limit")), (assert_float64 (args !! "start")),
    (assert_string (args !! "expand")) as [expand []];
    try destruct (negb (String.eqb expand ""));
    repeat (rewrite lookup_insert_ne by discriminate);
    first [apply lookup_insert_eq | apply lookup_empty].
Qed.

Lemma newQueryWithCommonArgs_other args key :
  ~ In key ["limit"; "start"; "expand"] -> newQueryWithCommonArgs args !! key = None.
Proof.
  intros Hkey. unfold newQueryWithCommonArgs, Values_Set.
  destruct (assert_float64 (args !! "limit")), (assert_float64 (args !! "start")),
    (assert_string (args !! "expand")) as [expand []];
    try destruct (negb (String.eqb expand ""));
    repeat (rewrite lookup_insert_ne by (intros <-; simpl in Hkey; tauto));
    apply lookup_empty.
Qed.

(** C2, as the code has it. The query of the preliminary GET of an update
    holds [expand=body.storage,version,space], whatever [expand] argument
    was given, together with [limit] and, when a numeric [start] argument
    is given, [start]; it holds no other parameter. [limit] is 25 when the
    argument is absent or not a number; a numeric [limit] or [start] is
    sent as [int] converts it: cut towards zero when the integer part is
    within the range of [int], and as the platform converts it
    otherwise. *)
Theorem update_get_query req args contentID st :
  validContentCall req args contentID ->
  exists query rest,
    sent (snd (handleUpdateContent req st))
    = sent st ++ getRequest ("/content/" +:+ contentID) query :: rest
    /\ query !! "expand" = Some ["body.storage,version,space"]
    /\ query !! "limit" = Some [fmt_d (limitOf args)]
    /\ query !! "start"
       = option_map (fun start => [fmt_d (int_of_float64 convOutOfRange start)])
           (assert_float64 (args !! "start"))
    /\ (forall key, ~ In key ["expand"; "limit"; "start"] -> query !! key = None)
    /\ (assert_float64 (args !! "limit") = None -> query !! "limit" = Some ["25"])
    /\ (forall key v z,
          key = "limit" \/ key = "start" ->
          args !! key = Some (AnyFloat64 v) -> truncate v = Some z -> is_int z ->
          query !! key = Some [fmt_d z])
    /\ (forall key v,
          key = "limit" \/ key = "start" ->
          args !! key = Some (AnyFloat64 v) ->
          query !! key = Some [fmt_d (int_of_float64 convOutOfRange v)]).
Proof.
  intros Hvalid. destruct (handleUpdateContent_get _ _ _ st Hvalid) as (rest & Hsent).
  exists (updateQuery args), rest. split; [exact Hsent |].
  assert (Hlimit : updateQuery args !! "limit" = Some [fmt_d (limitOf args)]).
  { unfold updateQuery, Values_Set. rewrite lookup_insert_ne by discriminate.
    apply newQueryWithCommonArgs_limit. }
  assert (Hstart : updateQuery args !! "start"
                   = option_map (fun start => [fmt_d (int_of_float64 convOutOfRange start)])
                       (assert_float64 (args !! "start"))).
  { unfold updateQuery, Values_Set. rewrite lookup_insert_ne by discriminate.
    apply newQueryWithCommonArgs_start. }
  assert (Hnumber : forall key v,
             key = "limit" \/ key = "start" ->
             args !! key = Some (AnyFloat64 v) ->
             updateQuery args !! key = Some [fmt_d (int_of_float64 convOutOfRange v)]).
  { intros key v [-> | ->] Hv.
    - rewrite Hlimit. unfold limitOf. rewrite Hv. reflexivity.
    - rewrite Hstart, Hv. reflexivity. }
  split; [| split; [exact Hlimit | split; [exact Hstart | split; [| split; [| split]]]]].
  - unfold updateQuery, Values_Set. apply lookup_insert_eq.
  - intros key Hkey. unfold updateQuery, Values_Set.
    rewrite lookup_insert_ne by (intros <-; simpl in Hkey; tauto).
    apply newQueryWithCommonArgs_other. simpl in *. tauto.
  - intros Hnone. rewrite Hlimit. unfold limitOf. rewrite Hnone. reflexivity.
  - intros key v z Hkey Hv Htrunc Hint.
    rewrite (Hnumber key v Hkey Hv), (int_of_float64_in_range _ _ Htrunc Hint). reflexivity.
  - exact Hnumber.
Qed.

End UpdateQuery.

Lemma update_get_query_witness :
  exists query rest,
    sent (snd (run updateServer tt confluence_update_content
                 [("contentId", AnyString "123"); ("expand", AnyString "space");
                  ("start", AnyFloat64 (S754_finite false 21 (-1)))]))
    = getRequest "/content/123" query :: rest
    /\ query !! "expand" = Some ["body.storage,version,space"]
    /\ query !! "limit" = Some ["25"]
    /\ query !! "start" = Some ["10"].
Proof.
  pose (l := [("contentId", AnyString "123"); ("expand", AnyString "space");
              ("start", AnyFloat64 (S754_finite false 21 (-1)))]).
  destruct (@update_get_query updateServer (call l) (list_to_map l) "123"
              (start updateServer tt))
    as (query & rest & Hsent & Hexpand & _ & _ & _ & Hlimit & Hnumber & _).
  - repeat split; try discriminate; vm_compute; reflexivity.
  - exists query, rest. split; [exact Hsent |]. split; [exact Hexpand |].
    split; [apply Hlimit; reflexivity |].
    refine (Hnumber "start" _ 10 (or_intror eq_refl) eq_refl eq_refl _).
    unfold is_int, minInt, maxInt. lia.
Defined.

(** C2 as the specification states it fails on every update that reaches
    its GET: the query also carries [limit=25]. *)
Lemma update_get_query_counterexample :
  exists query rest,
    sent (snd (run updateServer tt confluence_update_content
                 [("contentId", AnyString "123")]))
    = getRequest "/content/123" query :: rest
    /\ query = {[ "expand" := ["body.storage,version,space"]; "limit" := ["25"] ]}
    /\ query <> {[ "expand" := ["body.storage,version,space"] ]}.
Proof.
  eexists _, _. split; [vm_compute; reflexivity |]. split; [reflexivity |].
  intros Heq. apply (f_equal (fun q : Values => q !! "limit")) in Heq.
  vm_compute in Heq. discriminate Heq.
Qed.

(** [TestNewQueryWithCommonArgs], and the [expand] of get-content. *)
Example newQueryWithCommonArgs_test :
  let query :=
    @newQueryWithCommonArgs updateServer
      (list_to_map [("limit", AnyFloat64 (float64_of_Z 10));
                    ("start", AnyFloat64 (float64_of_Z 5));
                    ("expand", AnyString "body.storage")]) in
  Values_Get query "limit" = "10"
  /\ Values_Get query "start" = "5"
  /\ Values_Get query "expand" = "body.storage"
  /\ map (fun rq => Values_Get (Query rq) "expand")
       (sent (snd (run updateServer tt confluence_get_content
                     [("contentId", AnyString "123"); ("expand", AnyString "version")])))
     = ["version,body.storage"].
Proof. repeat split; vm_compute; reflexivity. Qed.

(* ===================================================================== *)
(** * Remote errors *)
(* ===================================================================== *)

Section RemoteErrors.

Context `{Platform}.

Implicit Types (st : NetState) (req : CallToolRequest) (args : gmap string any).

(** A handler that ends with a call of a helper and wraps its error. *)
Lemma bind_result {A : Type} (m : Net (result A)) (onErr : string -> CallToolResult)
    (onOk : A -> CallToolResult) st :
  bind m (fun r => match r with
                   | Err e => ret (onErr e)
                   | Ok a => ret (onOk a)
                   end) st
  = (match fst (m st) with Err e => onErr e | Ok a => onOk a end, snd (m st)).
Proof. unfold bind, ret. destruct (m st) as [[a | e] st']; reflexivity. Qed.

Lemma bind_run {A B : Type} (m : Net A) (k : A -> Net B) st :
  bind m k st = k (fst (m st)) (snd (m st)).
Proof. unfold bind. destruct (m st); reflexivity. Qed.

Lemma Contains_apiError context code body :
  Contains (context +:+ apiError code body) (fmt_d code) = true.
Proof. apply Contains_app_r. unfold apiError. apply Contains_middle. Qed.

Lemma added_nil st new rq resp : added st st new -> ~ In (rq, Ok resp) new.
Proof.
  unfold added. intros Hnew.
  rewrite <- (app_nil_r (exchanges st)) in Hnew at 1.
  apply app_inv_head in Hnew. subst new. intros [].
Qed.

Lemma added_after st rq0 new :
  added st (after st rq0) new -> new = [(rq0, answer st rq0)].
Proof. unfold added, after. simpl. intros Hnew. apply app_inv_head in Hnew. congruence. Qed.

(** The raw-bytes helper reports a status of 400 or more with the whole
    body, provided the body could be read. *)
Lemma doRequest_status method path query body st resp :
  answer st {| Method := method; RelPath := path; Query := query; Payload := body |}
  = Ok resp ->
  400 <= StatusCode resp -> BodyErr resp = None ->
  fst (doRequest method path query body st)
  = Err (apiError (StatusCode resp) (BodyData resp)).
Proof.
  intros Hanswer Hcode Hread. rewrite doRequest_run. cbv zeta. simpl fst.
  rewrite Hanswer, Hread. apply Z.leb_le in Hcode. rewrite Hcode. reflexivity.
Qed.

(** The JSON helper reports it with the first 1024 bytes of the body. *)
Lemma getJSON_status path query st resp :
  answer st (getRequest path query) = Ok resp ->
  400 <= StatusCode resp ->
  fst (getJSON path query st)
  = Err (apiError (StatusCode resp) (slice_to 1024 (BodyData resp))).
Proof.
  intros Hanswer Hcode. rewrite getJSON_run. cbv zeta. simpl fst.
  rewrite Hanswer. apply Z.leb_le in Hcode. rewrite Hcode. reflexivity.
Qed.

(** A handler that ends with [doRequest]. *)
Lemma doRequest_surfaces context method path query body
    (onOk : string -> CallToolResult) st new rq resp :
  let out :=
    bind (doRequest method path query body)
      (fun r => match r with
                | Err e => ret (NewToolResultError (context +:+ e))
                | Ok text => ret (onOk text)
                end) st in
  added st (snd out) new ->
  In (rq, Ok resp) new ->
  400 <= StatusCode resp -> BodyErr resp = None ->
  IsError (fst out) = true
  /\ Contains (Text (fst out)) (fmt_d (StatusCode resp)) = true.
Proof.
  intros out Hnew Hin Hcode Hread. subst out. rewrite bind_result in *.
  simpl fst. simpl snd in Hnew. rewrite doRequest_run in Hnew. simpl snd in Hnew.
  apply added_after in Hnew. subst new. destruct Hin as [Heq | []].
  injection Heq as _ Hanswer.
  rewrite (doRequest_status _ _ _ _ _ _ Hanswer Hcode Hread).
  split; [reflexivity | apply Contains_apiError].
Qed.

Ltac nothing_sent :=
  match goal with
  | Hnew : added ?st _ ?new, Hin : In _ ?new |- _ =>
      exfalso; exact (added_nil _ _ _ _ Hnew Hin)
  end.

Lemma handleGetContent_surfaces req st new rq resp :
  added st (snd (handleGetContent req st)) new ->
  In (rq, Ok resp) new ->
  400 <= StatusCode resp -> BodyErr resp = None ->
  IsError (fst (handleGetContent req st)) = true
  /\ Contains (Text (fst (handleGetContent req st))) (fmt_d (StatusCode resp)) = true.
Proof.
  unfold handleGetContent. destruct (getArguments req) as [args | e].
  2: { intros; nothing_sent. }
  destruct (assert_string (args !! "contentId")) as [contentID ok].
  destruct (negb ok || String.eqb contentID ""). { intros; nothing_sent. }
  destruct (traversal contentID). { intros; nothing_sent. }
  apply doRequest_surfaces.
Qed.

Lemma handleSearchContent_surfaces req st new rq resp :
  added st (snd (handleSearchContent req st)) new ->
  In (rq, Ok resp) new ->
  400 <= StatusCode resp -> BodyErr resp = None ->
  IsError (fst (handleSearchContent req st)) = true
  /\ Contains (Text (fst (handleSearchContent req st))) (fmt_d (StatusCode resp)) = true.
Proof.
  unfold handleSearchContent. destruct (getArguments req) as [args | e].
  2: { intros; nothing_sent. }
  destruct (assert_string (args !! "cql")) as [cql ok].
  destruct (negb ok || String.eqb cql ""). { intros; nothing_sent. }
  apply doRequest_surfaces.
Qed.

Lemma handleCreateContent_surfaces req st new rq resp :
  added st (snd (handleCreateContent req st)) new ->
  In (rq, Ok resp) new ->
  400 <= StatusCode resp -> BodyErr resp = None ->
  IsError (fst (handleCreateContent req st)) = true
  /\ Contains (Text (fst (handleCreateContent req st))) (fmt_d (StatusCode resp)) = true.
Proof.
  unfold handleCreateContent. destruct (getArguments req) as [args | e].
  2: { intros; nothing_sent. }
  destruct (assert_string (args !! "title")) as [title ok].
  destruct (negb ok || String.eqb title ""). { intros; nothing_sent. }
  destruct (assert_string (args !! "spaceKey")) as [spaceKey ok1].
  destruct (negb ok1 || String.eqb spaceKey ""). { intros; nothing_sent. }
  destruct (assert_string (args !! "content")) as [contentStr ok2].
  destruct (negb ok2 || String.eqb contentStr ""). { intros; nothing_sent. }
  destruct (assert_string (args !! "type")) as [typeStr ok3].
  apply doRequest_surfaces.
Qed.

Lemma handleListSpaces_surfaces req st new rq resp :
  added st (snd (handleListSpaces req st)) new ->
  In (rq, Ok resp) new ->
  400 <= StatusCode resp -> BodyErr resp = None ->
  IsError (fst (handleListSpaces req st)) = true
  /\ Contains (Text (fst (handleListSpaces req st))) (fmt_d (StatusCode resp)) = true.
Proof.
  unfold handleListSpaces. destruct (getArguments req) as [args | e].
  2: { intros; nothing_sent. }
  apply doRequest_surfaces.
Qed.

Lemma handleUpdateContent_surfaces req st new rq resp :
  added st (snd (handleUpdateContent req st)) new ->
  In (rq, Ok resp) new ->
  400 <= StatusCode resp -> BodyErr resp = None ->
  IsError (fst (handleUpdateContent req st)) = true
  /\ Contains (Text (fst (handleUpdateContent req st))) (fmt_d (StatusCode resp)) = true.
Proof.
  unfold handleUpdateContent. destruct (getArguments req) as [args | e].
  2: { intros; nothing_sent. }
  destruct (assert_string (args !! "contentId")) as [contentID ok].
  destruct (negb ok || String.eqb contentID ""). { intros; nothing_sent. }
  destruct (traversal contentID). { intros; nothing_sent. }
  rewrite bind_run, getJSON_run. cbv zeta. simpl fst. simpl snd.
  set (rq0 := getRequest ("/content/" +:+ contentID) (updateQuery args)).
  destruct (answer st rq0) as [resp0 | e] eqn:Hanswer.
  - destruct (400 <=? StatusCode resp0) eqn:Hcode0.
    + simpl. intros Hnew Hin Hcode Hread. apply added_after in Hnew. subst new.
      destruct Hin as [Heq | []]. rewrite Hanswer in Heq. injection Heq as _ <-.
      split; [reflexivity | apply Contains_apiError].
    + assert (Hfirst : forall new0, added st (after st rq0) new0 ->
                In (rq, Ok resp) new0 -> 400 <= StatusCode resp -> False).
      { intros new0 Hnew Hin Hcode. apply added_after in Hnew. subst new0.
        destruct Hin as [Heq | []]. rewrite Hanswer in Heq. injection Heq as _ <-.
        apply Z.leb_gt in Hcode0. lia. }
      destruct (json_Decode _ _) as [current | e].
      2: { simpl. intros Hnew Hin Hcode _. destruct (Hfirst _ Hnew Hin Hcode). }
      destruct (newVersion args current) as [version |].
      2: { simpl. intros Hnew Hin Hcode _. destruct (Hfirst _ Hnew Hin Hcode). }
      intros Hnew Hin Hcode Hread.
      set (body := Some (updatePayload args contentID current version)) in *.
      rewrite bind_result in *. simpl fst. simpl snd in Hnew.
      rewrite doRequest_run in Hnew. simpl snd in Hnew.
      unfold added in Hnew. simpl in Hnew. rewrite <- app_assoc in Hnew.
      apply app_inv_head in Hnew. subst new. simpl in Hin.
      destruct Hin as [Heq | [Heq | []]].
      * exfalso. apply (Hfirst [(rq0, answer st rq0)]); [reflexivity | | exact Hcode].
        left. exact Heq.
      * injection Heq as _ Hput.
        rewrite (doRequest_status _ _ _ _ _ _ Hput Hcode Hread).
        split; [reflexivity | apply Contains_apiError].
  - simpl. intros Hnew Hin _ _. apply added_after in Hnew. subst new.
    destruct Hin as [Heq | []]. rewrite Hanswer in Heq. discriminate Heq.
Qed.

(** C9, as the code has it. Whatever the tool, a response with a status of
    400 or more whose body is read to its end makes the handler answer an
    error result whose text contains the status code in decimal. On such a
    response [doRequest] reports the whole body; [getJSON] reports a status
    of 400 or more whether or not the body can be read, with at most the
    first 1024 bytes of it. *)
Theorem remote_error_surfaces :
  (forall tool req st new rq resp,
     added st (snd (handler tool req st)) new ->
     In (rq, Ok resp) new ->
     400 <= StatusCode resp -> BodyErr resp = None ->
     IsError (fst (handler tool req st)) = true
     /\ Contains (Text (fst (handler tool req st))) (fmt_d (StatusCode resp)) = true)
  /\ (forall method path query body st resp,
        answer st {| Method := method; RelPath := path; Query := query; Payload := body |}
        = Ok resp ->
        400 <= StatusCode resp -> BodyErr resp = None ->
        fst (doRequest method path query body st)
        = Err ("API error (status " +:+ fmt_d (StatusCode resp) +:+ "): "
               +:+ BodyData resp))
  /\ (forall path query st resp,
        answer st (getRequest path query) = Ok resp ->
        400 <= StatusCode resp ->
        exists captured,
          fst (getJSON path query st)
          = Err ("API error (status " +:+ fmt_d (StatusCode resp) +:+ "): " +:+ captured)
          /\ (String.length captured <= 1024)%nat
          /\ captured = slice_to 1024 (BodyData resp)).
Proof.
  split; [| split].
  - intros [] req st new rq resp.
    + apply handleGetContent_surfaces.
    + apply handleSearchContent_surfaces.
    + apply handleCreateContent_surfaces.
    + apply handleUpdateContent_surfaces.
    + apply handleListSpaces_surfaces.
  - apply doRequest_status.
  - intros path query st resp Hanswer Hcode. eexists. split; [| split].
    + apply (getJSON_status _ _ _ _ Hanswer Hcode).
    + apply length_slice_to.
    + reflexivity.
Qed.

End RemoteErrors.

(** The server of [TestDoRequestAPIError]. *)
Lemma remote_error_surfaces_witness :
  let P := testServer (fun _ => status 500 "internal server error") [] in
  let out := run P tt confluence_search_content [("cql", AnyString "type=page")] in
  IsError (fst out) = true /\ Contains (Text (fst out)) "500" = true.
Proof.
  intros P out.
  refine (proj1 (@remote_error_surfaces P) confluence_search_content _ (start P tt)
            (exchanges (snd out)) _
            {| StatusCode := 500; BodyData := "internal server error"; BodyErr := None |}
            eq_refl _ _ eq_refl).
  - left. vm_compute. reflexivity.
  - simpl. lia.
Defined.

(** C9 as the specification states it fails when the body of the error
    response breaks off: [doRequest] reads the body before it looks at the
    status, and the text of the result names the read error only. *)
Lemma remote_error_surfaces_counterexample :
  let out := run brokenServer tt confluence_get_content [("contentId", AnyString "123")] in
  map snd (exchanges (snd out))
  = [Ok {| StatusCode := 500; BodyData := "internal ser"; BodyErr := Some "unexpected EOF" |}]
  /\ fst out
     = NewToolResultError
         "error getting content: failed to read response body: unexpected EOF"
  /\ Contains (Text (fst out)) "500" = false.
Proof. repeat split; vm_compute; reflexivity. Qed.

(* ===================================================================== *)
(** * The resolved base URL *)
(* ===================================================================== *)

Section ApiRoot.

Implicit Types s p q path : string.

Lemma Contains_cons_false c s sub :
  Contains (String c s) sub = false ->
  HasPrefix (String c s) sub = false /\ Contains s sub = false.
Proof.
  unfold Contains. rewrite Index_eq.
  destruct (HasPrefix (String c s) sub); [discriminate |].
  destruct (Index s sub); [discriminate | auto].
Qed.

Lemma occurrences_eq s sub :
  occurrences s sub
  = ((if HasPrefix s sub then 1 else 0)
     + match s with
       | EmptyString => 0
       | String _ s' => occurrences s' sub
       end)%nat.
Proof. destruct s; reflexivity. Qed.

Lemma occurrences_Contains s sub :
  Contains s sub = true -> (1 <= occurrences s sub)%nat.
Proof.
  unfold Contains. induction s as [|c s IH]; rewrite Index_eq, occurrences_eq.
  - destruct (HasPrefix EmptyString sub); [lia | discriminate].
  - destruct (HasPrefix (String c s) sub); [lia |].
    destruct (Index s sub); [| discriminate].
    intros _. specialize (IH eq_refl). lia.
Qed.

(** [/rest/api] does not overlap itself: put after a text that does not
    start with it, it does not make that text start with it. *)
Lemma apiRoot_no_straddle c q :
  HasPrefix (String c q) apiRoot = false ->
  HasPrefix (String c q +:+ apiRoot) apiRoot = false.
Proof.
  unfold apiRoot.
  destruct q as [|c2 [|c3 [|c4 [|c5 [|c6 [|c7 [|c8 [|c9 q]]]]]]]];
    rewrite ?str_app_cons, ?str_app_nil_l; simpl; intros Hq;
    repeat match goal with
           | |- context [Ascii.eqb ?a ?b] => destruct (Ascii.eqb a b); simpl in *
           end;
    solve [reflexivity | discriminate Hq].
Qed.

Lemma occurrences_appended q :
  Contains q apiRoot = false -> occurrences (q +:+ apiRoot) apiRoot = 1%nat.
Proof.
  induction q as [|c q IH]; [reflexivity |].
  intros Hq. apply Contains_cons_false in Hq as [Hhead Htail].
  rewrite occurrences_eq, (apiRoot_no_straddle _ _ Hhead), str_app_cons, (IH Htail).
  reflexivity.
Qed.

Lemma rootSegments_eq path :
  rootSegments path
  = ((if HasPrefix path apiRoot && segmentEnd (slice_from (String.length apiRoot) path)
      then 1 else 0)
     + match path with
       | EmptyString => 0
       | String _ path' => rootSegments path'
       end)%nat.
Proof. destruct path; reflexivity. Qed.

(** A segment [/rest/api] is an occurrence of the text. *)
Lemma rootSegments_le path : (rootSegments path <= occurrences path apiRoot)%nat.
Proof.
  induction path as [|c path IH]; rewrite rootSegments_eq, occurrences_eq.
  - reflexivity.
  - destruct (HasPrefix (String c path) apiRoot); simpl andb; [| exact IH].
    destruct (segmentEnd _); lia.
Qed.

(** Put at the end of a path, [/rest/api] is a segment of it. *)
Lemma rootSegments_end q : (1 <= rootSegments (q +:+ apiRoot))%nat.
Proof.
  induction q as [|c q IH]; [rewrite str_app_nil_l; vm_compute; lia |].
  rewrite str_app_cons, rootSegments_eq. lia.
Qed.

Lemma rootSegments_appended q :
  Contains q apiRoot = false -> rootSegments (q +:+ apiRoot) = 1%nat.
Proof.
  intros Hq. pose proof (rootSegments_le (q +:+ apiRoot)) as Hle.
  rewrite (occurrences_appended _ Hq) in Hle.
  pose proof (rootSegments_end q). lia.
Qed.

Lemma HasSuffix_inv s suffix :
  HasSuffix s suffix = true ->
  s = slice_to (String.length s - String.length suffix) s +:+ suffix.
Proof.
  unfold HasSuffix. intros Hs. apply andb_prop in Hs as [_ Heq].
  apply String.eqb_eq in Heq.
  set (n := (String.length s - String.length suffix)%nat) in *.
  transitivity (slice_to n s +:+ slice_from n s);
    [symmetry; apply slice_to_from | f_equal; exact Heq].
Qed.

Lemma HasSuffix_Contains s suffix : HasSuffix s suffix = true -> Contains s suffix = true.
Proof.
  intros Hs. apply Contains_true_iff.
  exists (slice_to (String.length s - String.length suffix) s), EmptyString.
  rewrite str_app_nil_r. apply HasSuffix_inv, Hs.
Qed.

Lemma TrimSuffix_prefix s suffix : exists rest, s = TrimSuffix s suffix +:+ rest.
Proof.
  unfold TrimSuffix. destruct (HasSuffix s suffix) eqn:Hs.
  - exists suffix. apply HasSuffix_inv, Hs.
  - exists EmptyString. rewrite str_app_nil_r. reflexivity.
Qed.

Lemma TrimSuffix_Contains s suffix sub :
  Contains s sub = false -> Contains (TrimSuffix s suffix) sub = false.
Proof.
  intros Hs. destruct (Contains (TrimSuffix s suffix) sub) eqn:Ht; [| reflexivity].
  destruct (TrimSuffix_prefix s suffix) as (rest & Heq).
  rewrite Heq, (Contains_app_l _ rest _ Ht) in Hs. discriminate Hs.
Qed.

(** The path after lines 62-64 holds [/rest/api]. *)
Lemma withApiRoot_Contains path : Contains (withApiRoot path) apiRoot = true.
Proof.
  unfold withApiRoot. destruct (Contains path apiRoot) eqn:Hp; simpl; [exact Hp |].
  rewrite <- (str_app_nil_r apiRoot) at 1. apply Contains_middle.
Qed.

(** It holds it once when it was appended. *)
Lemma withApiRoot_appended path :
  Contains path apiRoot = false ->
  withApiRoot path = TrimSuffix path "/" +:+ apiRoot
  /\ occurrences (withApiRoot path) apiRoot = 1%nat.
Proof.
  intros Hp. unfold withApiRoot. rewrite Hp. simpl. split; [reflexivity |].
  apply occurrences_appended, TrimSuffix_Contains, Hp.
Qed.

(** A path that ends with [/rest/api] is left as it is. *)
Lemma withApiRoot_suffix path : HasSuffix path apiRoot = true -> withApiRoot path = path.
Proof.
  intros Hs. unfold withApiRoot. rewrite (HasSuffix_Contains _ _ Hs). reflexivity.
Qed.

Lemma withApiRoot_idempotent path : withApiRoot (withApiRoot path) = withApiRoot path.
Proof.
  unfold withApiRoot at 1. rewrite withApiRoot_Contains. reflexivity.
Qed.

Lemma set_Path_same u : set_Path (Path u) u = u.
Proof. destruct u; reflexivity. Qed.

End ApiRoot.

Section Resolver.

Variable url_Parse : string -> result URL.
Variable url_String : URL -> string.

Implicit Types env : gmap string string.

(** A successful [loadConfig], step by step. *)
Lemma loadConfig_Ok env cfg :
  loadConfig url_Parse url_String env = Ok cfg ->
  exists parsed,
    url_Parse (withScheme (rawEndpoint env)) = Ok parsed
    /\ HasPrefix (Scheme parsed) "http" = true
    /\ resolveURL url_Parse env = Ok (set_Path (withApiRoot (Path parsed)) parsed)
    /\ BaseURL cfg = url_String (set_Path (withApiRoot (Path parsed)) parsed)
    /\ Token cfg = Getenv env "CONFLUENCE_API_TOKEN".
Proof.
  unfold loadConfig, resolveURL.
  destruct (String.eqb (Getenv env "CONFLUENCE_API_TOKEN") ""); [discriminate |].
  destruct (String.eqb (rawEndpoint env) ""); [discriminate |].
  destruct (url_Parse _) as [parsed | e]; [| discriminate].
  destruct (HasPrefix (Scheme parsed) "http") eqn:Hscheme; cbv [negb]; [| discriminate].
  intros [= <-]. exists parsed. repeat split; solve [exact Hscheme | reflexivity].
Qed.

(** C3, as the code has it. Take an environment on which [loadConfig]
    succeeds, whose endpoint parses with the scheme [http] or [https] and
    with a path that either does not hold the text [/rest/api] or holds
    the segment [/rest/api] exactly once, and whose [BaseURL] reads back
    with the scheme and the path of the URL it was written from. Then
    [BaseURL] has the scheme [http] or [https] and its path holds the
    segment [/rest/api] exactly once: it is the path of the endpoint when
    that holds [/rest/api], and that path, less one final slash, followed
    by [/rest/api] otherwise. *)
Theorem resolved_path env cfg parsed resolved stored :
  loadConfig url_Parse url_String env = Ok cfg ->
  url_Parse (withScheme (rawEndpoint env)) = Ok parsed ->
  Scheme parsed = "http" \/ Scheme parsed = "https" ->
  (Contains (Path parsed) apiRoot = true -> rootSegments (Path parsed) = 1%nat) ->
  resolveURL url_Parse env = Ok resolved ->
  url_Parse (BaseURL cfg) = Ok stored ->
  Scheme stored = Scheme resolved ->
  Path stored = Path resolved ->
  BaseURL cfg = url_String resolved
  /\ (Scheme stored = "http" \/ Scheme stored = "https")
  /\ rootSegments (Path stored) = 1%nat
  /\ (Contains (Path parsed) apiRoot = true -> Path stored = Path parsed)
  /\ (Contains (Path parsed) apiRoot = false ->
      Path stored = TrimSuffix (Path parsed) "/" +:+ apiRoot).
Proof.
  intros Hcfg Hparse Hscheme Hsegment Hurl _ Hstored_scheme Hstored_path.
  destruct (loadConfig_Ok _ _ Hcfg) as (parsed' & Hparse' & _ & Hurl' & Hbase & _).
  rewrite Hparse in Hparse'. injection Hparse' as <-.
  rewrite Hurl in Hurl'. injection Hurl' as ->.
  rewrite Hstored_scheme, Hstored_path. simpl Scheme. simpl Path.
  split; [exact Hbase |]. split; [exact Hscheme |].
  unfold withApiRoot. destruct (Contains (Path parsed) apiRoot) eqn:Hroot; simpl negb.
  - split; [exact (Hsegment eq_refl) | split; [reflexivity | discriminate]].
  - split; [| split; [discriminate | reflexivity]].
    apply rootSegments_appended, TrimSuffix_Contains, Hroot.
Qed.

Lemma rawEndpoint_ext env1 env2 :
  (forall key, In key configVariables -> Getenv env1 key = Getenv env2 key) ->
  rawEndpoint env1 = rawEndpoint env2.
Proof.
  intros Hsame. unfold rawEndpoint.
  rewrite !(Hsame "CONFLUENCE_BASE_URL"), !(Hsame "CONFLUENCE_API_BASE_PATH"),
    !(Hsame "CONFLUENCE_HOST") by (simpl; tauto).
  reflexivity.
Qed.

(** C6. [loadConfig] is a function of the four variables it reads: two
    environments that agree on them resolve to the same result. Its path
    fix-up leaves a path that ends with [/rest/api] as it is, so that the
    URL parsed from such an input is serialised unchanged; applied to its
    own result it changes nothing. *)
Theorem loadConfig_deterministic :
  (forall env1 env2,
     (forall key, In key configVariables -> Getenv env1 key = Getenv env2 key) ->
     loadConfig url_Parse url_String env1 = loadConfig url_Parse url_String env2)
  /\ (forall env cfg parsed,
        loadConfig url_Parse url_String env = Ok cfg ->
        url_Parse (withScheme (rawEndpoint env)) = Ok parsed ->
        HasSuffix (Path parsed) apiRoot = true ->
        resolveURL url_Parse env = Ok parsed
        /\ BaseURL cfg = url_String parsed
        /\ withApiRoot (Path parsed) = Path parsed)
  /\ (forall path, withApiRoot (withApiRoot path) = withApiRoot path).
Proof.
  split; [| split].
  - intros env1 env2 Hsame. unfold loadConfig, resolveURL.
    rewrite (rawEndpoint_ext _ _ Hsame), (Hsame "CONFLUENCE_API_TOKEN") by (simpl; tauto).
    reflexivity.
  - intros env cfg parsed Hcfg Hparse Hsuffix.
    destruct (loadConfig_Ok _ _ Hcfg) as (parsed' & Hparse' & _ & Hurl & Hbase & _).
    rewrite Hparse in Hparse'. injection Hparse' as <-.
    rewrite (withApiRoot_suffix _ Hsuffix), set_Path_same in Hurl, Hbase. auto using withApiRoot_suffix.
  - apply withApiRoot_idempotent.
Qed.

End Resolver.

(** The cases of [TestLoadConfig] and [TestLoadConfigMore]. *)
Example loadConfig_tests :
  let run l := loadConfig NetURL.Parse NetURL.String (env_of l) in
  run [("CONFLUENCE_API_TOKEN", "test-token");
       ("CONFLUENCE_BASE_URL", "https://example.atlassian.net")]
  = Ok {| BaseURL := "https://example.atlassian.net/rest/api"; Token := "test-token" |}
  /\ run [("CONFLUENCE_API_TOKEN", "test-token");
          ("CONFLUENCE_HOST", "example.atlassian.net")]
     = Ok {| BaseURL := "https://example.atlassian.net/rest/api"; Token := "test-token" |}
  /\ run [("CONFLUENCE_BASE_URL", "https://example.atlassian.net")]
     = Err "CONFLUENCE_API_TOKEN environment variable is required"
  /\ run [("CONFLUENCE_API_TOKEN", "test-token")]
     = Err "CONFLUENCE_BASE_URL (or CONFLUENCE_HOST) environment variable is required"
  /\ run [("CONFLUENCE_API_TOKEN", "test-token");
          ("CONFLUENCE_BASE_URL", "://invalid-url")]
     = Err ("invalid base URL: parse " +:+ NetURL.quoted "://invalid-url"
            +:+ ": missing protocol scheme")
  /\ run [("CONFLUENCE_API_TOKEN", "test-token");
          ("CONFLUENCE_BASE_URL", "ftp://example.com")]
     = Err "base URL must use http or https scheme"
  /\ run [("CONFLUENCE_API_TOKEN", "test-token");
          ("CONFLUENCE_API_BASE_PATH", "https://example.com/wiki")]
     = Ok {| BaseURL := "https://example.com/wiki/rest/api"; Token := "test-token" |}.
Proof. repeat split; vm_compute; reflexivity. Qed.

Lemma resolved_path_witness :
  let resolve url :=
    loadConfig NetURL.Parse NetURL.String
      (env_of [("CONFLUENCE_API_TOKEN", "test-token"); ("CONFLUENCE_API_BASE_PATH", url)]) in
  exists stored kept,
    resolve "https://example.com/wiki/"
    = Ok {| BaseURL := "https://example.com/wiki/rest/api"; Token := "test-token" |}
    /\ NetURL.Parse "https://example.com/wiki/rest/api" = Ok stored
    /\ Path stored = "/wiki/rest/api" /\ rootSegments (Path stored) = 1%nat
    /\ resolve "http://example.com/rest/api/"
       = Ok {| BaseURL := "http://example.com/rest/api/"; Token := "test-token" |}
    /\ NetURL.Parse "http://example.com/rest/api/" = Ok kept
    /\ Path kept = "/rest/api/" /\ rootSegments (Path kept) = 1%nat.
Proof.
  intros resolve.
  pose (url host scheme path :=
          {| Scheme := scheme; Opaque := ""; User := None; Host := host;
             Path := path; RawPath := ""; OmitHost := false;
             ForceQuery := false; RawQuery := ""; Fragment := ""; RawFragment := "" |}).
  pose (stored := url "example.com" "https" "/wiki/rest/api").
  pose (kept := url "example.com" "http" "/rest/api/").
  exists stored, kept.
  split; [reflexivity |]. split; [reflexivity |]. split; [reflexivity |].
  split; [| split; [reflexivity |]; split; [reflexivity |]; split; [reflexivity |]].
  - refine (proj1 (proj2 (proj2
              (resolved_path NetURL.Parse NetURL.String
                 (env_of [("CONFLUENCE_API_TOKEN", "test-token");
                          ("CONFLUENCE_API_BASE_PATH", "https://example.com/wiki/")])
                 _ (url "example.com" "https" "/wiki/") stored stored
                 eq_refl eq_refl (or_intror eq_refl) _ eq_refl eq_refl eq_refl eq_refl)))).
    intros Hroot. vm_compute in Hroot. discriminate Hroot.
  - refine (proj1 (proj2 (proj2
              (resolved_path NetURL.Parse NetURL.String
                 (env_of [("CONFLUENCE_API_TOKEN", "test-token");
                          ("CONFLUENCE_API_BASE_PATH", "http://example.com/rest/api/")])
                 _ kept kept kept
                 eq_refl eq_refl (or_introl eq_refl) (fun _ => eq_refl)
                 eq_refl eq_refl eq_refl eq_refl)))).
Defined.

(** C3 as the specification states it fails on four kinds of endpoint:
    a scheme that only starts with [http] is accepted; a path that holds
    [/rest/api] twice is kept; so is a path that holds it inside a longer
    segment, which then has no segment [/rest/api]; and of an opaque
    endpoint the path is not written into [BaseURL] at all. Each line gives
    the [BaseURL] stored and the scheme and path it reads back with. *)
Lemma resolved_path_counterexample :
  let resolve url :=
    let env := env_of [("CONFLUENCE_API_TOKEN", "test-token");
                       ("CONFLUENCE_BASE_URL", url)] in
    match loadConfig NetURL.Parse NetURL.String env with
    | Ok cfg =>
        match NetURL.Parse (BaseURL cfg) with
        | Ok stored => Some (BaseURL cfg, Scheme stored, Path stored)
        | Err _ => None
        end
    | Err _ => None
    end in
  resolve "httpx://wiki.example.com"
  = Some ("httpx://wiki.example.com/rest/api", "httpx", "/rest/api")
  /\ resolve "https://wiki.example.com/rest/api/rest/api"
     = Some ("https://wiki.example.com/rest/api/rest/api", "https", "/rest/api/rest/api")
  /\ rootSegments "/rest/api/rest/api" = 2%nat
  /\ resolve "https://wiki.example.com/rest/apiary"
     = Some ("https://wiki.example.com/rest/apiary", "https", "/rest/apiary")
  /\ rootSegments "/rest/apiary" = 0%nat
  /\ resolve "http:a://b" = Some ("http:a://b", "http", "")
  /\ rootSegments "" = 0%nat.
Proof. repeat split; vm_compute; reflexivity. Qed.

Lemma loadConfig_deterministic_witness :
  let env := env_of [("CONFLUENCE_API_TOKEN", "test-token");
                     ("CONFLUENCE_BASE_URL", "https://example.atlassian.net/rest/api")] in
  loadConfig NetURL.Parse NetURL.String env
  = loadConfig NetURL.Parse NetURL.String (<["HOME" := "/root"]> env)
  /\ exists cfg,
       loadConfig NetURL.Parse NetURL.String env = Ok cfg
       /\ BaseURL cfg = "https://example.atlassian.net/rest/api".
Proof.
  intros env.
  destruct (loadConfig_deterministic NetURL.Parse NetURL.String) as (Hsame & Hkept & _).
  split.
  - apply Hsame. intros key Hkey. unfold Getenv. rewrite lookup_insert_ne; [reflexivity |].
    intros <-. simpl in Hkey. intuition discriminate.
  - eexists. split; [vm_compute; reflexivity |].
    refine (proj1 (proj2 (Hkept env _ _ eq_refl eq_refl eq_refl))).
Defined.

(* ===================================================================== *)
(** * The handlers, case by case *)
(* ===================================================================== *)

Section Outcomes.

Context `{Platform}.

Implicit Types (st : NetState) (req : CallToolRequest) (args : gmap string any).

Lemma nonEmptyString_given args key : nonEmptyString (args !! key) = true <-> given args key.
Proof.
  unfold given. split.
  - destruct (args !! key) as [[| | | s | |] |]; try discriminate. simpl.
    intros Hs. exists s. split; [reflexivity |].
    intros ->. discriminate Hs.
  - intros (s & -> & Hs). simpl. apply String.eqb_neq in Hs. rewrite Hs. reflexivity.
Qed.

(** The test a handler makes on a required argument. *)
Lemma required_test args key :
  (let '(s, ok) := assert_string (args !! key) in negb ok || String.eqb s "")
  = negb (nonEmptyString (args !! key)).
Proof.
  destruct (args !! key) as [[| | | s | |] |]; try reflexivity. simpl.
  destruct (String.eqb s ""); reflexivity.
Qed.

(** A tool other than the update: rejected arguments send nothing,
    accepted ones lead to one [doRequest], whose outcome is the result. *)
Lemma simple_tool_outcome tool req args st :
  tool <> confluence_update_content ->
  getArguments req = Ok args ->
  handler tool req st
  = if accepts tool args
    then (conclude (errorContext tool) (fst (doRequest_of (firstRequest tool args) st)),
          snd (doRequest_of (firstRequest tool args) st))
    else (fst (handler tool req st), st).
Proof.
  intros Htool Hargs.
  destruct tool; try congruence; simpl handler; simpl accepts;
    unfold doRequest_of, firstRequest, createPayloadOf, toolPath, conclude, errorContext.
  - unfold handleGetContent. rewrite Hargs.
    destruct (args !! "contentId") as [[| | | s | |] |]; try reflexivity. simpl.
    destruct (String.eqb s ""); [reflexivity |]. simpl.
    destruct (traversal s); [reflexivity |]. simpl.
    rewrite bind_result. reflexivity.
  - unfold handleSearchContent. rewrite Hargs.
    destruct (args !! "cql") as [[| | | s | |] |]; try reflexivity. simpl.
    destruct (String.eqb s ""); [reflexivity |]. simpl.
    rewrite bind_result. reflexivity.
  - unfold handleCreateContent. rewrite Hargs.
    destruct (args !! "title") as [[| | | title | |] |]; try reflexivity. simpl.
    destruct (String.eqb title ""); [reflexivity |]. simpl.
    destruct (args !! "spaceKey") as [[| | | spaceKey | |] |];
      try reflexivity. simpl.
    destruct (String.eqb spaceKey ""); [reflexivity |]. simpl.
    destruct (args !! "content") as [[| | | contentStr | |] |];
      try reflexivity. simpl.
    destruct (String.eqb contentStr ""); [reflexivity |]. simpl.
    destruct (assert_string (args !! "type")) as [typeStr ok].
    rewrite bind_result. reflexivity.
  - unfold handleListSpaces. rewrite Hargs. rewrite bind_result. reflexivity.
Qed.

End Outcomes.

Section Runs.

Context `{Platform}.

Implicit Types (st : NetState) (req : CallToolRequest) (args : gmap string any).

Lemma doRequest_of_run rq st :
  doRequest_of rq st = (doRequest_result (answer st rq), after st rq).
Proof. unfold doRequest_of. rewrite doRequest_run. destruct rq. reflexivity. Qed.

Lemma getJSON_of_run path query st :
  getJSON path query st
  = (getJSON_result (answer st (getRequest path query)), after st (getRequest path query)).
Proof. rewrite getJSON_run. reflexivity. Qed.

(** Arguments that are neither nil nor an object stop every handler. *)
Lemma handler_bad_arguments tool req e st :
  getArguments req = Err e -> handler tool req st = (NewToolResultError e, st).
Proof.
  intros Hargs.
  destruct tool; simpl;
    unfold handleGetContent, handleSearchContent, handleCreateContent,
      handleUpdateContent, handleListSpaces;
    rewrite Hargs; reflexivity.
Qed.

Lemma accepts_update args :
  accepts confluence_update_content args = true ->
  exists contentID,
    args !! "contentId" = Some (AnyString contentID)
    /\ contentID <> EmptyString /\ traversal contentID = false.
Proof.
  simpl. destruct (args !! "contentId") as [[| | | s | |] |]; try discriminate. simpl.
  intros Hs. apply andb_prop in Hs as [Hne Htrav]. exists s. repeat split.
  - intros ->. discriminate Hne.
  - destruct (traversal s); [discriminate Htrav | reflexivity].
Qed.

(** Rejected arguments: an error result, nothing sent. *)
Lemma handler_rejected tool req args st :
  getArguments req = Ok args -> accepts tool args = false ->
  IsError (fst (handler tool req st)) = true /\ snd (handler tool req st) = st.
Proof.
  intros Hargs. destruct tool; simpl handler; simpl accepts.
  - unfold handleGetContent. rewrite Hargs.
    destruct (args !! "contentId") as [[| | | s | |] |]; simpl; auto.
    destruct (String.eqb s ""); simpl; auto.
    destruct (traversal s); simpl; auto. discriminate.
  - unfold handleSearchContent. rewrite Hargs.
    destruct (args !! "cql") as [[| | | s | |] |]; simpl; auto.
    destruct (String.eqb s ""); simpl; auto. discriminate.
  - unfold handleCreateContent. rewrite Hargs.
    destruct (args !! "title") as [[| | | title | |] |]; simpl; auto.
    destruct (String.eqb title ""); simpl; auto.
    destruct (args !! "spaceKey") as [[| | | spaceKey | |] |]; simpl; auto.
    destruct (String.eqb spaceKey ""); simpl; auto.
    destruct (args !! "content") as [[| | | contentStr | |] |]; simpl; auto.
    destruct (String.eqb contentStr ""); simpl; auto. discriminate.
  - unfold handleUpdateContent. rewrite Hargs.
    destruct (args !! "contentId") as [[| | | s | |] |]; simpl; auto.
    destruct (String.eqb s ""); simpl; auto.
    destruct (traversal s); simpl; auto. discriminate.
  - discriminate.
Qed.

(** Accepted arguments, any tool but the update: one exchange. *)
Lemma handler_accepted tool req args st :
  tool <> confluence_update_content ->
  getArguments req = Ok args -> accepts tool args = true ->
  handler tool req st
  = (conclude (errorContext tool) (doRequest_result (answer st (firstRequest tool args))),
     after st (firstRequest tool args)).
Proof.
  intros Htool Hargs Hacc.
  rewrite (simple_tool_outcome _ _ _ _ Htool Hargs), Hacc, doRequest_of_run. reflexivity.
Qed.

(** Accepted arguments, the update: the GET, then the PUT if the item
    was fetched and its new version is known. *)
Lemma update_accepted req args st :
  getArguments req = Ok args -> accepts confluence_update_content args = true ->
  let rq1 := firstRequest confluence_update_content args in
  let st1 := after st rq1 in
  handleUpdateContent req st
  = match getJSON_result (answer st rq1) with
    | Err e =>
        (NewToolResultError ("failed to retrieve current content: " +:+ e), st1)
    | Ok current =>
        match newVersion args current with
        | None =>
            (NewToolResultError "could not determine current version from API response",
             st1)
        | Some version =>
            let rq2 := secondRequest args current version in
            (conclude "error updating content: " (doRequest_result (answer st1 rq2)),
             after st1 rq2)
        end
    end.
Proof.
  intros Hargs Hacc rq1 st1.
  destruct (accepts_update _ Hacc) as (contentID & Hid & Hne & Htrav).
  rewrite (handleUpdateContent_valid req args contentID st)
    by (repeat split; assumption).
  subst st1 rq1. unfold firstRequest, secondRequest, toolPath. rewrite Hid. simpl fst.
  rewrite getJSON_of_run.
  destruct (getJSON_result _) as [current | e]; [| reflexivity].
  destruct (newVersion args current) as [version |]; [| reflexivity].
  rewrite doRequest_run. reflexivity.
Qed.

End Runs.

(* ===================================================================== *)
(** * Arguments and validation *)
(* ===================================================================== *)

Section Validation.

Context `{Platform}.

Implicit Types (st : NetState) (req : CallToolRequest) (args : gmap string any).

(** A handler sees its request through [getArguments] only. *)
Lemma handler_via_getArguments tool req1 req2 st :
  getArguments req1 = getArguments req2 -> handler tool req1 st = handler tool req2 st.
Proof.
  intros Hsame.
  destruct tool; simpl;
    unfold handleGetContent, handleSearchContent, handleCreateContent,
      handleUpdateContent, handleListSpaces;
    rewrite Hsame; reflexivity.
Qed.

(** X1. Whatever the tool, arguments that are neither absent nor a JSON
    object are answered with the error result [arguments are not a JSON
    object] and nothing is sent; absent arguments are handled like the
    empty object. *)
Theorem arguments_container tool name st :
  (forall x,
     match x with AnyNil | AnyObject _ => False | _ => True end ->
     handler tool {| Params_Name := name; Params_Arguments := x |} st
     = (NewToolResultError "arguments are not a JSON object", st))
  /\ handler tool {| Params_Name := name; Params_Arguments := AnyNil |} st
     = handler tool {| Params_Name := name; Params_Arguments := AnyObject ∅ |} st.
Proof.
  split.
  - intros x Hx. apply handler_bad_arguments.
    unfold getArguments. simpl. destruct x; try reflexivity; destruct Hx.
  - apply handler_via_getArguments. reflexivity.
Qed.

Lemma requiredParams_accepts tool args key :
  In key (requiredParams tool) -> accepts tool args = true -> given args key.
Proof.
  intros Hkey Hacc. apply nonEmptyString_given.
  destruct tool; simpl in Hkey, Hacc;
    repeat match goal with
           | Hor : _ \/ _ |- _ => destruct Hor as [<- | Hor]
           | Hf : False |- _ => destruct Hf
           end;
    repeat match goal with
           | Hand : _ && _ = true |- _ => apply andb_prop in Hand as [? ?]
           end;
    assumption.
Qed.

(** X2. Every parameter that [setupServer] declares required is enforced
    by the handler of the tool: a call whose arguments lack it, or give it
    as something else than a non-empty string, is answered with an error
    result and sends nothing. *)
Theorem required_parameters_enforced tool req args key st :
  getArguments req = Ok args ->
  In key (requiredParams tool) ->
  ~ given args key ->
  IsError (fst (handler tool req st)) = true /\ snd (handler tool req st) = st.
Proof.
  intros Hargs Hkey Hmissing. apply (handler_rejected _ _ _ _ Hargs).
  destruct (accepts tool args) eqn:Hacc; [| reflexivity].
  destruct Hmissing. exact (requiredParams_accepts _ _ _ Hkey Hacc).
Qed.

Lemma given_accepts tool args :
  (forall key, In key (requiredParams tool) -> given args key) ->
  (tool = confluence_get_content \/ tool = confluence_update_content ->
   traversal (fst (assert_string (args !! "contentId"))) = false) ->
  accepts tool args = true.
Proof.
  intros Hgiven Htrav.
  destruct tool; simpl; rewrite ?Htrav by auto;
    repeat (apply andb_true_intro; split); try reflexivity;
    apply nonEmptyString_given, Hgiven; simpl; tauto.
Qed.

Lemma update_or_not (tool : Tool) :
  tool = confluence_update_content \/ tool <> confluence_update_content.
Proof. destruct tool; (left; reflexivity) || (right; discriminate). Qed.

Lemma sent_handler_accepted tool req args st :
  getArguments req = Ok args -> accepts tool args = true ->
  exists rest,
    sent (snd (handler tool req st)) = sent st ++ firstRequest tool args :: rest
    /\ (tool <> confluence_update_content -> rest = []).
Proof.
  intros Hargs Hacc.
  destruct (update_or_not tool) as [-> | Htool].
  - simpl handler. rewrite (update_accepted _ _ _ Hargs Hacc). cbv zeta.
    destruct (getJSON_result _) as [current | e].
    + destruct (newVersion args current) as [version |].
      * eexists. split; [| congruence]. simpl snd.
        rewrite !sent_after, <- app_assoc. reflexivity.
      * exists []. split; [apply sent_after | reflexivity].
    + exists []. split; [apply sent_after | reflexivity].
  - rewrite (handler_accepted _ _ _ _ Htool Hargs Hacc).
    exists []. split; [apply sent_after | reflexivity].
Qed.

(** X3. Nothing but the declared required parameters is required: when
    each of them is a non-empty string and, for the two tools that check
    it (get and update), the [contentId] has no slash and no two
    consecutive dots, the handler sends its request, a GET (a POST for the
    creation) to the path of the tool; only the update goes on to a
    second request. *)
Theorem required_parameters_suffice tool req args st :
  getArguments req = Ok args ->
  (forall key, In key (requiredParams tool) -> given args key) ->
  (tool = confluence_get_content \/ tool = confluence_update_content ->
   traversal (fst (assert_string (args !! "contentId"))) = false) ->
  exists first rest,
    sent (snd (handler tool req st)) = sent st ++ first :: rest
    /\ Method first = toolMethod tool
    /\ RelPath first = toolPath tool args
    /\ (tool <> confluence_update_content -> rest = []).
Proof.
  intros Hargs Hgiven Htrav.
  destruct (sent_handler_accepted tool req args st Hargs (given_accepts _ _ Hgiven Htrav))
    as (rest & Hsent & Hrest).
  exists (firstRequest tool args), rest. split; [exact Hsent |].
  destruct tool; repeat split; assumption.
Qed.

End Validation.

(* ===================================================================== *)
(** * What a run exchanges *)
(* ===================================================================== *)

Section Exchanges.

Context `{Platform}.

Implicit Types (st : NetState) (req : CallToolRequest) (args : gmap string any).

Lemma doRequest_result_Ok a text :
  doRequest_result a = Ok text <->
  exists resp,
    a = Ok resp /\ StatusCode resp < 400 /\ BodyErr resp = None /\ text = BodyData resp.
Proof.
  unfold doRequest_result. split.
  - destruct a as [resp | e]; [| discriminate].
    destruct (BodyErr resp) eqn:Hread; [discriminate |].
    destruct (400 <=? StatusCode resp) eqn:Hcode; [discriminate |].
    intros [= <-]. exists resp. apply Z.leb_gt in Hcode. auto.
  - intros (resp & -> & Hcode & -> & ->). apply Z.leb_gt in Hcode. rewrite Hcode.
    reflexivity.
Qed.

Lemma getJSON_result_Ok a current :
  getJSON_result a = Ok current ->
  exists resp,
    a = Ok resp /\ StatusCode resp < 400
    /\ json_Decode (BodyData resp) (BodyErr resp) = Ok current.
Proof.
  unfold getJSON_result. destruct a as [resp | e]; [| discriminate].
  destruct (400 <=? StatusCode resp) eqn:Hcode; [discriminate |].
  destruct (json_Decode _ _) as [target | e] eqn:Hdecode; [| discriminate].
  intros [= <-]. exists resp. apply Z.leb_gt in Hcode. auto.
Qed.

Lemma conclude_error context r :
  IsError (conclude context r) = match r with Ok _ => false | Err _ => true end.
Proof. destruct r; reflexivity. Qed.

Lemma added_after2 st rq1 rq2 new :
  added st (after (after st rq1) rq2) new ->
  new = [(rq1, answer st rq1); (rq2, answer (after st rq1) rq2)].
Proof.
  unfold added. simpl. rewrite <- app_assoc. intros Hnew.
  apply app_inv_head in Hnew. symmetry. exact Hnew.
Qed.

Lemma added_after_intro st rq : added st (after st rq) [(rq, answer st rq)].
Proof. reflexivity. Qed.

Lemma added_after2_intro st rq1 rq2 :
  added st (after (after st rq1) rq2)
    [(rq1, answer st rq1); (rq2, answer (after st rq1) rq2)].
Proof. unfold added. simpl. rewrite <- app_assoc. reflexivity. Qed.

Lemma added_same st new : added st st new -> new = [].
Proof.
  unfold added. intros Hnew. rewrite <- (app_nil_r (exchanges st)) in Hnew at 1.
  apply app_inv_head in Hnew. symmetry. exact Hnew.
Qed.

(** The three ways a run can go. *)
Lemma handler_cases tool req st :
  (IsError (fst (handler tool req st)) = true /\ snd (handler tool req st) = st)
  \/ (exists args,
        getArguments req = Ok args /\ accepts tool args = true
        /\ tool <> confluence_update_content
        /\ handler tool req st
           = (conclude (errorContext tool)
                (doRequest_result (answer st (firstRequest tool args))),
              after st (firstRequest tool args)))
  \/ (exists args,
        getArguments req = Ok args /\ accepts tool args = true
        /\ tool = confluence_update_content).
Proof.
  destruct (getArguments req) as [args | e] eqn:Hargs.
  - destruct (accepts tool args) eqn:Hacc.
    + destruct (update_or_not tool) as [Htool | Htool].
      * right. right. eauto.
      * right. left. exists args. repeat split; try assumption.
        apply handler_accepted; assumption.
    + left. apply (handler_rejected _ _ _ _ Hargs Hacc).
  - left. rewrite (handler_bad_arguments _ _ _ _ Hargs). auto.
Qed.

(** X4. A tool other than the update exchanges at most one request per
    call. It sends nothing, and answers with an error, when the arguments
    are not an object or do not pass its checks. Otherwise it sends exactly
    one request, to the path of the tool: a GET without a body for the
    three reading tools, a POST with a payload and without query for the
    creation; and its result is what [doRequest] makes of the answer to
    that request, an error being put after the phrase of the tool. *)
Theorem one_request tool req st :
  tool <> confluence_update_content ->
  (forall e,
     getArguments req = Err e ->
     IsError (fst (handler tool req st)) = true
     /\ added st (snd (handler tool req st)) [])
  /\ (forall args,
        getArguments req = Ok args -> accepts tool args = false ->
        IsError (fst (handler tool req st)) = true
        /\ added st (snd (handler tool req st)) [])
  /\ (forall args,
        getArguments req = Ok args -> accepts tool args = true ->
        exists rq,
          added st (snd (handler tool req st)) [(rq, answer st rq)]
          /\ Method rq = toolMethod tool
          /\ RelPath rq = toolPath tool args
          /\ (Payload rq = None <-> tool <> confluence_create_content)
          /\ (tool = confluence_create_content -> Query rq = ∅)
          /\ fst (handler tool req st)
             = conclude (errorContext tool) (doRequest_result (answer st rq))).
Proof.
  intros Htool.
  assert (Hnone : added st st []).
  { unfold added. rewrite app_nil_r. reflexivity. }
  split; [| split].
  - intros e He. rewrite (handler_bad_arguments _ _ _ _ He). split; [reflexivity | exact Hnone].
  - intros args Hargs Hacc.
    destruct (handler_rejected tool req args st Hargs Hacc) as [Herr Hst].
    rewrite Hst. split; [exact Herr | exact Hnone].
  - intros args Hargs Hacc. rewrite (handler_accepted _ _ _ st Htool Hargs Hacc).
    exists (firstRequest tool args). split; [apply added_after_intro |].
    destruct tool; try congruence; simpl; repeat split; try congruence; try discriminate.
Qed.

(** X5. An update exchanges nothing, or the GET alone and then answers an
    error, or the GET and the PUT. The PUT is only sent after the GET was
    answered with a status below 400 and a body that decodes; it goes to
    the path of the GET, without query, and carries the type and the space
    of the item that was fetched. *)
Theorem update_protocol req st new :
  added st (snd (handleUpdateContent req st)) new ->
  (new = [] /\ IsError (fst (handleUpdateContent req st)) = true)
  \/ (exists rq a,
        new = [(rq, a)] /\ Method rq = "GET" /\ Payload rq = None
        /\ IsError (fst (handleUpdateContent req st)) = true)
  \/ (exists rq1 resp rq2 a2 current payload,
        new = [(rq1, Ok resp); (rq2, a2)]
        /\ Method rq1 = "GET" /\ Payload rq1 = None
        /\ StatusCode resp < 400
        /\ json_Decode (BodyData resp) (BodyErr resp) = Ok current
        /\ Method rq2 = "PUT" /\ RelPath rq2 = RelPath rq1 /\ Query rq2 = ∅
        /\ Payload rq2 = Some payload
        /\ PageType payload = PageType current /\ Space payload = Space current).
Proof.
  intros Hnew.
  destruct (handler_cases confluence_update_content req st)
    as [[Herr Hst] | [(args & _ & _ & Htool & _) | (args & Hargs & Hacc & _)]];
    [| congruence |]; simpl handler in *.
  - left. rewrite Hst in Hnew. split; [exact (added_same _ _ Hnew) | exact Herr].
  - right. rewrite (update_accepted _ _ _ Hargs Hacc) in *. cbv zeta in *.
    set (rq1 := firstRequest confluence_update_content args) in *.
    destruct (getJSON_result (answer st rq1)) as [current | e] eqn:Hget.
    + destruct (newVersion args current) as [version |].
      * right. simpl in Hnew. apply added_after2 in Hnew.
        destruct (getJSON_result_Ok _ _ Hget) as (resp & Hanswer & Hcode & Hdecode).
        rewrite Hanswer in Hnew.
        exists rq1, resp, (secondRequest args current version). eexists _, current, _.
        split; [exact Hnew |]. repeat split; assumption.
      * left. simpl in Hnew. apply added_after in Hnew.
        exists rq1, (answer st rq1). auto.
    + left. simpl in Hnew. apply added_after in Hnew.
      exists rq1, (answer st rq1). auto.
Qed.

End Exchanges.

(* ===================================================================== *)
(** * How responses become results *)
(* ===================================================================== *)

Section Results.

Context `{Platform}.

Implicit Types (st : NetState) (req : CallToolRequest) (args : gmap string any).

Lemma conclude_success context a (res : CallToolResult) :
  res = conclude context (doRequest_result a) ->
  IsError res = false ->
  exists resp,
    a = Ok resp /\ StatusCode resp < 400 /\ BodyErr resp = None
    /\ res = NewToolResultText (BodyData resp).
Proof.
  intros -> Hok. destruct (doRequest_result a) as [text | e] eqn:Hres; [| discriminate Hok].
  apply doRequest_result_Ok in Hres as (resp & -> & Hcode & Hread & ->). eauto.
Qed.

(** X6. A result that is not an error is the body of a response, byte for
    byte: the one to the last request of the run, which had a status below
    400 and a body that was read to its end. *)
Theorem success_is_response_body tool req st :
  IsError (fst (handler tool req st)) = false ->
  exists earlier rq resp,
    added st (snd (handler tool req st)) (earlier ++ [(rq, Ok resp)])
    /\ StatusCode resp < 400 /\ BodyErr resp = None
    /\ fst (handler tool req st) = NewToolResultText (BodyData resp).
Proof.
  intros Hok.
  destruct (handler_cases tool req st)
    as [[Herr _] | [(args & _ & _ & _ & Hout) | (args & Hargs & Hacc & ->)]].
  - rewrite Herr in Hok. discriminate Hok.
  - rewrite Hout in *. simpl in Hok.
    destruct (conclude_success _ _ _ eq_refl Hok) as (resp & Hanswer & Hcode & Hread & Hres).
    exists [], (firstRequest tool args), resp. simpl fst. simpl snd.
    repeat split; try assumption. rewrite <- Hanswer. apply added_after_intro.
  - simpl handler in *. rewrite (update_accepted _ _ _ Hargs Hacc) in *. cbv zeta in *.
    set (rq1 := firstRequest confluence_update_content args) in *.
    destruct (getJSON_result (answer st rq1)) as [current | e]; [| discriminate Hok].
    destruct (newVersion args current) as [version |]; [| discriminate Hok].
    simpl in Hok.
    destruct (conclude_success _ _ _ eq_refl Hok) as (resp & Hanswer & Hcode & Hread & Hres).
    exists [(rq1, answer st rq1)], (secondRequest args current version), resp.
    simpl fst. simpl snd. repeat split; try assumption.
    rewrite <- Hanswer. apply added_after2_intro.
Qed.

(** X7. Conversely, when the last request of a run (for the update: its
    PUT) is answered with a status below 400 and the body is read to its
    end, the result is that body as a text result, unchanged; statuses
    from 100 to 399 all count as success. *)
Theorem response_passes_through tool req st earlier rq resp :
  added st (snd (handler tool req st)) (earlier ++ [(rq, Ok resp)]) ->
  StatusCode resp < 400 -> BodyErr resp = None ->
  (tool = confluence_update_content -> Method rq = "PUT") ->
  fst (handler tool req st) = NewToolResultText (BodyData resp).
Proof.
  intros Hnew Hcode Hread Hput.
  assert (Hgood : forall context,
             conclude context (doRequest_result (Ok resp)) = NewToolResultText (BodyData resp)).
  { intros context. unfold conclude.
    rewrite (proj2 (doRequest_result_Ok (Ok resp) (BodyData resp))); eauto. }
  destruct (handler_cases tool req st)
    as [[_ Hst] | [(args & _ & _ & _ & Hout) | (args & Hargs & Hacc & ->)]].
  - rewrite Hst in Hnew. apply added_same in Hnew. destruct earlier; discriminate Hnew.
  - rewrite Hout in *. simpl in Hnew |- *. apply added_after in Hnew.
    destruct earlier as [| x [| y earlier]]; try discriminate Hnew.
    injection Hnew as _ Hanswer. rewrite <- Hanswer. apply Hgood.
  - specialize (Hput eq_refl). simpl handler in *.
    rewrite (update_accepted _ _ _ Hargs Hacc) in *. cbv zeta in *.
    set (rq1 := firstRequest confluence_update_content args) in *.
    destruct (getJSON_result (answer st rq1)) as [current | e].
    + destruct (newVersion args current) as [version |].
      * simpl in Hnew |- *. apply added_after2 in Hnew.
        destruct earlier as [| x [| y [| z earlier]]]; try discriminate Hnew.
        injection Hnew as _ _ Hanswer. rewrite <- Hanswer. apply Hgood.
      * simpl in Hnew. apply added_after in Hnew.
        destruct earlier as [| x [| y earlier]]; try discriminate Hnew.
        injection Hnew as Hrq _. rewrite Hrq in Hput. discriminate Hput.
    + simpl in Hnew. apply added_after in Hnew.
      destruct earlier as [| x [| y earlier]]; try discriminate Hnew.
      injection Hnew as Hrq _. rewrite Hrq in Hput. discriminate Hput.
Qed.

(** X8. A request that fails in [executeRequest] (no connection, time
    out, ...) ends the run: it is the last exchange, and the result is an
    error whose text ends with the message of that failure, after the
    phrase of the operation. *)
Theorem transport_failure_surfaces tool req st new rq e :
  added st (snd (handler tool req st)) new ->
  In (rq, Err e) new ->
  last new = Some (rq, Err e)
  /\ IsError (fst (handler tool req st)) = true
  /\ exists context, Text (fst (handler tool req st)) = context +:+ e.
Proof.
  intros Hnew Hin.
  destruct (handler_cases tool req st)
    as [[_ Hst] | [(args & _ & _ & _ & Hout) | (args & Hargs & Hacc & ->)]].
  - rewrite Hst in Hnew. apply added_same in Hnew. subst new. destruct Hin.
  - rewrite Hout in *. simpl in Hnew |- *. apply added_after in Hnew. subst new.
    destruct Hin as [Heq | []]. injection Heq as Hrq Hanswer.
    rewrite Hanswer, Hrq. simpl. split; [reflexivity |]. split; [reflexivity | eauto].
  - simpl handler in *. rewrite (update_accepted _ _ _ Hargs Hacc) in *. cbv zeta in *.
    set (rq1 := firstRequest confluence_update_content args) in *.
    destruct (getJSON_result (answer st rq1)) as [current | e1] eqn:Hget.
    + destruct (getJSON_result_Ok _ _ Hget) as (resp & Hanswer & _ & _).
      destruct (newVersion args current) as [version |].
      * simpl in Hnew |- *. apply added_after2 in Hnew. subst new.
        destruct Hin as [Heq | [Heq | []]].
        -- rewrite Hanswer in Heq. discriminate Heq.
        -- injection Heq as Hrq Hanswer2. rewrite Hanswer2, Hrq. simpl.
           split; [reflexivity |]. split; [reflexivity | eauto].
      * simpl in Hnew. apply added_after in Hnew. subst new.
        destruct Hin as [Heq | []]. rewrite Hanswer in Heq. discriminate Heq.
    + simpl in Hnew |- *. apply added_after in Hnew. subst new.
      destruct Hin as [Heq | []]. injection Heq as Hrq Hanswer.
      unfold getJSON_result in Hget. rewrite Hanswer in Hget. injection Hget as <-.
      rewrite Hanswer, Hrq. simpl. split; [reflexivity |]. split; [reflexivity | eauto].
Qed.

(** X9. A response whose body breaks off while [doRequest] reads it is
    reported as a read failure, whatever its status, even 200: the result
    is the error [failed to read response body] with the cause, after the
    phrase of the operation. That holds for the only request of get,
    search, create and list and for the PUT of the update. The GET of the
    update goes through [getJSON], which never reports a read failure:
    with a status of 400 or more the result is the API error with the
    first 1024 bytes of what was read, and below 400 an error of the
    decoder is reported as a decoding failure. *)
Theorem truncated_body_surfaces tool req st new rq resp e :
  added st (snd (handler tool req st)) new ->
  In (rq, Ok resp) new ->
  BodyErr resp = Some e ->
  ((tool = confluence_update_content -> Method rq = "PUT") ->
   fst (handler tool req st)
   = NewToolResultError (errorContext tool +:+ "failed to read response body: " +:+ e))
  /\ (tool = confluence_update_content -> Method rq = "GET" ->
      (400 <= StatusCode resp ->
       fst (handler tool req st)
       = NewToolResultError
           ("failed to retrieve current content: "
            +:+ apiError (StatusCode resp) (slice_to 1024 (BodyData resp))))
      /\ (forall cause,
            StatusCode resp < 400 ->
            json_Decode (BodyData resp) (Some e) = Err cause ->
            fst (handler tool req st)
            = NewToolResultError
                ("failed to retrieve current content: failed to decode JSON: "
                 +:+ cause))).
Proof.
  intros Hnew Hin Hread.
  assert (Hbad : forall context,
             conclude context (doRequest_result (Ok resp))
             = NewToolResultError (context +:+ "failed to read response body: " +:+ e)).
  { intros context. unfold conclude, doRequest_result. rewrite Hread. reflexivity. }
  destruct (handler_cases tool req st)
    as [[_ Hst] | [(args & _ & _ & Htool & Hout) | (args & Hargs & Hacc & ->)]].
  - rewrite Hst in Hnew. apply added_same in Hnew. subst new. destruct Hin.
  - split; [| intros Hupdate; destruct (Htool Hupdate)].
    intros _. rewrite Hout in *. simpl in Hnew |- *. apply added_after in Hnew. subst new.
    destruct Hin as [Heq | []]. injection Heq as _ Hanswer. rewrite Hanswer. apply Hbad.
  - simpl handler in *.
    rewrite (update_accepted _ _ _ Hargs Hacc) in *. cbv zeta in *.
    set (rq1 := firstRequest confluence_update_content args) in *.
    split.
    + intros Hput. specialize (Hput eq_refl).
      assert (Hfirst : (rq1, answer st rq1) <> (rq, Ok resp)).
      { intros Heq. injection Heq as Hrq _. rewrite <- Hrq in Hput. discriminate Hput. }
      destruct (getJSON_result (answer st rq1)) as [current | e1].
      * destruct (newVersion args current) as [version |].
        -- simpl in Hnew |- *. apply added_after2 in Hnew. subst new.
           destruct Hin as [Heq | [Heq | []]]; [destruct (Hfirst Heq) |].
           injection Heq as _ Hanswer. rewrite Hanswer. apply Hbad.
        -- simpl in Hnew. apply added_after in Hnew. subst new.
           destruct Hin as [Heq | []]. destruct (Hfirst Heq).
      * simpl in Hnew. apply added_after in Hnew. subst new.
        destruct Hin as [Heq | []]. destruct (Hfirst Heq).
    + intros _ Hget.
      assert (Hanswer : answer st rq1 = Ok resp).
      { destruct (getJSON_result (answer st rq1)) as [current | e1].
        - destruct (newVersion args current) as [version |].
          + simpl in Hnew. apply added_after2 in Hnew. subst new.
            destruct Hin as [Heq | [Heq | []]]; [congruence |].
            injection Heq as Hrq _. rewrite <- Hrq in Hget. discriminate Hget.
          + simpl in Hnew. apply added_after in Hnew. subst new.
            destruct Hin as [Heq | []]. congruence.
        - simpl in Hnew. apply added_after in Hnew. subst new.
          destruct Hin as [Heq | []]. congruence. }
      rewrite Hanswer. unfold getJSON_result. rewrite Hread. split.
      * intros Hcode. apply Z.leb_le in Hcode. rewrite Hcode. reflexivity.
      * intros cause Hcode Hdecode. apply Z.leb_gt in Hcode. rewrite Hcode, Hdecode.
        reflexivity.
Qed.

End Results.

(* ===================================================================== *)
(** * The expansion list *)
(* ===================================================================== *)

Section Tokens.

Implicit Types s a b current required : string.

Lemma Index_comma_cons c s :
  Index (String c s) "," = if Ascii.eqb c "," then Some O else option_map S (Index s ",").
Proof. rewrite Index_eq. simpl HasPrefix. destruct (Ascii.eqb c ","); reflexivity. Qed.

Lemma tokens_nonempty s : tokens s <> [].
Proof.
  destruct s as [| c s]; simpl; [discriminate |].
  destruct (Ascii.eqb c ","); [discriminate |]. destruct (tokens s); discriminate.
Qed.

Lemma tokens_Index_None s : Index s "," = None -> tokens s = [s].
Proof.
  induction s as [| c s IH]; [reflexivity |].
  rewrite Index_comma_cons. simpl tokens. destruct (Ascii.eqb c ","); [discriminate |].
  destruct (Index s ","); [discriminate |]. intros _. rewrite IH; reflexivity.
Qed.

Lemma tokens_Index_Some s m :
  Index s "," = Some m -> tokens s = slice_to m s :: tokens (slice_from (m + 1) s).
Proof.
  revert m. induction s as [| c s IH]; intros m.
  - intros Hi. discriminate Hi.
  - rewrite Index_comma_cons. simpl tokens. destruct (Ascii.eqb c ","); intros Hi.
    + injection Hi as <-. reflexivity.
    + destruct (Index s ",") as [i |] eqn:Hs; [| discriminate Hi].
      injection Hi as <-. rewrite (IH i eq_refl). reflexivity.
Qed.

Lemma Split_fuel_tokens fuel s :
  (String.length s <= fuel)%nat -> Split_fuel fuel s "," = tokens s.
Proof.
  revert s. induction fuel as [| fuel IH]; intros s Hlen.
  - destruct s; [reflexivity | simpl in Hlen; lia].
  - simpl. destruct (Index s ",") as [m |] eqn:Hm.
    + rewrite (tokens_Index_Some _ _ Hm). f_equal. apply IH.
      rewrite length_slice_from.
      pose proof (Index_Some _ _ _ Hm) as Hs. apply (f_equal String.length) in Hs.
      rewrite !str_length_app in Hs. simpl in Hs. simpl. lia.
    + symmetry. apply tokens_Index_None, Hm.
Qed.

(** [strings.Split] at the commas gives the pieces between them. *)
Lemma Split_tokens s : Split s "," = tokens s.
Proof. apply Split_fuel_tokens. lia. Qed.

Lemma tokens_app a b : tokens (a +:+ "," +:+ b) = tokens a ++ tokens b.
Proof.
  induction a as [| c a IH]; [reflexivity |].
  rewrite str_app_cons. simpl tokens. rewrite IH.
  destruct (Ascii.eqb c ","); [reflexivity |].
  pose proof (tokens_nonempty a). destruct (tokens a); [congruence | reflexivity].
Qed.

Lemma tokens_no_comma b : Contains b "," = false -> tokens b = [b].
Proof.
  unfold Contains. intros Hb. apply tokens_Index_None.
  destruct (Index b ","); [discriminate Hb | reflexivity].
Qed.

Lemma ensureExpand_has_required current required :
  Contains required "," = false ->
  TrimSpace required = required ->
  has_token (ensureExpand current required) required.
Proof.
  intros Hcomma Htrim.
  unfold ensureExpand. destruct (String.eqb_spec current EmptyString) as [-> | Hne].
  - exists required. rewrite Split_tokens, (tokens_no_comma _ Hcomma).
    split; [left; reflexivity | exact Htrim].
  - destruct (existsb _ _) eqn:Hex.
    + apply existsb_exists in Hex as (p & Hin & Heq).
      exists p. split; [exact Hin | apply String.eqb_eq, Heq].
    + exists required. rewrite Split_tokens, tokens_app, (tokens_no_comma _ Hcomma).
      split; [apply in_or_app; right; left; reflexivity | exact Htrim].
Qed.

(** X10. For a property written without comma and without white space
    around it, such as [body.storage]: the result of [ensureExpand] lists
    the property, and applying [ensureExpand] again changes nothing. The
    entries of the result are the property alone when the input is empty,
    those of the input when it lists the property already (the result is
    the input itself), and those of the input, in their order, followed by
    the property otherwise. *)
Theorem ensureExpand_lists_required current required :
  Contains required "," = false ->
  TrimSpace required = required ->
  has_token (ensureExpand current required) required
  /\ ensureExpand (ensureExpand current required) required = ensureExpand current required
  /\ (current = EmptyString -> Split (ensureExpand current required) "," = [required])
  /\ (has_token current required ->
      ensureExpand current required = current
      /\ Split (ensureExpand current required) "," = Split current ",")
  /\ (current <> EmptyString -> ~ has_token current required ->
      ensureExpand current required = current +:+ "," +:+ required
      /\ Split (ensureExpand current required) "," = Split current "," ++ [required]).
Proof.
  intros Hcomma Htrim.
  pose proof (ensureExpand_has_required current required Hcomma Htrim) as Hhas.
  split; [exact Hhas |]. split; [apply ensureExpand_found, Hhas |].
  split; [| split].
  - intros ->. unfold ensureExpand. simpl String.eqb. cbv iota.
    rewrite Split_tokens. apply tokens_no_comma, Hcomma.
  - intros Hfound. rewrite (ensureExpand_found _ _ Hfound). split; reflexivity.
  - intros Hne Hno. rewrite (ensureExpand_absent _ _ Hne Hno).
    split; [reflexivity |].
    rewrite !Split_tokens, tokens_app, (tokens_no_comma _ Hcomma). reflexivity.
Qed.

End Tokens.

Lemma ensureExpand_lists_required_witness :
  has_token (ensureExpand "version, space" "body.storage") "body.storage"
  /\ Split (ensureExpand "version, space" "body.storage") ","
     = ["version"; " space"; "body.storage"].
Proof.
  destruct (ensureExpand_lists_required "version, space" "body.storage" eq_refl eq_refl)
    as (Hhas & _ & _ & _ & Happend).
  split; [exact Hhas |].
  destruct Happend as [_ Hsplit]; [discriminate | | rewrite Hsplit; reflexivity].
  intros (p & Hin & Hp). vm_compute in Hin.
  destruct Hin as [<- | [<- | []]]; vm_compute in Hp; discriminate Hp.
Defined.

(* ===================================================================== *)
(** * The requests of the reading and creating tools *)
(* ===================================================================== *)

Section ToolRequests.

Context `{Platform}.

Implicit Types (st : NetState) (req : CallToolRequest) (args : gmap string any).

Lemma sent_accepted tool req args st :
  tool <> confluence_update_content ->
  getArguments req = Ok args -> accepts tool args = true ->
  sent (snd (handler tool req st)) = sent st ++ [firstRequest tool args].
Proof.
  intros Htool Hargs Hacc. rewrite (handler_accepted _ _ _ _ Htool Hargs Hacc).
  apply sent_after.
Qed.

Lemma Values_Get_Set (query : Values) key value :
  Values_Get (Values_Set query key value) key = value.
Proof. unfold Values_Get, Values_Set. rewrite lookup_insert_eq. reflexivity. Qed.

Lemma newQueryWithCommonArgs_expand args :
  Values_Get (newQueryWithCommonArgs args) "expand" = expandOf args.
Proof.
  unfold newQueryWithCommonArgs, expandOf, Values_Get, Values_Set.
  destruct (assert_float64 (args !! "limit")), (assert_float64 (args !! "start")),
    (args !! "expand") as [[| | | expand | |] |]; cbv [assert_string];
    try destruct (String.eqb_spec expand EmptyString) as [-> | Hne];
    cbv [negb fst];
    rewrite ?lookup_insert_eq, ?lookup_insert_ne, ?lookup_empty by discriminate;
    reflexivity.
Qed.

Lemma accepts_contentId tool args :
  tool = confluence_get_content \/ tool = confluence_update_content ->
  accepts tool args = true ->
  exists contentID,
    args !! "contentId" = Some (AnyString contentID)
    /\ contentID <> EmptyString
    /\ ~ occurs_in "/" contentID /\ ~ occurs_in ".." contentID
    /\ toolPath tool args = "/content/" +:+ contentID.
Proof.
  intros Htool Hacc.
  assert (Hupdate : accepts confluence_update_content args = true)
    by (destruct Htool as [-> | ->]; exact Hacc).
  destruct (accepts_update _ Hupdate) as (contentID & Hid & Hne & Htrav).
  exists contentID. split; [exact Hid |]. split; [exact Hne |].
  unfold traversal in Htrav. apply orb_false_elim in Htrav as [Hslash Hdots].
  repeat split.
  - intros Hocc. apply Contains_true_iff in Hocc. congruence.
  - intros Hocc. apply Contains_true_iff in Hocc. congruence.
  - destruct Htool as [-> | ->]; simpl; rewrite Hid; reflexivity.
Qed.

(** X11. An accepted get-content call sends exactly one request: a GET to
    [/content/] followed by the identifier, which has no slash and no two
    consecutive dots. Its [expand] parameter always lists [body.storage]:
    it is the [expand] argument itself when that lists it already, the
    argument followed by [,body.storage] when it does not, and
    [body.storage] alone without a (non-empty, string) argument. *)
Theorem get_content_request req args st :
  getArguments req = Ok args ->
  accepts confluence_get_content args = true ->
  exists contentID query,
    sent (snd (handleGetContent req st))
    = sent st ++ [getRequest ("/content/" +:+ contentID) query]
    /\ args !! "contentId" = Some (AnyString contentID)
    /\ ~ occurs_in "/" contentID /\ ~ occurs_in ".." contentID
    /\ has_token (Values_Get query "expand") "body.storage"
    /\ (has_token (expandOf args) "body.storage" ->
        Values_Get query "expand" = expandOf args)
    /\ (expandOf args <> EmptyString -> ~ has_token (expandOf args) "body.storage" ->
        Values_Get query "expand" = expandOf args +:+ ",body.storage")
    /\ (expandOf args = EmptyString -> Values_Get query "expand" = "body.storage").
Proof.
  intros Hargs Hacc.
  destruct (accepts_contentId confluence_get_content args (or_introl eq_refl) Hacc)
    as (contentID & Hid & _ & Hslash & Hdots & Hpath).
  pose proof (sent_accepted confluence_get_content req args st
                ltac:(discriminate) Hargs Hacc) as Hsent.
  simpl handler in Hsent. unfold firstRequest in Hsent. rewrite Hpath in Hsent.
  eexists contentID, _. split; [exact Hsent |].
  split; [exact Hid |]. split; [exact Hslash |]. split; [exact Hdots |].
  rewrite Values_Get_Set, newQueryWithCommonArgs_expand.
  split; [apply ensureExpand_has_required; reflexivity |].
  split; [apply ensureExpand_found |]. split.
  - apply ensureExpand_absent.
  - intros ->. reflexivity.
Qed.

(** X12. An accepted search-content call sends exactly one GET to
    [/search] whose [cql] parameter is the [cql] argument, byte for byte
    (it is neither escaped nor trimmed); its other parameters are those of
    [newQueryWithCommonArgs]. *)
Theorem search_content_request req args st :
  getArguments req = Ok args ->
  accepts confluence_search_content args = true ->
  exists cql query,
    sent (snd (handleSearchContent req st)) = sent st ++ [getRequest "/search" query]
    /\ args !! "cql" = Some (AnyString cql)
    /\ query !! "cql" = Some [cql]
    /\ forall key, key <> "cql" -> query !! key = newQueryWithCommonArgs args !! key.
Proof.
  intros Hargs Hacc.
  pose proof (sent_accepted confluence_search_content req args st
                ltac:(discriminate) Hargs Hacc) as Hsent.
  simpl handler in Hsent. unfold firstRequest in Hsent.
  simpl in Hacc. apply nonEmptyString_given in Hacc as (cql & Hcql & _).
  rewrite Hcql in Hsent. simpl fst in Hsent.
  eexists cql, _. split; [exact Hsent |]. split; [exact Hcql |].
  unfold Values_Set. split; [apply lookup_insert_eq |].
  intros key Hkey. apply lookup_insert_ne. congruence.
Qed.

(** X13. An accepted create-content call sends exactly one POST to
    [/content], without query, whose payload has the title, the space key
    and the content of the arguments, the content as storage format; its
    type is the [type] argument when that is a non-empty string (any such
    string) and [page] otherwise; it has one ancestor, the [parentId], when
    that is a non-empty string and no ancestor otherwise; it has no
    identifier and no version. *)
Theorem create_content_request req args st :
  getArguments req = Ok args ->
  accepts confluence_create_content args = true ->
  exists payload,
    sent (snd (handleCreateContent req st))
    = sent st ++ [{| Method := "POST"; RelPath := "/content"; Query := ∅;
                     Payload := Some payload |}]
    /\ args !! "title" = Some (AnyString (Title payload))
    /\ (exists key,
          args !! "spaceKey" = Some (AnyString key) /\ Space payload = Some {| Key := key |})
    /\ (exists content,
          args !! "content" = Some (AnyString content)
          /\ PageBody payload
             = Some {| Storage := Some {| Value := content; Representation := "storage" |} |})
    /\ (forall type, args !! "type" = Some (AnyString type) -> type <> EmptyString ->
        PageType payload = type)
    /\ (~ given args "type" -> PageType payload = "page")
    /\ (forall parent,
          args !! "parentId" = Some (AnyString parent) -> parent <> EmptyString ->
          Ancestors payload = [{| AncestorID := parent |}])
    /\ (~ given args "parentId" -> Ancestors payload = [])
    /\ ID payload = EmptyString /\ PageVersion payload = None.
Proof.
  intros Hargs Hacc.
  pose proof (sent_accepted confluence_create_content req args st
                ltac:(discriminate) Hargs Hacc) as Hsent.
  simpl handler in Hsent. unfold firstRequest in Hsent.
  simpl in Hacc. apply andb_prop in Hacc as [Hacc Hcontent].
  apply andb_prop in Hacc as [Htitle Hspace].
  apply nonEmptyString_given in Htitle as (title & Htitle & _).
  apply nonEmptyString_given in Hspace as (key & Hspace & _).
  apply nonEmptyString_given in Hcontent as (content & Hcontent & _).
  eexists. split; [exact Hsent |].
  unfold createPayloadOf. rewrite Htitle, Hspace, Hcontent.
  destruct (assert_string (args !! "type")) as [typeStr ok] eqn:Htype.
  simpl. repeat split; eauto.
  - intros type Hgiven Hne. rewrite Hgiven in Htype. injection Htype as <- <-.
    apply String.eqb_neq in Hne. rewrite Hne. reflexivity.
  - intros Hnot. destruct ok; [| reflexivity].
    destruct (String.eqb_spec typeStr EmptyString) as [_ | Hne]; [reflexivity |].
    destruct Hnot. unfold given.
    destruct (args !! "type") as [[| | | s | |] |]; try discriminate Htype.
    injection Htype as ->. exists typeStr. split; [reflexivity | exact Hne].
  - intros parent Hgiven Hne. rewrite Hgiven. simpl.
    apply String.eqb_neq in Hne. rewrite Hne. reflexivity.
  - intros Hnot.
    destruct (String.eqb_spec (fst (assert_string (args !! "parentId"))) EmptyString)
      as [_ | Hne]; [reflexivity |].
    destruct Hnot. unfold given.
    destruct (args !! "parentId") as [[| | | s | |] |]; simpl in Hne; try congruence.
    exists s. split; [reflexivity | exact Hne].
Qed.

End ToolRequests.

(* ===================================================================== *)
(** * More on the update *)
(* ===================================================================== *)

Section UpdateMore.

Context `{Platform}.

Implicit Types (st : NetState) (req : CallToolRequest) (args : gmap string any).

Lemma wrap_is_int z : is_int (wrap z).
Proof.
  unfold is_int, wrap, minInt, maxInt.
  pose proof (Z.mod_pos_bound (z + 2 ^ 63) (2 ^ 64) ltac:(lia)). lia.
Qed.

(** [int(f)] is an [int], whatever the platform answers out of range. *)
Lemma int_of_float64_is_int f : is_int (int_of_float64 convOutOfRange f).
Proof.
  unfold int_of_float64. destruct (truncate f) as [z |]; [| apply wrap_is_int].
  destruct (in_int_range z) eqn:Hz; [| apply wrap_is_int].
  unfold in_int_range in Hz. apply andb_prop in Hz as [Hlow Hhigh].
  unfold is_int. lia.
Qed.

(** X14. In an update that reaches its PUT, the payload carries the
    [contentId] as identifier, a non-empty [title] argument as title, a
    non-empty [content] argument as body in storage format, the new
    version with the [versionComment] argument as message (empty without
    one), and no ancestors. *)
Theorem update_payload_fields req args contentID st currentData st1 version :
  validContentCall req args contentID ->
  getJSON ("/content/" +:+ contentID) (updateQuery args) st = (Ok currentData, st1) ->
  newVersion args currentData = Some version ->
  exists payload,
    sent (snd (handleUpdateContent req st))
    = sent st1 ++ [putRequest ("/content/" +:+ contentID) payload]
    /\ ID payload = contentID
    /\ (forall title, args !! "title" = Some (AnyString title) -> title <> EmptyString ->
        Title payload = title)
    /\ (forall content,
          args !! "content" = Some (AnyString content) -> content <> EmptyString ->
          PageBody payload
          = Some {| Storage := Some {| Value := content; Representation := "storage" |} |})
    /\ PageVersion payload
       = Some {| Number := version;
                 Message := fst (assert_string (args !! "versionComment")) |}
    /\ Ancestors payload = [].
Proof.
  intros Hvalid Hget Hversion. eexists. split.
  - apply (handleUpdateContent_put _ _ _ _ _ _ _ Hvalid Hget Hversion).
  - unfold updatePayload. simpl. repeat split.
    + intros title -> Hne. simpl. apply String.eqb_neq in Hne. rewrite Hne. reflexivity.
    + intros content -> Hne. simpl. apply String.eqb_neq in Hne. rewrite Hne. reflexivity.
Qed.

(** X15. With a numeric [version] argument an update whose GET succeeds
    always goes on to the PUT, also when the fetched item has no version
    block. The version number a PUT carries, with or without the argument,
    is always within the range of [int]. *)
Theorem put_version_in_range req args contentID st currentData st1 :
  validContentCall req args contentID ->
  getJSON ("/content/" +:+ contentID) (updateQuery args) st = (Ok currentData, st1) ->
  (forall v,
     args !! "version" = Some (AnyFloat64 v) ->
     exists payload,
       sent (snd (handleUpdateContent req st))
       = sent st1 ++ [putRequest ("/content/" +:+ contentID) payload]
       /\ versionNumber payload = Some (int_of_float64 convOutOfRange v))
  /\ (forall path payload,
        sent (snd (handleUpdateContent req st)) = sent st1 ++ [putRequest path payload] ->
        exists n, versionNumber payload = Some n /\ is_int n).
Proof.
  intros Hvalid Hget. split.
  - intros v Hv. eexists. split.
    + apply (handleUpdateContent_put _ _ _ _ _ _ (int_of_float64 convOutOfRange v)
               Hvalid Hget).
      unfold newVersion. rewrite Hv. reflexivity.
    + reflexivity.
  - intros path payload Hsent.
    destruct (newVersion args currentData) as [version |] eqn:Hversion.
    + rewrite (handleUpdateContent_put _ _ _ _ _ _ _ Hvalid Hget Hversion) in Hsent.
      apply app_inv_head in Hsent. injection Hsent as _ <-.
      exists version. split; [reflexivity |].
      unfold newVersion in Hversion.
      destruct (assert_float64 (args !! "version")) as [v |].
      * injection Hversion as <-. apply int_of_float64_is_int.
      * destruct (PageVersion currentData); [| discriminate Hversion].
        injection Hversion as <-. apply wrap_is_int.
    + rewrite (handleUpdateContent_no_version _ _ _ _ _ _ Hvalid Hget Hversion) in Hsent.
      simpl in Hsent. rewrite <- (app_nil_r (sent st1)) in Hsent at 1.
      apply app_inv_head in Hsent. discriminate Hsent.
Qed.

End UpdateMore.

(* ===================================================================== *)
(** * What the handlers read *)
(* ===================================================================== *)

Section Frame.

Context `{Platform}.

Implicit Types (st : NetState) (args a b : gmap string any).

Lemma newQueryWithCommonArgs_ext a b :
  a !! "limit" = b !! "limit" -> a !! "start" = b !! "start" ->
  a !! "expand" = b !! "expand" ->
  newQueryWithCommonArgs a = newQueryWithCommonArgs b.
Proof. unfold newQueryWithCommonArgs. intros -> -> ->. reflexivity. Qed.

(** X16. The result of a handler and what it sends depend on the arguments
    it reads only: two argument objects that agree on those keys are
    handled alike. In particular an argument under any other key is
    ignored, not rejected. *)
Theorem unread_arguments_ignored tool name a b st :
  (forall key, In key (argumentsRead tool) -> a !! key = b !! key) ->
  handler tool {| Params_Name := name; Params_Arguments := AnyObject a |} st
  = handler tool {| Params_Name := name; Params_Arguments := AnyObject b |} st.
Proof.
  intros Hsame.
  assert (Hquery : In "limit" (argumentsRead tool) -> In "start" (argumentsRead tool) ->
                   In "expand" (argumentsRead tool) ->
                   newQueryWithCommonArgs a = newQueryWithCommonArgs b).
  { intros. apply newQueryWithCommonArgs_ext; apply Hsame; assumption. }
  destruct tool; simpl handler.
  - unfold handleGetContent, getArguments. simpl.
    rewrite (Hsame "contentId"), Hquery by (simpl; tauto). reflexivity.
  - unfold handleSearchContent, getArguments. simpl.
    rewrite (Hsame "cql"), Hquery by (simpl; tauto). reflexivity.
  - unfold handleCreateContent, getArguments. simpl.
    rewrite (Hsame "title"), (Hsame "spaceKey"), (Hsame "content"), (Hsame "type"),
      (Hsame "parentId") by (simpl; tauto).
    reflexivity.
  - apply handleUpdateContent_ext.
    + intros key Hkey. apply Hsame. simpl in *. tauto.
    + rewrite (Hsame "title") by (simpl; tauto). reflexivity.
    + rewrite (Hsame "content") by (simpl; tauto). reflexivity.
  - unfold handleListSpaces, getArguments, spacesCQL. simpl.
    rewrite (Hsame "searchText"), Hquery by (simpl; tauto). reflexivity.
Qed.


End Frame.

(* ===================================================================== *)
(** * Quotes in the search text *)
(* ===================================================================== *)

Lemma quotes_escaped_escapeQuotes s escaped :
  quotes_escaped escaped (escapeQuotes s) = true.
Proof.
  revert escaped. induction s as [| c s IH]; intros escaped; [reflexivity |].
  simpl escapeQuotes. destruct (Ascii.eqb c "034") eqn:Hc.
  - simpl. apply IH.
  - simpl. rewrite Hc. simpl. apply IH.
Qed.

Section SearchText.

Context `{Platform}.

(** X18. The [cql] that [handleListSpaces] sends is [type=space] whenever
    [searchText] is missing, empty or not a string. Otherwise it is the
    title condition around a text in which every double quote comes right
    after a backslash, so that no quote of the search text ends the quoted
    text. *)
Theorem spaces_cql_quoting req args st :
  getArguments req = Ok args ->
  exists rq cql,
    sent (snd (handleListSpaces req st)) = sent st ++ [rq]
    /\ Query rq !! "cql" = Some [cql]
    /\ (nonEmptyString (args !! "searchText") = false -> cql = "type=space")
    /\ (nonEmptyString (args !! "searchText") = true ->
        exists text,
          cql = "type=space AND title ~ " +:+ dquote +:+ text +:+ dquote
          /\ quotes_escaped false text = true).
Proof.
  intros Hargs. eexists _, (spacesCQL args).
  split; [apply (handleListSpaces_sent _ _ _ Hargs) |].
  split; [apply lookup_insert_eq |]. unfold spacesCQL. split.
  - destruct (args !! "searchText") as [[| | | s | |] |]; try reflexivity. simpl.
    destruct (String.eqb s ""); [reflexivity | discriminate].
  - destruct (args !! "searchText") as [[| | | s | |] |]; try discriminate. simpl.
    destruct (String.eqb s ""); [discriminate |]. intros _.
    exists (escapeQuotes s). rewrite ReplaceAll_dquote.
    split; [reflexivity | apply quotes_escaped_escapeQuotes].
Qed.

End SearchText.

(* ===================================================================== *)
(** * More on the configuration *)
(* ===================================================================== *)

Section ResolverMore.

Variable url_Parse : string -> result URL.
Variable url_String : URL -> string.

Implicit Types env : gmap string string.





(** X20. [loadConfig] succeeds exactly when the token is not empty, an
    endpoint is given, the endpoint (with [https://] put before it when it
    has no [://]) parses, and the scheme parsed starts with [http]. The
    configuration then holds the token of the environment, unchanged and
    not empty. *)
Theorem loadConfig_succeeds_iff env :
  ((exists cfg, loadConfig url_Parse url_String env = Ok cfg) <->
   Getenv env "CONFLUENCE_API_TOKEN" <> EmptyString
   /\ rawEndpoint env <> EmptyString
   /\ exists parsed,
        url_Parse (withScheme (rawEndpoint env)) = Ok parsed
        /\ HasPrefix (Scheme parsed) "http" = true)
  /\ (forall cfg,
        loadConfig url_Parse url_String env = Ok cfg ->
        Token cfg = Getenv env "CONFLUENCE_API_TOKEN" /\ Token cfg <> EmptyString).
Proof.
  unfold loadConfig, resolveURL. split; [split |].
  - intros (cfg & Hcfg).
    destruct (String.eqb_spec (Getenv env "CONFLUENCE_API_TOKEN") "") as [_ | Htoken];
      [discriminate Hcfg |].
    destruct (String.eqb_spec (rawEndpoint env) "") as [_ | Hraw]; [discriminate Hcfg |].
    destruct (url_Parse _) as [parsed | e]; [| discriminate Hcfg].
    destruct (HasPrefix (Scheme parsed) "http") eqn:Hscheme; [| discriminate Hcfg].
    eauto.
  - intros (Htoken & Hraw & parsed & Hparse & Hscheme).
    apply String.eqb_neq in Htoken, Hraw. rewrite Htoken, Hraw, Hparse, Hscheme.
    simpl. eauto.
  - intros cfg Hcfg.
    destruct (String.eqb_spec (Getenv env "CONFLUENCE_API_TOKEN") "") as [_ | Htoken];
      [discriminate Hcfg |].
    destruct (String.eqb (rawEndpoint env) ""); [discriminate Hcfg |].
    destruct (url_Parse _) as [parsed | e]; [| discriminate Hcfg].
    destruct (HasPrefix (Scheme parsed) "http"); [| discriminate Hcfg].
    simpl in Hcfg. injection Hcfg as <-. simpl. auto.
Qed.

(** X21. The text handed to [url.Parse] always contains [://]: an endpoint
    without it gets [https://] in front, also when it starts with a scheme
    and a colon only; one that has it anywhere is left as it is, so that
    the step changes nothing when applied twice. *)
Theorem withScheme_separator rawURL :
  Contains (withScheme rawURL) "://" = true
  /\ (Contains rawURL "://" = false -> withScheme rawURL = "https://" +:+ rawURL)
  /\ (Contains rawURL "://" = true -> withScheme rawURL = rawURL)
  /\ withScheme (withScheme rawURL) = withScheme rawURL.
Proof.
  assert (Hsep : Contains (withScheme rawURL) "://" = true).
  { unfold withScheme. destruct (Contains rawURL "://") eqn:Hraw; simpl; [exact Hraw |].
    change ("https://" +:+ rawURL) with ("https" +:+ "://" +:+ rawURL).
    apply Contains_middle. }
  split; [exact Hsep |]. split; [| split].
  - unfold withScheme. intros ->. reflexivity.
  - unfold withScheme. intros ->. reflexivity.
  - unfold withScheme at 1. rewrite Hsep. reflexivity.
Qed.

(** X22. [run] reports a missing token before a missing endpoint, both as
    configuration errors with the message of [loadConfig], whatever
    [serve] would do. It returns no error exactly when [loadConfig]
    accepts the environment and [serve], on the configuration resolved,
    returns none; every error it returns is a configuration error of
    [loadConfig] or an error of [serve] reported as a server error. *)
Theorem run_outcome env serve :
  (Getenv env "CONFLUENCE_API_TOKEN" = EmptyString ->
   runWith url_Parse url_String env serve
   = Some "configuration error: CONFLUENCE_API_TOKEN environment variable is required")
  /\ (Getenv env "CONFLUENCE_API_TOKEN" <> EmptyString -> rawEndpoint env = EmptyString ->
      runWith url_Parse url_String env serve
      = Some ("configuration error: "
              +:+ "CONFLUENCE_BASE_URL (or CONFLUENCE_HOST) environment variable is required"))
  /\ (runWith url_Parse url_String env serve = None <->
      exists cfg, loadConfig url_Parse url_String env = Ok cfg /\ serve cfg = None)
  /\ (forall e,
        runWith url_Parse url_String env serve = Some e ->
        (exists cause,
           loadConfig url_Parse url_String env = Err cause
           /\ e = "configuration error: " +:+ cause)
        \/ (exists cfg cause,
              loadConfig url_Parse url_String env = Ok cfg
              /\ serve cfg = Some cause /\ e = "server error: " +:+ cause)).
Proof.
  unfold runWith. split; [| split; [| split]].
  - intros Htoken. unfold loadConfig, resolveURL. rewrite Htoken. reflexivity.
  - intros Htoken Hraw. unfold loadConfig, resolveURL.
    apply String.eqb_neq in Htoken. rewrite Htoken, Hraw. reflexivity.
  - destruct (loadConfig url_Parse url_String env) as [cfg | e]; split.
    + destruct (serve cfg) eqn:Hserve; [discriminate | eauto].
    + intros (cfg' & [= <-] & ->). reflexivity.
    + discriminate.
    + intros (cfg' & Hcfg & _). discriminate Hcfg.
  - intros e He. destruct (loadConfig url_Parse url_String env) as [cfg | cause].
    + destruct (serve cfg) as [cause |] eqn:Hserve; [| discriminate He].
      injection He as <-. right. eauto.
    + injection He as <-. left. eauto.
Qed.

End ResolverMore.

(* ===================================================================== *)
(** * The further properties at work *)
(* ===================================================================== *)

Lemma arguments_container_witness :
  run searchServer tt confluence_search_content []
  = @handler searchServer confluence_search_content
      {| Params_Name := ""; Params_Arguments := AnyNil |} (start searchServer tt)
  /\ @handler searchServer confluence_list_spaces
       {| Params_Name := ""; Params_Arguments := AnyString "invalid" |}
       (start searchServer tt)
     = (NewToolResultError "arguments are not a JSON object", start searchServer tt).
Proof.
  destruct (@arguments_container searchServer confluence_search_content ""
              (start searchServer tt)) as [_ Hnil].
  destruct (@arguments_container searchServer confluence_list_spaces ""
              (start searchServer tt)) as [Hbad _].
  split; [symmetry; exact Hnil | exact (Hbad (AnyString "invalid") I)].
Defined.

Lemma required_parameters_enforced_witness :
  let out := run searchServer tt confluence_create_content
               [("title", AnyString "T"); ("content", AnyString "C")] in
  IsError (fst out) = true /\ snd out = start searchServer tt.
Proof.
  refine (@required_parameters_enforced searchServer confluence_create_content
            (call [("title", AnyString "T"); ("content", AnyString "C")])
            (list_to_map [("title", AnyString "T"); ("content", AnyString "C")])
            "spaceKey" (start searchServer tt) eq_refl _ _).
  - vm_compute. tauto.
  - intros (s & Hs & _). vm_compute in Hs. discriminate Hs.
Defined.

Lemma required_parameters_suffice_witness :
  exists first,
    sent (snd (run searchServer tt confluence_create_content
                 [("title", AnyString "New Page"); ("spaceKey", AnyString "TEST");
                  ("content", AnyString "<p>Hello</p>"); ("contentId", AnyString "a/b")]))
    = [first]
    /\ Method first = "POST" /\ RelPath first = "/content".
Proof.
  pose (l := [("title", AnyString "New Page"); ("spaceKey", AnyString "TEST");
              ("content", AnyString "<p>Hello</p>"); ("contentId", AnyString "a/b")]).
  destruct (@required_parameters_suffice searchServer confluence_create_content
              (call l) (list_to_map l) (start searchServer tt) eq_refl)
    as (first & rest & Hsent & Hmethod & Hpath & Hrest).
  - intros key Hkey. vm_compute in Hkey.
    destruct Hkey as [<- | [<- | [<- | []]]]; eexists; (split; [vm_compute; reflexivity |]);
      discriminate.
  - intros [Htool | Htool]; discriminate Htool.
  - exists first. rewrite (Hrest ltac:(discriminate)) in Hsent.
    split; [exact Hsent |]. split; [exact Hmethod | exact Hpath].
Defined.

Lemma one_request_witness :
  exists rq,
    exchanges (snd (run searchServer tt confluence_list_spaces []))
    = [(rq, status 200 resultsJSON)]
    /\ Method rq = "GET" /\ RelPath rq = "/search" /\ Payload rq = None
    /\ fst (run searchServer tt confluence_list_spaces []) = NewToolResultText resultsJSON.
Proof.
  destruct (@one_request searchServer confluence_list_spaces (call [])
              (start searchServer tt) ltac:(discriminate))
    as (_ & _ & Hone).
  destruct (Hone ∅ eq_refl eq_refl) as (rq & Hnew & Hmethod & Hpath & Hpayload & _ & Hresult).
  exists rq. split; [exact Hnew |]. split; [exact Hmethod |]. split; [exact Hpath |].
  split; [apply Hpayload; discriminate | exact Hresult].
Defined.

Lemma update_protocol_witness :
  let new := exchanges (snd (run updateServer tt confluence_update_content
                               [("contentId", AnyString "123")])) in
  (new = [] /\ True)
  \/ (exists rq a, new = [(rq, a)] /\ Method rq = "GET")
  \/ (exists rq1 resp rq2 a2,
        new = [(rq1, Ok resp); (rq2, a2)] /\ StatusCode resp < 400 /\ Method rq2 = "PUT").
Proof.
  intros new.
  destruct (@update_protocol updateServer (call [("contentId", AnyString "123")])
              (start updateServer tt) new eq_refl)
    as [[Hnone _] | [(rq & a & Hnew & Hmethod & _)
                    | (rq1 & resp & rq2 & a2 & current & payload & Hnew & _ & _ & Hcode
                       & _ & Hput & _)]].
  - left. split; [exact Hnone | exact I].
  - right. left. exists rq, a. split; [exact Hnew | exact Hmethod].
  - right. right. exists rq1, resp, rq2, a2.
    split; [exact Hnew |]. split; [exact Hcode | exact Hput].
Defined.

(** [TestHandleSearchContent]: the result is the body of the response. *)
Lemma success_is_response_body_witness :
  exists resp,
    fst (run searchServer tt confluence_search_content
           [("cql", AnyString ("title ~ " +:+ dquote +:+ "Test" +:+ dquote))])
    = NewToolResultText (BodyData resp)
    /\ StatusCode resp < 400.
Proof.
  destruct (@success_is_response_body searchServer confluence_search_content
              (call [("cql", AnyString ("title ~ " +:+ dquote +:+ "Test" +:+ dquote))])
              (start searchServer tt) eq_refl)
    as (earlier & rq & resp & _ & Hcode & _ & Hresult).
  exists resp. split; [exact Hresult | exact Hcode].
Defined.

Lemma response_passes_through_witness :
  fst (run updateServer tt confluence_update_content
         [("contentId", AnyString "123"); ("title", AnyString "New Title")])
  = NewToolResultText updatedJSON.
Proof.
  pose (args := [("contentId", AnyString "123"); ("title", AnyString "New Title")]).
  pose (final := snd (run updateServer tt confluence_update_content args)).
  refine (@response_passes_through updateServer confluence_update_content (call args)
            (start updateServer tt)
            (removelast (exchanges final))
            (putRequest "/content/123"
               (updatePayload (list_to_map args) "123"
                  (page "123" "Old Title" None (Some 1)) 2))
            {| StatusCode := 200; BodyData := updatedJSON; BodyErr := None |}
            _ _ eq_refl (fun _ => eq_refl)).
  - vm_compute. reflexivity.
  - simpl. lia.
Defined.

Lemma transport_failure_surfaces_witness :
  let out := run unreachableServer tt confluence_list_spaces [] in
  IsError (fst out) = true
  /\ exists context, Text (fst out) = context +:+ unreachable.
Proof.
  intros out.
  refine (proj2 (@transport_failure_surfaces unreachableServer confluence_list_spaces
                   (call []) (start unreachableServer tt) (exchanges (snd out))
                   (@firstRequest unreachableServer confluence_list_spaces ∅)
                   unreachable eq_refl _)).
  left. vm_compute. reflexivity.
Defined.

(** [TestDoRequestReadError], through a handler. *)
Lemma truncated_body_surfaces_witness :
  fst (run shortBodyServer tt confluence_get_content [("contentId", AnyString "123")])
  = NewToolResultError
      "error getting content: failed to read response body: unexpected EOF".
Proof.
  refine (proj1 (@truncated_body_surfaces shortBodyServer confluence_get_content
                   (call [("contentId", AnyString "123")]) (start shortBodyServer tt)
                   (exchanges (snd (run shortBodyServer tt confluence_get_content
                                      [("contentId", AnyString "123")])))
                   (@firstRequest shortBodyServer confluence_get_content
                      (list_to_map [("contentId", AnyString "123")]))
                   shortBody "unexpected EOF" eq_refl _ eq_refl) _).
  - left. vm_compute. reflexivity.
  - discriminate.
Defined.

(** [TestHandleGetContent], with expand: the argument is kept and
    [body.storage] added. *)
Lemma get_content_request_witness :
  exists query,
    sent (snd (run searchServer tt confluence_get_content
                 [("contentId", AnyString "123"); ("expand", AnyString "version")]))
    = [getRequest "/content/123" query]
    /\ Values_Get query "expand" = "version,body.storage".
Proof.
  pose (l := [("contentId", AnyString "123"); ("expand", AnyString "version")]).
  destruct (@get_content_request searchServer (call l) (list_to_map l)
              (start searchServer tt) eq_refl eq_refl)
    as (contentID & query & Hsent & Hid & _ & _ & _ & _ & Hadd & _).
  vm_compute in Hid. injection Hid as <-.
  exists query. split; [exact Hsent |].
  apply Hadd; [discriminate |].
  intros (p & Hp & Htrim). vm_compute in Hp. destruct Hp as [<- | []].
  vm_compute in Htrim. discriminate Htrim.
Defined.

(** [TestHandleSearchContent] *)
Lemma search_content_request_witness :
  let cql := "title ~ " +:+ dquote +:+ "Test" +:+ dquote in
  exists query,
    sent (snd (run searchServer tt confluence_search_content [("cql", AnyString cql)]))
    = [getRequest "/search" query]
    /\ query !! "cql" = Some [cql] /\ query !! "limit" = Some ["25"].
Proof.
  intros cql.
  destruct (@search_content_request searchServer (call [("cql", AnyString cql)])
              (list_to_map [("cql", AnyString cql)]) (start searchServer tt)
              eq_refl eq_refl)
    as (cql' & query & Hsent & Harg & Hcql & Hother).
  vm_compute in Harg. injection Harg as <-.
  exists query. split; [exact Hsent |]. split; [exact Hcql |].
  rewrite Hother; [vm_compute; reflexivity | discriminate].
Defined.

(** [TestHandleCreateContent] *)
Lemma create_content_request_witness :
  exists payload,
    sent (snd (run searchServer tt confluence_create_content
                 [("title", AnyString "New Page"); ("spaceKey", AnyString "TEST");
                  ("content", AnyString "<p>Hello</p>"); ("parentId", AnyString "456")]))
    = [{| Method := "POST"; RelPath := "/content"; Query := ∅; Payload := Some payload |}]
    /\ Title payload = "New Page" /\ PageType payload = "page"
    /\ Ancestors payload = [{| AncestorID := "456" |}].
Proof.
  pose (l := [("title", AnyString "New Page"); ("spaceKey", AnyString "TEST");
              ("content", AnyString "<p>Hello</p>"); ("parentId", AnyString "456")]).
  destruct (@create_content_request searchServer (call l) (list_to_map l)
              (start searchServer tt) eq_refl eq_refl)
    as (payload & Hsent & Htitle & _ & _ & _ & Htype & Hparent & _).
  vm_compute in Htitle. injection Htitle as Htitle.
  exists payload. split; [exact Hsent |]. split; [symmetry; exact Htitle |].
  split.
  - apply Htype. intros (s & Hs & _). vm_compute in Hs. discriminate Hs.
  - apply (Hparent "456"); [vm_compute; reflexivity | discriminate].
Defined.

(** [TestHandleUpdateContent] *)
Lemma update_payload_fields_witness :
  exists payload,
    sent (snd (run updateServer tt confluence_update_content
                 [("contentId", AnyString "123"); ("title", AnyString "New Title");
                  ("versionComment", AnyString "minor")]))
    = [getRequest "/content/123"
         (@updateQuery updateServer
            (list_to_map [("contentId", AnyString "123"); ("title", AnyString "New Title");
                          ("versionComment", AnyString "minor")]));
       putRequest "/content/123" payload]
    /\ ID payload = "123" /\ Title payload = "New Title"
    /\ PageVersion payload = Some {| Number := 2; Message := "minor" |}.
Proof.
  pose (l := [("contentId", AnyString "123"); ("title", AnyString "New Title");
              ("versionComment", AnyString "minor")]).
  pose (args := list_to_map l : gmap string any).
  pose (st := start updateServer tt).
  assert (Hvalid : validContentCall (call l) args "123").
  { repeat split; try discriminate; vm_compute; reflexivity. }
  destruct (@update_payload_fields updateServer (call l) args "123" st
              (page "123" "Old Title" None (Some 1))
              (@after updateServer st
                 (getRequest "/content/123" (@updateQuery updateServer args)))
              2 Hvalid eq_refl eq_refl)
    as (payload & Hsent & Hid & Htitle & _ & Hversion & _).
  exists payload. split; [exact Hsent |]. split; [exact Hid |].
  split; [| exact Hversion].
  apply Htitle; [vm_compute; reflexivity | discriminate].
Defined.

(** An explicit version beyond the range of [int] still gives a version
    number within it. *)
Lemma put_version_in_range_witness :
  exists payload n,
    sent (snd (run updateServer tt confluence_update_content
                 [("contentId", AnyString "123"); ("version", AnyFloat64 two_63)]))
    = [getRequest "/content/123"
         (@updateQuery updateServer
            (list_to_map [("contentId", AnyString "123"); ("version", AnyFloat64 two_63)]));
       putRequest "/content/123" payload]
    /\ versionNumber payload = Some n /\ is_int n.
Proof.
  pose (l := [("contentId", AnyString "123"); ("version", AnyFloat64 two_63)]).
  pose (args := list_to_map l : gmap string any).
  pose (st := start updateServer tt).
  assert (Hvalid : validContentCall (call l) args "123").
  { repeat split; try discriminate; vm_compute; reflexivity. }
  destruct (@put_version_in_range updateServer (call l) args "123" st
              (page "123" "Old Title" None (Some 1))
              (@after updateServer st
                 (getRequest "/content/123" (@updateQuery updateServer args)))
              Hvalid eq_refl)
    as [Hexplicit Hrange].
  destruct (Hexplicit two_63 eq_refl) as (payload & Hsent & _).
  destruct (Hrange _ _ Hsent) as (n & Hn & Hint).
  exists payload, n. split; [exact Hsent |]. split; [exact Hn | exact Hint].
Defined.

(** An argument no handler reads changes nothing. *)
Lemma unread_arguments_ignored_witness :
  run searchServer tt confluence_list_spaces
    [("searchText", AnyString "Docs"); ("spaceKey", AnyString "TEST")]
  = run searchServer tt confluence_list_spaces [("searchText", AnyString "Docs")].
Proof.
  refine (@unread_arguments_ignored searchServer confluence_list_spaces ""
            (list_to_map [("searchText", AnyString "Docs"); ("spaceKey", AnyString "TEST")])
            (list_to_map [("searchText", AnyString "Docs")])
            (start searchServer tt) _).
  intros key Hkey. simpl in Hkey.
  destruct Hkey as [<- | [<- | [<- | [<- | []]]]]; vm_compute; reflexivity.
Defined.


(** [TestHandleListSpacesMore], with quotes. *)
Lemma spaces_cql_quoting_witness :
  exists rq text,
    sent (snd (run searchServer tt confluence_list_spaces
                 [("searchText", AnyString ("My " +:+ dquote +:+ "Space" +:+ dquote))]))
    = [rq]
    /\ Query rq !! "cql"
       = Some ["type=space AND title ~ " +:+ dquote +:+ text +:+ dquote]
    /\ quotes_escaped false text = true.
Proof.
  pose (l := [("searchText", AnyString ("My " +:+ dquote +:+ "Space" +:+ dquote))]).
  destruct (@spaces_cql_quoting searchServer (call l) (list_to_map l)
              (start searchServer tt) eq_refl)
    as (rq & cql & Hsent & Hcql & _ & Htext).
  destruct (Htext eq_refl) as (text & -> & Hescaped).
  exists rq, text. split; [exact Hsent |]. split; [exact Hcql | exact Hescaped].
Defined.


Lemma loadConfig_succeeds_iff_witness :
  exists cfg,
    loadConfig NetURL.Parse NetURL.String testEnv = Ok cfg
    /\ Token cfg = "test-token".
Proof.
  destruct (loadConfig_succeeds_iff NetURL.Parse NetURL.String testEnv) as [Hiff Htoken].
  destruct (proj2 Hiff) as (cfg & Hcfg).
  - split; [discriminate |]. split; [discriminate |].
    eexists. split; vm_compute; reflexivity.
  - exists cfg. split; [exact Hcfg |]. exact (proj1 (Htoken cfg Hcfg)).
Defined.

Lemma withScheme_separator_witness :
  withScheme "example.atlassian.net" = "https://example.atlassian.net"
  /\ withScheme "http://localhost:8090" = "http://localhost:8090".
Proof.
  split.
  - exact (proj1 (proj2 (withScheme_separator "example.atlassian.net")) eq_refl).
  - exact (proj1 (proj2 (proj2 (withScheme_separator "http://localhost:8090"))) eq_refl).
Defined.

(** [TestRun] *)
Lemma run_outcome_witness :
  runWith NetURL.Parse NetURL.String testEnv (fun _ => None) = None
  /\ runWith NetURL.Parse NetURL.String (<["CONFLUENCE_API_TOKEN" := ""]> testEnv)
       (fun _ => None)
     = Some "configuration error: CONFLUENCE_API_TOKEN environment variable is required".
Proof.
  split.
  - apply (run_outcome NetURL.Parse NetURL.String testEnv (fun _ => None)).
    eexists. split; [vm_compute; reflexivity | reflexivity].
  - apply (run_outcome NetURL.Parse NetURL.String
             (<["CONFLUENCE_API_TOKEN" := ""]> testEnv) (fun _ => None)).
    reflexivity.
Defined.

(* ===================================================================== *)
(** * Declared parameters *)
(* ===================================================================== *)

(** X23. No parameter [setupServer] declares is dead: for every tool and
    every parameter declared for it there are a server and arguments for
    which a value of the declared kind under that name changes the
    requests the handler sends. The converse does not hold: the
    get-content handler also reads [limit], which is not declared for
    it. *)
Theorem declared_parameters_read :
  (forall tool p,
     In p (toolParams tool) ->
     exists (P : Platform) (st : @NetState P) args value,
       kindOf value = Some (ParamKind p)
       /\ sent (snd (@handler P tool (callWith (<[ParamName p := value]> args)) st))
          <> sent (snd (@handler P tool (callWith args) st)))
  /\ (exists (P : Platform) (st : @NetState P) args value,
        ~ In "limit" (map ParamName (toolParams confluence_get_content))
        /\ kindOf value = Some NumberParam
        /\ sent (snd (@handler P confluence_get_content
                        (callWith (<["limit" := value]> args)) st))
           <> sent (snd (@handler P confluence_get_content (callWith args) st))).
Proof.
  split.
  - intros tool p Hin.
    exists updateServer, (start updateServer tt), sampleArgs, (sampleValue (ParamKind p)).
    split; [destruct (ParamKind p); reflexivity |].
    destruct tool; simpl in Hin;
      repeat (destruct Hin as [<- | Hin]; [vm_compute; discriminate |]);
      destruct Hin.
  - exists updateServer, (start updateServer tt), sampleArgs, (sampleValue NumberParam).
    split; [| split; [reflexivity |]].
    + simpl. intuition discriminate.
    + vm_compute. discriminate.
Qed.

Lemma declared_parameters_read_witness :
  exists (P : Platform) (st : @NetState P) args value,
    kindOf value = Some NumberParam
    /\ sent (snd (@handler P confluence_update_content
                    (callWith (<["version" := value]> args)) st))
       <> sent (snd (@handler P confluence_update_content (callWith args) st)).
Proof.
  refine (proj1 declared_parameters_read confluence_update_content
            (WithNumber "version"
               "The new version number (optional, defaults to current version + 1)") _).
  simpl. tauto.
Defined.
